(** * geemap/conversion.py: the JavaScript-to-Python line transpiler

    A shallow embedding of the text-rewriting core of [geemap/conversion.py]
    ([find_matching_bracket], [format_params], [use_math], [convert_for_loop],
    [check_map_functions] and the body of [js_to_python]) and of the list
    and path processing of its notebook helpers ([remove_qgis_import],
    [template_header], [template_footer], [py_to_ipynb], [update_nb_header],
    and the URLs of [download_gee_app] and [download_from_gdrive]), together
    with the properties stated about them.

    Conventions of the embedding.
    - A Python [str] is a [string]; its characters are the code points below
      256 (the type [ascii]).
    - A Python [int] is a [Z]; indices keep Python's meaning, negative ones
      included (counted from the end, slices clamped).
    - A Python exception is a value of [exn]; a function that can raise
      returns a [result].
    - [random_string] is an oracle: the k-th call made by one run of
      [check_map_functions] returns [rnd k].
    - File reading and writing are outside the model: [js_to_python] takes
      the list returned by [readlines] and returns the text it writes, and
      so do the notebook helpers; the directories they create, the commands
      they run and the downloads are not modelled. *)

From Stdlib Require Import ZArith List String Ascii Bool Lia.
Import ListNotations.

Open Scope list_scope.
Open Scope string_scope.
Open Scope Z_scope.

(** ** Exceptions *)

Inductive exn : Set :=
| IndexError
| ValueError.

Inductive result (A : Type) : Type :=
| Return (a : A)
| Raise (e : exn).

Arguments Return {A} a.
Arguments Raise {A} e.

Definition bind {A B : Type} (m : result A) (k : A -> result B) : result B :=
  match m with
  | Return a => k a
  | Raise e => Raise e
  end.

Notation "x <- m ;; k" := (bind m (fun x => k))
  (at level 61, m at next level, right associativity).
Notation "' p <- m ;; k" := (bind m (fun x => match x with p => k end))
  (at level 61, p pattern, m at next level, right associativity).

Definition returns {A : Type} (m : result A) : Prop :=
  exists a, m = Return a.

(** ** Python strings *)

Module Str.

Definition len (s : string) : Z := Z.of_nat (String.length s).

Fixpoint drop (n : nat) (s : string) : string :=
  match n, s with
  | O, _ => s
  | S n', String _ s' => drop n' s'
  | S _, EmptyString => EmptyString
  end.

Fixpoint take (n : nat) (s : string) : string :=
  match n, s with
  | O, _ => EmptyString
  | S n', String c s' => String c (take n' s')
  | S _, EmptyString => EmptyString
  end.

(** A slice bound [i] of a sequence of length [n], as Python normalises it:
    a negative bound counts from the end, and the result is clamped to
    [0..n]. *)
Definition clamp (n : nat) (i : Z) : nat :=
  let j := if i <? 0 then i + Z.of_nat n else i in
  Z.to_nat (Z.min (Z.max j 0) (Z.of_nat n)).

Definition bound (n : nat) (dflt : nat) (i : option Z) : nat :=
  match i with
  | Some i => clamp n i
  | None => dflt
  end.

(** [s[lo:hi]]; an omitted bound is [None]. *)
Definition slice (s : string) (lo hi : option Z) : string :=
  let n := String.length s in
  let l := bound n 0%nat lo in
  let h := bound n n hi in
  take (h - l) (drop l s).

(** [s[i:]] and [s[:i]]. *)
Definition from (s : string) (i : Z) : string := slice s (Some i) None.
Definition upto (s : string) (i : Z) : string := slice s None (Some i).

(** [s.startswith(p)]. *)
Fixpoint startswith (s p : string) {struct p} : bool :=
  match p, s with
  | EmptyString, _ => true
  | String a p', String b s' => Ascii.eqb a b && startswith s' p'
  | String _ _, EmptyString => false
  end.

(** [s.endswith(p)]. *)
Definition endswith (s p : string) : bool :=
  (String.length p <=? String.length s)%nat
  && String.eqb (drop (String.length s - String.length p) s) p.

(** Offset of the leftmost occurrence of [sub] in [s]. *)
Fixpoint find_nat (s sub : string) : option nat :=
  if startswith s sub then Some O
  else match s with
       | EmptyString => None
       | String _ s' => option_map S (find_nat s' sub)
       end.

(** [s.find(sub)]. *)
Definition find (s sub : string) : Z :=
  match find_nat s sub with
  | Some i => Z.of_nat i
  | None => -1
  end.

(** [s.index(sub)]. *)
Definition index (s sub : string) : result Z :=
  match find_nat s sub with
  | Some i => Return (Z.of_nat i)
  | None => Raise ValueError
  end.

(** [sub in s]. *)
Definition contains (sub s : string) : bool :=
  match find_nat s sub with
  | Some _ => true
  | None => false
  end.

Definition is_empty (s : string) : bool :=
  match s with
  | EmptyString => true
  | String _ _ => false
  end.

(** The budget of [s.replace(old, new, count)]: [None] when [count] is
    omitted. *)
Definition spent (n : option nat) : bool :=
  match n with
  | Some O => true
  | _ => false
  end.

Definition less (n : option nat) : option nat := option_map Nat.pred n.

(** [s.replace(old, new[, count])]: the occurrences of [old] are taken
    from the left and do not overlap.  [skip] counts the characters of the
    occurrence just replaced that are still to be dropped.  With an empty
    [old], [new] is put before every character and at the end. *)
Fixpoint replace_go (old new : string) (n : option nat) (skip : nat)
    (s : string) {struct s} : string :=
  match s with
  | EmptyString =>
      match skip with
      | O => if negb (spent n) && is_empty old then new else EmptyString
      | S _ => EmptyString
      end
  | String c s' =>
      match skip with
      | S k => replace_go old new n k s'
      | O =>
          if spent n then s
          else if startswith s old then
            new ++ (if is_empty old
                    then String c (replace_go old new (less n) O s')
                    else replace_go old new (less n)
                           (String.length old - 1) s')
          else String c (replace_go old new n O s')
      end
  end.

Definition replace (s old new : string) : string :=
  replace_go old new None O s.

Definition replace_count (s old new : string) (count : nat) : string :=
  replace_go old new (Some count) O s.

(** [s.split(sep)] for a non-empty [sep] (every separator in the module is
    a non-empty literal). *)
Fixpoint split_go (sep : string) (skip : nat) (s : string) {struct s}
    : list string :=
  match s with
  | EmptyString => [EmptyString]
  | String c s' =>
      match skip with
      | S k => split_go sep k s'
      | O =>
          if startswith s sep then
            EmptyString :: split_go sep (String.length sep - 1) s'
          else
            match split_go sep O s' with
            | piece :: pieces => String c piece :: pieces
            | [] => [String c EmptyString]
            end
      end
  end.

Definition split (s sep : string) : list string := split_go sep O s.

(** [s.count(sub)] for a non-empty [sub]. *)
Fixpoint count_go (sub : string) (skip : nat) (s : string) {struct s} : Z :=
  match s with
  | EmptyString => 0
  | String c s' =>
      match skip with
      | S k => count_go sub k s'
      | O =>
          if startswith s sub
          then 1 + count_go sub (String.length sub - 1) s'
          else count_go sub O s'
      end
  end.

Definition count (s sub : string) : Z := count_go sub O s.

(** [sep.join(items)]. *)
Fixpoint join (sep : string) (items : list string) : string :=
  match items with
  | [] => EmptyString
  | [x] => x
  | x :: rest => x ++ sep ++ join sep rest
  end.

(** [''.join(items)]. *)
Fixpoint cat (items : list string) : string :=
  match items with
  | [] => EmptyString
  | x :: rest => x ++ cat rest
  end.

(** [str.isspace] on the code points below 256. *)
Definition is_space (c : ascii) : bool :=
  let n := nat_of_ascii c in
  ((9 <=? n) && (n <=? 13) || (28 <=? n) && (n <=? 32)
   || (n =? 133) || (n =? 160))%nat.

Fixpoint lstrip (s : string) : string :=
  match s with
  | EmptyString => EmptyString
  | String c s' => if is_space c then lstrip s' else s
  end.

Fixpoint rstrip (s : string) : string :=
  match s with
  | EmptyString => EmptyString
  | String c s' =>
      let r := rstrip s' in
      if is_empty r && is_space c then EmptyString else String c r
  end.

Definition strip (s : string) : string := rstrip (lstrip s).

(** [c * n] for a one-character string [c]. *)
Fixpoint times (c : ascii) (n : nat) : string :=
  match n with
  | O => EmptyString
  | S n' => String c (times c n')
  end.

(** Number of characters of [s] equal to [c]. *)
Fixpoint occ (c : ascii) (s : string) : nat :=
  match s with
  | EmptyString => O
  | String a s' => ((if Ascii.eqb a c then 1 else 0) + occ c s')%nat
  end.

(** [s[i]]. *)
Definition get (s : string) (i : Z) : result ascii :=
  let n := len s in
  let j := if i <? 0 then i + n else i in
  if (0 <=? j) && (j <? n) then
    match String.get (Z.to_nat j) s with
    | Some c => Return c
    | None => Raise IndexError
    end
  else Raise IndexError.

End Str.

(** ** Python lists *)

Module Lst.

Section Ops.
Context {A : Type}.

Definition len (l : list A) : Z := Z.of_nat (List.length l).

(** The position a list index denotes, if any. *)
Definition pos (l : list A) (i : Z) : option nat :=
  let n := len l in
  let j := if i <? 0 then i + n else i in
  if (0 <=? j) && (j <? n) then Some (Z.to_nat j) else None.

(** [l[i]]. *)
Definition get (l : list A) (i : Z) : result A :=
  match pos l i with
  | Some j =>
      match nth_error l j with
      | Some x => Return x
      | None => Raise IndexError
      end
  | None => Raise IndexError
  end.

Fixpoint update (l : list A) (j : nat) (x : A) : list A :=
  match l, j with
  | [], _ => []
  | _ :: t, O => x :: t
  | a :: t, S j' => a :: update t j' x
  end.

(** [l[i] = x]. *)
Definition set (l : list A) (i : Z) (x : A) : result (list A) :=
  match pos l i with
  | Some j => Return (update l j x)
  | None => Raise IndexError
  end.

(** [l[lo:hi]]. *)
Definition slice (l : list A) (lo hi : Z) : list A :=
  let n := List.length l in
  let a := Str.clamp n lo in
  let b := Str.clamp n hi in
  firstn (b - a) (skipn a l).

End Ops.

End Lst.

(** [for i in range(i0, i0 + n)]: the body runs on the state left by the
    previous round, and an exception ends the loop. *)
Fixpoint for_range {S : Type} (body : S -> Z -> result S) (n : nat) (i : Z)
    (st : S) : result S :=
  match n with
  | O => Return st
  | S n' => st' <- body st i ;; for_range body n' (i + 1) st'
  end.

(** ** find_matching_bracket *)

(** The dictionary [matching_chars]. *)
Definition matching_chars (k : string) : option string :=
  if String.eqb k "{" then Some "}"
  else if String.eqb k "(" then Some ")"
  else if String.eqb k "[" then Some "]"
  else None.

(** [d.popleft()]. *)
Definition popleft (d : list string) : result (list string) :=
  match d with
  | [] => Raise IndexError
  | _ :: d' => Return d'
  end.

(** One round of the inner loop, on the character [item]. *)
Definition scan_item (opening closing : string) (d : list string)
    (item : ascii) : result (list string) :=
  if String.eqb (String item "") closing then popleft d
  else if String.eqb (String item "") opening then Return (d ++ [opening])%list
  else Return d.

(** [for index, item in enumerate(line)], [index] being the number of the
    next character.  The loop ends with [Some index] when the deque is empty
    after the character at [index], and with [None] when the line is used
    up. *)
Fixpoint scan_line (opening closing : string) (d : list string) (index : Z)
    (line : string) : result (list string * option Z) :=
  match line with
  | EmptyString => Return (d, None)
  | String item rest =>
      d' <- scan_item opening closing d item ;;
      match d' with
      | [] => Return (d', Some index)
      | _ :: _ => scan_line opening closing d' (index + 1) rest
      end
  end.

(** [for line_index in range(start_line_index, len(lines))], with [n] rounds
    left and [line_index] the next one. *)
Fixpoint scan_lines (lines : list string) (start_line_index start_char_index : Z)
    (opening closing : string) (n : nat) (line_index : Z) (d : list string)
    : result (Z * Z) :=
  match n with
  | O => Return (-1, -1)
  | S n' =>
      line <- Lst.get lines line_index ;;
      line <- (if line_index =? start_line_index
               then whole <- Lst.get lines line_index ;;
                    Return (Str.from whole start_char_index)
               else Return line) ;;
      r <- scan_line opening closing d 0 line ;;
      match r with
      | (_, Some index) =>
          Return (line_index,
                  if line_index =? start_line_index
                  then start_char_index + index
                  else index)
      | (d', None) =>
          scan_lines lines start_line_index start_char_index opening closing
            n' (line_index + 1) d'
      end
  end.

(** The message printed for an unsupported [matching_char] is not part of
    the model. *)
Definition find_matching_bracket (lines : list string)
    (start_line_index start_char_index : Z) (matching_char : string)
    : result (Z * Z) :=
  match matching_chars matching_char with
  | None => Return (-1, -1)
  | Some closing =>
      scan_lines lines start_line_index start_char_index matching_char closing
        (Z.to_nat (Lst.len lines - start_line_index)) start_line_index []
  end.

(** ** format_params *)

(** [list(find_all(a_str, sub))] for a non-empty [sub]: [pos] is the index
    of the next character. *)
Fixpoint find_all_go (sub : string) (skip : nat) (pos : Z) (s : string)
    {struct s} : list Z :=
  match s with
  | EmptyString => []
  | String c s' =>
      match skip with
      | S k => find_all_go sub k (pos + 1) s'
      | O =>
          if Str.startswith s sub
          then pos :: find_all_go sub (String.length sub - 1) (pos + 1) s'
          else find_all_go sub O (pos + 1) s'
      end
  end.

Definition find_all (a_str sub : string) : list Z := find_all_go sub O 0 a_str.

(** The one-character string that holds a double quote. *)
Definition dquote : string := String (ascii_of_nat 34) "".

Definition unquoted (item : string) : bool :=
  negb (Str.contains dquote item) && negb (Str.contains "'" item).

(** The body of [for i in range(0, count)] when [count == 1]. *)
Definition quote_single (items : list string) (i : Z) : result (list string) :=
  whole <- Lst.get items i ;;
  let item := Str.strip whole in
  if unquoted item then
    let new_item := "'" ++ item ++ "'" in
    Lst.set items i (Str.replace whole item new_item)
  else Return items.

(** The body of [for i in range(0, count)] when [count > 1]. *)
Definition quote_multi (items : list string) (i : Z) : result (list string) :=
  item <- Lst.get items i ;;
  if Str.contains "," item then
    let subitems := Str.split item "," in
    subitem <- Lst.get subitems (-1) ;;
    if unquoted subitem then
      let new_subitem := "'" ++ Str.strip subitem ++ "'" in
      last <- Lst.get subitems (-1) ;;
      subitems <- Lst.set subitems (-1) (Str.replace last subitem new_subitem) ;;
      Lst.set items i (Str.join ", " subitems)
    else Return items
  else
    if unquoted item then
      let new_item := "'" ++ Str.strip item ++ "'" in
      let padding := Str.len item - Str.len (Str.strip item) in
      Lst.set items i
        (Str.times " " (Z.to_nat padding) ++ Str.replace item item new_item)
    else Return items.

(** [format_params(line, sep)], for a non-empty [sep] (with an empty one the
    generator [find_all] never ends); every caller leaves [sep] at its
    default [":"]. *)
Definition format_params (line : string) (sep : string) : result string :=
  let new_line := line in
  let prefix := "" in
  if Str.startswith (Str.strip line) "for" then Return line
  else
    let indices := find_all line sep in
    let count := Lst.len indices in
    '(prefix, line) <-
      (if Str.contains "{" line then
         bracket_index <- Str.index line "{" ;;
         first <- Lst.get indices 0 ;;
         if bracket_index <? first
         then Return (Str.upto line (bracket_index + 1),
                      Str.from line (bracket_index + 1))
         else Return (prefix, line)
       else Return (prefix, line)) ;;
    new_line <-
      (if 0 <? count then
         let items := Str.split line sep in
         if count =? 1 then
           items <- for_range quote_single (Z.to_nat count) 0 items ;;
           Return (Str.join ":" items)
         else
           items <- for_range quote_multi (Z.to_nat count) 0 items ;;
           Return (Str.join ":" items)
       else Return new_line) ;;
    Return (prefix ++ new_line).

(** ** use_math *)

Fixpoint use_math (lines : list string) : bool :=
  match lines with
  | [] => false
  | line :: rest => Str.contains "Math." line || use_math rest
  end.

(** ** convert_for_loop *)

(** [item.split(' ')[-1]] for every [item] of [items]. *)
Fixpoint last_words (items : list string) : result (list string) :=
  match items with
  | [] => Return []
  | item :: rest =>
      w <- Lst.get (Str.split item " ") (-1) ;;
      ws <- last_words rest ;;
      Return (w :: ws)
  end.

Definition convert_for_loop (line : string) : result string :=
  let line := if Str.contains "var " line
              then Str.replace line "var " "" else line in
  start_index <- Str.index line "(" ;;
  end_index <- Str.index line ")" ;;
  let prefix := Str.upto line start_index in
  let suffix := Str.from line (end_index + 1) in
  let params := Str.slice line (Some (start_index + 1)) (Some end_index) in
  if Str.contains " in " params && (Str.count params ";" =? 0) then
    Return (prefix ++ (params ++ ":") ++ suffix)
  else
    let items := Str.split params "=" in
    first <- Lst.get items 0 ;;
    let param_name := Str.strip first in
    let items := Str.split params ";" in
    subitems <- last_words items ;;
    start <- Lst.get subitems 0 ;;
    end_ <- Lst.get subitems 1 ;;
    step <- Lst.get subitems 2 ;;
    let step := if Str.contains "++" step then "1"
                else if Str.contains "--" step then "-1"
                else step in
    let prefix := Str.upto line start_index in
    let suffix := Str.from line (end_index + 1) in
    Return (prefix
            ++ (param_name ++ " in range(" ++ start ++ ", " ++ end_ ++ ", "
                ++ step ++ "):")
            ++ suffix).

(** ** check_map_functions *)

Definition newline : string := String (ascii_of_nat 10) "".

(** The test that selects the lines to hoist. *)
Definition has_map_function (line : string) : bool :=
  Str.contains ".map(function" line || Str.contains ".map (function" line.

(** The lists [input_lines] and [output_lines], and the number of calls of
    [random_string] so far. *)
Record hoist_state : Type := {
  input_lines : list string;
  output_lines : list string;
  calls : nat
}.

(** [for sub_index, tmp_line in enumerate(body)]: each line of the body goes
    to [output_lines] and its place in [input_lines] is blanked. *)
Fixpoint move_body (body : list string) (index sub_index : Z)
    (inp out : list string) : result (list string * list string) :=
  match body with
  | [] => Return (inp, out)
  | tmp_line :: rest =>
      inp' <- Lst.set inp (index + 1 + sub_index) "" ;;
      move_body rest index (sub_index + 1) inp' (out ++ [tmp_line])%list
  end.

(** One round of [for index, line in enumerate(input_lines)]; the iterator
    reads the list as the earlier rounds left it. *)
Definition hoist_line (rnd : nat -> string) (st : hoist_state) (index : Z)
    : result hoist_state :=
  line <- Lst.get (input_lines st) index ;;
  if has_map_function line then
    bracket_index <- Str.index line "{" ;;
    '(matching_line_index, matching_char_index) <-
      find_matching_bracket (input_lines st) index bracket_index "{" ;;
    func_start_index <- Str.index line "function" ;;
    let func_name := "func_" ++ rnd (calls st) in
    let func_header :=
      Str.replace (Str.from line func_start_index)
        "function" ("function " ++ func_name) in
    let out := (output_lines st ++ [newline] ++ [func_header])%list in
    '(inp, out) <-
      move_body (Lst.slice (input_lines st) (index + 1) matching_line_index)
        index 0 (input_lines st) out ;;
    let header_line := Str.upto line func_start_index ++ func_name in
    let header_line := Str.rstrip header_line in
    closing_line <- Lst.get inp matching_line_index ;;
    let func_footer := Str.upto closing_line (matching_char_index + 1) in
    let out := (out ++ [func_footer])%list in
    closing_line <- Lst.get inp matching_line_index ;;
    let footer_line := Str.strip (Str.from closing_line (matching_char_index + 1)) in
    let '(header_line, footer_line) :=
      if String.eqb footer_line ")" || String.eqb footer_line ");"
      then (header_line ++ footer_line, "")
      else (header_line, footer_line) in
    inp <- Lst.set inp matching_line_index footer_line ;;
    Return {| input_lines := inp;
              output_lines := (out ++ [header_line] ++ [footer_line])%list;
              calls := S (calls st) |}
  else
    Return {| input_lines := input_lines st;
              output_lines := (output_lines st ++ [line])%list;
              calls := calls st |}.

(** [check_map_functions(input_lines)]: the list it returns, and the state
    in which it leaves the caller's [input_lines]. *)
Definition check_map_functions (rnd : nat -> string) (lines : list string)
    : result (list string * list string) :=
  st <- for_range (hoist_line rnd) (List.length lines) 0
          {| input_lines := lines; output_lines := []; calls := O |} ;;
  Return (output_lines st, input_lines st).

(** ** js_to_python *)

(** [s[:i] + s[i+1:]]: the string without the character at [i]. *)
Definition without (s : string) (i : Z) : string :=
  Str.upto s i ++ Str.from s (i + 1).

(** The three replacements of the literals [true], [false] and [null]. *)
Definition replace_literals (line : string) : string :=
  let line := Str.replace (Str.replace line "true" "True") "false" "False" in
  Str.replace line "null" "{}".

(** The fixed sequence of replacements applied to every line. *)
Definition replace_tokens (line : string) : string :=
  let line := Str.replace line "//" "#" in
  let line := Str.replace_count line "var " "" 1 in
  let line := Str.replace line "/*" "#" in
  let line := Str.replace line "*/" "#" in
  let line := replace_literals line in
  let line := Str.replace line ".or" ".Or" in
  let line := Str.replace line ".and" ".And" in
  let line := Str.replace line ".not" ".Not" in
  let line := Str.replace line "visualize({" "visualize(**{" in
  let line := Str.replace line "Math.PI" "math.pi" in
  let line := Str.replace line "Math." "math." in
  let line := Str.replace line "= new" "=" in
  Str.rstrip line.

(** The list [lines] being converted and the text [output] built so far. *)
Record transpile_state : Type := {
  lines_of : list string;
  output : string
}.

(** The branch for a function definition. *)
Definition convert_function (lines : list string) (index : Z) (line : string)
    : result (list string * string) :=
  bracket_index <- Str.index line "{" ;;
  '(matching_line_index, matching_char_index) <-
    find_matching_bracket lines index bracket_index "{" ;;
  let line := without line bracket_index in
  '(lines, line) <-
    (if matching_line_index =? index then
       Return (lines, without line matching_char_index)
     else
       tmp_line <- Lst.get lines matching_line_index ;;
       lines <- Lst.set lines matching_line_index
                  (without tmp_line matching_char_index) ;;
       Return (lines, line)) ;;
  let line :=
    Str.replace (Str.replace (Str.replace line " = function" "")
                   "=function" "") "function " "" in
  let indent := Str.len line - Str.len (Str.lstrip line) in
  Return (lines,
          Str.times " " (Z.to_nat indent) ++ "def " ++ Str.strip line ++ ":").

(** The branch for a line with an opening brace that is not a function
    definition. *)
Definition convert_block (lines : list string) (index : Z) (line : string)
    : result (list string * string) :=
  bracket_index <- Str.index line "{" ;;
  '(matching_line_index, matching_char_index) <-
    find_matching_bracket lines index bracket_index "{" ;;
  if (matching_line_index =? index) && Str.contains ":" line then
    Return (lines, line)
  else if Str.contains "for (" line || Str.contains "for(" line then
    line <- convert_for_loop line ;;
    lines <- Lst.set lines index line ;;
    bracket_index <- Str.index line "{" ;;
    '(matching_line_index, matching_char_index) <-
      find_matching_bracket lines index bracket_index "{" ;;
    tmp_line <- Lst.get lines matching_line_index ;;
    lines <- Lst.set lines matching_line_index
               (without tmp_line matching_char_index) ;;
    Return (lines, Str.replace line "{" "")
  else Return (lines, line).

(** One round of [for index, line in enumerate(lines)].  The test
    [line is None] never holds for a string and is left out. *)
Definition transpile_line (st : transpile_state) (index : Z)
    : result transpile_state :=
  let lines := lines_of st in
  line <- Lst.get lines index ;;
  line <-
    (if Str.contains "/* color" line && Str.contains "*/" line then
       i <- Str.index line "/*" ;;
       j <- Str.index line "*/" ;;
       Return (Str.lstrip (Str.upto line i) ++ Str.from line (j + 2))
     else Return line) ;;
  '(lines, line) <-
    (if Str.contains "= function" line || Str.contains "=function" line
        || Str.startswith (Str.strip line) "function"
     then convert_function lines index line
     else if Str.contains "{" line then convert_block lines index line
     else Return (lines, line)) ;;
  let line := replace_tokens line in
  let line :=
    if Str.endswith line "+" then line ++ " \"
    else if Str.endswith line ";" then Str.upto line (-1)
    else line in
  let line :=
    if Str.startswith (Str.lstrip line) "*"
    then Str.replace line "*" "#" else line in
  line <-
    (if Str.contains ":" line
        && negb (Str.startswith (Str.strip line) "#")
        && negb (Str.startswith (Str.strip line) "def")
        && negb (Str.startswith (Str.strip line) ".")
     then format_params line ":"
     else Return line) ;;
  line <-
    (if (index <? Lst.len lines - 1)
        && Str.startswith (Str.lstrip line) "#"
     then
       next <- Lst.get lines (index + 1) ;;
       Return (if Str.startswith (Str.lstrip next) "." then "" else line)
     else Return line) ;;
  if Str.startswith (Str.lstrip line) "." then
    line <- (if Str.contains "#" line
             then i <- Str.index line "#" ;; Return (Str.upto line i)
             else Return line) ;;
    Return {| lines_of := lines;
              output := Str.rstrip (output st) ++ " " ++ "\" ++ newline
                        ++ line ++ newline |}
  else
    Return {| lines_of := lines; output := output st ++ line ++ newline |}.

(** The test for a file that is already a Python script. *)
Definition is_python (lines : list string) : bool :=
  existsb (fun line => String.eqb (Str.strip line) "import ee") lines.

(** [js_to_python(in_file, out_file, use_qgis, github_repo)]: [lines] is what
    [readlines] returns for [in_file] (the same both times the file is
    read), [in_file] is the path after it has been resolved, and the result
    is the text written to [out_file] and returned. *)
Definition js_to_python (rnd : nat -> string) (lines : list string)
    (in_file : string) (use_qgis : bool) (github_repo : option string)
    : result string :=
  let qgis_import_str :=
    if use_qgis then "from ee_plugin import Map " ++ newline else "" in
  let github_url :=
    match github_repo with
    | Some repo => "# GitHub URL: " ++ repo ++ in_file ++ newline ++ newline
    | None => ""
    end in
  let math_import := use_math lines in
  let math_import_str := if math_import then "import math" ++ newline else "" in
  if is_python lines then
    Return (github_url ++ Str.cat lines)
  else
    let header :=
      github_url ++ "import ee " ++ newline ++ qgis_import_str
      ++ math_import_str in
    let output0 := header ++ newline in
    '(lines, _) <- check_map_functions rnd lines ;;
    st <- for_range transpile_line (List.length lines) 0
            {| lines_of := lines; output := output0 |} ;;
    Return (output st).

(** ** remove_qgis_import *)

(** [while True] in [remove_qgis_import], [i] being the offset tried next.
    The loop ends when it finds a line that is not blank or when
    [lines[start_index + i]] is out of range; [fuel] bounds the rounds and
    is not used up when it is at least [len(lines)] (see
    [skip_blank_fuel]). *)
Fixpoint skip_blank (lines : list string) (start_index : Z) (fuel : nat)
    (i : Z) : result (list string) :=
  match fuel with
  | O => Raise IndexError
  | S fuel' =>
      line <- Lst.get lines (start_index + i) ;;
      let line_tmp := Str.strip line in
      if negb (String.eqb line_tmp "")
      then Return (Lst.slice lines (start_index + i) (Lst.len lines))
      else skip_blank lines start_index fuel' (i + 1)
  end.

(** [for index, line in enumerate(lines)] in [remove_qgis_import]: the
    first line that holds the import ends the function. *)
Fixpoint remove_qgis_loop (lines todo : list string) (index : Z)
    : result (option (list string)) :=
  match todo with
  | [] => Return None
  | line :: todo' =>
      if Str.contains "from ee_plugin import Map" line then
        let start_index := index in
        content <- skip_blank lines start_index (List.length lines) 1 ;;
        Return (Some content)
      else remove_qgis_loop lines todo' (index + 1)
  end.

(** [remove_qgis_import(in_file)] on the lines read from [in_file]; [None]
    is the result of a call that ends without [return]. *)
Definition remove_qgis_import (lines : list string)
    : result (option (list string)) :=
  remove_qgis_loop lines lines 0.

(** ** template_header and template_footer *)

(** [for index, line in enumerate(template_lines)] in [template_header]. *)
Fixpoint header_end_loop (todo : list string) (index header_end_index : Z)
    : Z :=
  match todo with
  | [] => header_end_index
  | line :: todo' =>
      header_end_loop todo' (index + 1)
        (if Str.contains "## Add Earth Engine Python script" line
         then index + 5 else header_end_index)
  end.

(** [template_header(in_template)] on the lines read from the template. *)
Definition template_header (template_lines : list string) : list string :=
  let header_end_index := header_end_loop template_lines 0 0 in
  Lst.slice template_lines 0 header_end_index.

(** [for index, line in enumerate(template_lines)] in [template_footer]. *)
Fixpoint footer_start_loop (todo : list string) (index footer_start_index : Z)
    : Z :=
  match todo with
  | [] => footer_start_index
  | line :: todo' =>
      footer_start_loop todo' (index + 1)
        (if Str.contains "## Display Earth Engine data layers" line
         then index - 3 else footer_start_index)
  end.

(** [template_footer(in_template)] on the lines read from the template. *)
Definition template_footer (template_lines : list string) : list string :=
  let footer_start_index := footer_start_loop template_lines 0 0 in
  newline :: Lst.slice template_lines footer_start_index
               (Lst.len template_lines).

(** ** py_to_ipynb *)

(** [l.index(x)] for a list of strings, [i] being the index of the head. *)
Fixpoint list_index_go (l : list string) (x : string) (i : Z) : result Z :=
  match l with
  | [] => Raise ValueError
  | y :: l' => if String.eqb y x then Return i else list_index_go l' x (i + 1)
  end.

Definition list_index (l : list string) (x : string) : result Z :=
  list_index_go l x 0.

(** The path of the notebook below the directory [github_repo]. *)
Definition notebook_relative_path (out_file github_repo : string)
    : result string :=
  let out_py_path := Str.split out_file "/" in
  index <- list_index out_py_path github_repo ;;
  let out_py_relative_path :=
    Str.join "/" (Lst.slice out_py_path (index + 1) (Lst.len out_py_path)) in
  Return (Str.replace out_py_relative_path ".py" ".ipynb").

(** [for index, line in enumerate(header)]: the Colab and binder URLs of
    the first nine lines are rewritten. *)
Fixpoint rewrite_header (header : list string) (index : Z)
    (github_username github_repo out_ipynb_relative_path : string)
    : list string :=
  match header with
  | [] => []
  | line :: rest =>
      (if index <? 9 then
         let line := Str.replace line "giswqs" github_username in
         let line := Str.replace line "geemap" github_repo in
         Str.replace line "examples/template/template.ipynb"
           out_ipynb_relative_path
       else line)
      :: rewrite_header rest (index + 1) github_username github_repo
           out_ipynb_relative_path
  end.

(** [py_to_ipynb(in_file, template_file, out_file, github_username,
    github_repo)]: [in_lines] and [template_lines] are the lines read from
    the two files, [out_file] is the path of the notebook once its default
    is resolved, and the result is the text written to the [.py] file that
    [ipynb-py-convert] is run on. *)
Definition py_to_ipynb (in_lines template_lines : list string)
    (out_file : string) (github_username github_repo : option string)
    : result (list string) :=
  content <- remove_qgis_import in_lines ;;
  let header := template_header template_lines in
  let footer := template_footer template_lines in
  header <-
    match github_username, github_repo with
    | Some username, Some repo =>
        out_ipynb_relative_path <- notebook_relative_path out_file repo ;;
        Return (rewrite_header header 0 username repo out_ipynb_relative_path)
    | _, _ => Return header
    end ;;
  match content with
  | Some content => Return (header ++ content ++ footer)%list
  | None => Return (header ++ footer)%list
  end.

(** ** update_nb_header *)

(** The rewriting of a URL that follows [search_string] in [line]. *)
Definition replace_relative_path (line search_string file_relative_path
    : string) : result string :=
  i <- Str.index line search_string ;;
  let start_index := i + Str.len search_string in
  j <- Str.index line ".ipynb" ;;
  let end_index := j + 6 in
  let relative_path := Str.slice line (Some start_index) (Some end_index) in
  Return (Str.replace line relative_path file_relative_path).

(** The body of [for line in header] in [update_nb_header]. *)
Definition update_header_line (github_username github_repo
    file_relative_path line : string) : result string :=
  let line := Str.replace line "giswqs" github_username in
  let line := Str.replace line "geemap" github_repo in
  if Str.contains "master?filepath=" line then
    replace_relative_path line "master?filepath=" file_relative_path
  else if Str.contains "/master/" line then
    replace_relative_path line "/master/" file_relative_path
  else Return line.

Fixpoint update_header (github_username github_repo file_relative_path
    : string) (header : list string) : result (list string) :=
  match header with
  | [] => Return []
  | line :: rest =>
      line <- update_header_line github_username github_repo
                file_relative_path line ;;
      new_header <- update_header github_username github_repo
                      file_relative_path rest ;;
      Return (line :: new_header)
  end.

(** [update_nb_header(in_file, github_username, github_repo)]: [lines] is
    what is read from [in_file], and the result is what is written back. *)
Definition update_nb_header (in_file : string)
    (github_username github_repo : option string) (lines : list string)
    : result (list string) :=
  let github_username :=
    match github_username with Some u => u | None => "giswqs" end in
  let github_repo :=
    match github_repo with Some r => r | None => "geemap" end in
  index <- Str.index in_file github_repo ;;
  let file_relative_path :=
    Str.from in_file (index + Str.len github_repo + 1) in
  let start_line_index := 2 in
  line <- Lst.get lines start_line_index ;;
  start_char_index <- Str.index line "{" ;;
  '(matching_line_index, matching_char_index) <-
    find_matching_bracket lines start_line_index start_char_index "{" ;;
  let header := Lst.slice lines 0 matching_line_index in
  let content := Lst.slice lines matching_line_index (Lst.len lines) in
  new_header <- update_header github_username github_repo
                  file_relative_path header ;;
  Return (new_header ++ content)%list.

(** ** download_gee_app and download_from_gdrive: the URLs *)

(** The URL of the modules file of a GEE App. *)
Definition download_gee_app_json_url (url : string) : result string :=
  let items := Str.split url "/" in
  items <- Lst.set items 3 "javascript" ;;
  item <- Lst.get items 4 ;;
  items <- Lst.set items 4 (item ++ "-modules.json") ;;
  let json_url := Str.join "/" items in
  Return json_url.

(** The file id of a Google Drive URL. *)
Definition download_from_gdrive_file_id (gfile_url : string) : result string :=
  Lst.get (Str.split gfile_url "/") 5.

(** * Reference definitions

    The texts used as examples, and the notions the properties are stated
    with. *)

(** A one-line callback, and a callback that spans three lines. *)
Definition one_line_call : list string :=
  [".map(function(f) { return f.val(); })"].

Definition three_line_call : list string :=
  ["var y = x.map(function(f) {" ++ newline;
   "  return f.val();" ++ newline;
   "});" ++ newline].

Definition three_line_hoisted : list string :=
  [newline;
   "function func_abc(f) {" ++ newline;
   "  return f.val();" ++ newline;
   "}";
   "var y = x.map(func_abc);";
   ""; ""; ""].

(** What one run returns for the one-line callback, and what a second run
    returns for that list. *)
Definition one_line_hoisted : list string :=
  [newline;
   "function func_abc(f) { return f.val(); })";
   ".map(function(f) { return f.val(); }";
   ".map(func_abc)";
   ""].

Definition one_line_hoisted_twice : list string :=
  [newline;
   "function func_abc(f) { return f.val(); })";
   newline;
   "function func_xyz(f) { return f.val(); }";
   ".map(function(f) { return f.val(); }";
   ".map(func_xyz";
   "";
   ".map(func_abc)";
   ""].

Definition abc (k : nat) : string := "abc".
Definition xyz (k : nat) : string := "xyz".

Definition python_file : list string :=
  ["import ee " ++ newline;
   "var image = ee.Image(null);" ++ newline;
   "print(true)" ++ newline].

(** One pass over the line, from the left: an occurrence of [true], [false]
    or [null] is replaced by [True], [False] or [{}] wherever it starts, and
    any other character is copied.  [skip] counts the characters of the
    occurrence just replaced that are still to be dropped. *)
Fixpoint substitute_go (skip : nat) (s : string) {struct s} : string :=
  match s with
  | EmptyString => EmptyString
  | String c s' =>
      match skip with
      | S k => substitute_go k s'
      | O =>
          if Str.startswith s "true" then "True" ++ substitute_go 3 s'
          else if Str.startswith s "false" then "False" ++ substitute_go 4 s'
          else if Str.startswith s "null" then "{}" ++ substitute_go 3 s'
          else String c (substitute_go O s')
      end
  end.

Definition substitute_literals (s : string) : string := substitute_go O s.

(** The tokens of a line: its maximal runs of letters, digits, [_] and [$]. *)
Definition is_word_char (c : ascii) : bool :=
  let n := nat_of_ascii c in
  ((48 <=? n) && (n <=? 57) || (65 <=? n) && (n <=? 90)
   || (97 <=? n) && (n <=? 122) || (n =? 95) || (n =? 36))%nat.

Fixpoint pieces (s : string) : list string :=
  match s with
  | EmptyString => [EmptyString]
  | String c s' =>
      if is_word_char c then
        match pieces s' with
        | p :: ps => String c p :: ps
        | [] => [String c EmptyString]
        end
      else EmptyString :: pieces s'
  end.

Definition words (s : string) : list string :=
  filter (fun w => negb (Str.is_empty w)) (pieces s).

(** [lines[l][i]]. *)
Definition char_at (lines : list string) (l i : Z) : result ascii :=
  line <- Lst.get lines l ;; Str.get line i.

(** The rounds of the loop over the lines that follow the start line, as a
    recursion on those lines. *)
Fixpoint scan_rest (opening closing : string) (line_index : Z)
    (d : list string) (rest : list string) : result (Z * Z) :=
  match rest with
  | [] => Return (-1, -1)
  | line :: rest' =>
      r <- scan_line opening closing d 0 line ;;
      match r with
      | (_, Some index) => Return (line_index, index)
      | (d', None) => scan_rest opening closing (line_index + 1) d' rest'
      end
  end.

(** The position that the index [i] denotes in a sequence of length [n]. *)
Definition norm (n : nat) (i : Z) : nat :=
  Z.to_nat (if i <? 0 then i + Z.of_nat n else i).

(** The lines the loop visits after the start line: the lines that follow
    it and, when [start_line_index] is negative, every line of the list once
    more, since [range(start_line_index, len(lines))] then goes on from
    index 0 to the last. *)
Definition visited (lines : list string) (sl : Z) : list string :=
  (skipn (S (norm (List.length lines) sl)) lines
   ++ (if sl <? 0 then lines else []))%list.

(** The text the scan runs over: the start line from the start character
    on, then the lines visited after it. *)
Definition scanned (lines : list string) (sl sc : Z) : string :=
  Str.from (nth (norm (List.length lines) sl) lines "") sc
  ++ Str.cat (visited lines sl).

(** The text from the position [(sl, sc)] through the position [(ml, mc)]:
    the rest of the start line, the lines in between, and the last line up
    to its character [mc]. *)
Definition span (lines : list string) (sl sc ml mc : Z) : string :=
  let a := norm (List.length lines) sl in
  let b := norm (List.length lines) ml in
  let first := nth a lines "" in
  let last := nth b lines "" in
  let p := norm (String.length first) sc in
  let q := norm (String.length last) mc in
  if (b =? a)%nat then Str.take (S q - p) (Str.drop p first)
  else Str.drop p first
       ++ Str.cat (firstn (b - S a) (skipn (S a) lines))
       ++ Str.take (S q) last.

(** Well-balanced bracket text: every closing bracket closes the bracket
    opened last, of its own kind, and none is left open at the end.  The
    stack holds the closing brackets that are awaited. *)
Definition closer_of (ch : ascii) : option ascii :=
  if Ascii.eqb ch "{" then Some "}"%char
  else if Ascii.eqb ch "(" then Some ")"%char
  else if Ascii.eqb ch "[" then Some "]"%char
  else None.

Definition is_closer (ch : ascii) : bool :=
  Ascii.eqb ch "}" || Ascii.eqb ch ")" || Ascii.eqb ch "]".

Fixpoint balanced_go (stack : list ascii) (s : string) : bool :=
  match s with
  | EmptyString =>
      match stack with
      | [] => true
      | _ :: _ => false
      end
  | String ch s' =>
      match closer_of ch with
      | Some k => balanced_go (k :: stack) s'
      | None =>
          if is_closer ch then
            match stack with
            | k :: stack' => Ascii.eqb k ch && balanced_go stack' s'
            | [] => false
            end
          else balanced_go stack s'
      end
  end.

Definition balanced (lines : list string) : bool :=
  balanced_go [] (Str.cat lines).

(** What the scan of [line] yields when it starts at index [i0] with the
    deque [d]: either the deque empties at a closing bracket, after as many
    closing brackets as [d] and the opening brackets met can pay for, or the
    line ends with a non-empty deque. *)
Inductive line_outcome (o c : ascii) (d : list string) (i0 : Z)
    (line : string) : result (list string * option Z) -> Prop :=
| line_match (j : nat) :
    String.get j line = Some c ->
    (List.length d + Str.occ o (Str.take (S j) line)
     = Str.occ c (Str.take (S j) line))%nat ->
    line_outcome o c d i0 line (Return ([], Some (i0 + Z.of_nat j)))
| line_pass (d' : list string) :
    d' <> [] ->
    (List.length d' + Str.occ c line = List.length d + Str.occ o line)%nat ->
    line_outcome o c d i0 line (Return (d', None)).

(** The same for the lines after the start line. *)
Inductive rest_outcome (o c : ascii) (d : list string) (li : Z)
    (rest : list string) : result (Z * Z) -> Prop :=
| rest_match (k j : nat) (line : string) :
    nth_error rest k = Some line ->
    String.get j line = Some c ->
    (List.length d
     + Str.occ o (Str.cat (firstn k rest) ++ Str.take (S j) line)
     = Str.occ c (Str.cat (firstn k rest) ++ Str.take (S j) line))%nat ->
    rest_outcome o c d li rest (Return (li + Z.of_nat k, Z.of_nat j))
| rest_none (d' : list string) :
    d' <> [] ->
    (List.length d' + Str.occ c (Str.cat rest)
     = List.length d + Str.occ o (Str.cat rest))%nat ->
    rest_outcome o c d li rest (Return (-1, -1)).

(** The number of brackets [c] awaited on the stack. *)
Fixpoint waits (c : ascii) (stack : list ascii) : nat :=
  match stack with
  | [] => O
  | k :: stack' => ((if Ascii.eqb k c then 1 else 0) + waits c stack')%nat
  end.

Definition nested_call : list string :=
  ["Map.addLayer(image, {";
   "  bands: [1, 2],";
   "  max: f(3)";
   "});"].

Definition unclosed_call : list string :=
  ["x = f({a: {"; "}"].

(** The start position opens a bracket that is not closed inside [s]: every
    non-empty prefix of [s] has fewer closing brackets than [k] plus its
    opening brackets. *)
Definition open_prefixes (o c : ascii) (k : nat) (s : string) : Prop :=
  forall m, (0 < m <= String.length s)%nat ->
            (Str.occ c (Str.take m s) < k + Str.occ o (Str.take m s))%nat.

(** A key and its value, as [format_params] sees them: no other colon and
    no brace on the line, and a key that is not blank and has no blank
    around it. *)
Definition single_pair (key value : string) : Prop :=
  Str.startswith (Str.strip (key ++ ":" ++ value)) "for" = false
  /\ Str.occ ":" key = O /\ Str.occ ":" value = O
  /\ Str.occ "{" key = O /\ Str.occ "{" value = O
  /\ Str.strip key = key /\ Str.is_empty key = false.

(** The line once [var ] has been removed. *)
Definition without_var (line : string) : string :=
  if Str.contains "var " line then Str.replace line "var " "" else line.

(** The line is [prefix(params)suffix], the two parentheses being the first
    of the line. *)
Definition loop_shape (line prefix params suffix : string) : Prop :=
  without_var line = prefix ++ "(" ++ params ++ ")" ++ suffix
  /\ Str.occ "(" prefix = O
  /\ Str.occ ")" prefix = O
  /\ Str.occ ")" params = O.

(** The third argument of [range]. *)
Definition step_of (step : string) : string :=
  if Str.contains "++" step then "1"
  else if Str.contains "--" step then "-1"
  else step.

(** The import lines written before the converted script. *)
Definition import_header (lines : list string) (in_file : string)
    (use_qgis : bool) (github_repo : option string) : string :=
  match github_repo with
  | Some repo => "# GitHub URL: " ++ repo ++ in_file ++ newline ++ newline
  | None => ""
  end
  ++ "import ee " ++ newline
  ++ (if use_qgis then "from ee_plugin import Map " ++ newline else "")
  ++ (if use_math lines then "import math" ++ newline else "").

(** The lines [remove_qgis_import] looks for, and the lines it skips. *)
Definition has_qgis_import (line : string) : bool :=
  Str.contains "from ee_plugin import Map" line.

Definition is_blank (line : string) : bool := String.eqb (Str.strip line) "".

(** The lines that end the header and start the footer of a template. *)
Definition is_header_mark (line : string) : bool :=
  Str.contains "## Add Earth Engine Python script" line.

Definition is_footer_mark (line : string) : bool :=
  Str.contains "## Display Earth Engine data layers" line.

(** * Properties *)

(** ** The error monad and the list primitives *)

Lemma bind_Return {A B : Type} (m : result A) (k : A -> result B) (b : B) :
  bind m k = Return b -> exists a, m = Return a /\ k a = Return b.
Proof.
  destruct m as [a|e]; simpl; intros H.
  - exists a; split; [reflexivity | assumption].
  - discriminate.
Qed.

Ltac bind_inv H :=
  let a := fresh "a" in
  let E := fresh "E" in
  apply bind_Return in H; destruct H as [a [E H]].

Lemma update_length {A : Type} (l : list A) (j : nat) (x : A) :
  List.length (Lst.update l j x) = List.length l.
Proof.
  revert j; induction l as [|a l IH]; intros [|j]; simpl; auto.
Qed.

Lemma set_length {A : Type} (l l' : list A) (i : Z) (x : A) :
  Lst.set l i x = Return l' -> List.length l' = List.length l.
Proof.
  unfold Lst.set; destruct (Lst.pos l i); intros H; inversion H.
  apply update_length.
Qed.

Lemma pos_nat {A : Type} (l : list A) (i : nat) :
  Lst.pos l (Z.of_nat i)
  = if (i <? List.length l)%nat then Some i else None.
Proof.
  unfold Lst.pos, Lst.len.
  destruct (Z.ltb_spec (Z.of_nat i) 0); [lia|].
  destruct (Z.leb_spec 0 (Z.of_nat i)); [|lia]. simpl.
  destruct (Z.ltb_spec (Z.of_nat i) (Z.of_nat (List.length l)));
    destruct (Nat.ltb_spec i (List.length l)); try lia.
  - now rewrite Nat2Z.id.
  - reflexivity.
Qed.

Lemma get_nat {A : Type} (l : list A) (i : nat) :
  Lst.get l (Z.of_nat i)
  = match nth_error l i with
    | Some x => Return x
    | None => Raise IndexError
    end.
Proof.
  unfold Lst.get; rewrite pos_nat.
  destruct (Nat.ltb_spec i (List.length l)) as [Hlt|Hge]; [reflexivity|].
  apply nth_error_None in Hge; now rewrite Hge.
Qed.

(** ** check_map_functions: the lengths of the two lists *)

Section Hoister.

Variable rnd : nat -> string.

Lemma move_body_length body index sub inp out inp' out' :
  move_body body index sub inp out = Return (inp', out') ->
  List.length inp' = List.length inp
  /\ List.length out' = (List.length out + List.length body)%nat.
Proof.
  revert sub inp out; induction body as [|b body IH]; simpl; intros sub inp out H.
  - inversion H; subst; split; lia.
  - bind_inv H. apply set_length in E.
    apply IH in H. destruct H as [H1 H2].
    rewrite length_app in H2; simpl in H2. split; lia.
Qed.

(** A round that hoists adds at least five entries to [output_lines]; any
    other round adds the line itself and changes nothing else. *)
Lemma hoist_line_length st index st' :
  hoist_line rnd st index = Return st' ->
  List.length (input_lines st') = List.length (input_lines st)
  /\ (List.length (output_lines st) < List.length (output_lines st'))%nat
  /\ (forall line,
        Lst.get (input_lines st) index = Return line ->
        has_map_function line = true ->
        (List.length (output_lines st) + 5
         <= List.length (output_lines st'))%nat).
Proof.
  unfold hoist_line; intros H.
  bind_inv H. destruct (has_map_function a) eqn:Hm.
  - bind_inv H. bind_inv H. destruct a1 as [ml mc].
    bind_inv H. bind_inv H. destruct a2 as [inp out].
    apply move_body_length in E3. destruct E3 as [L1 L2].
    bind_inv H. bind_inv H.
    destruct (String.eqb _ ")" || String.eqb _ ");");
      bind_inv H; apply set_length in E5; inversion H; subst; simpl;
      rewrite !length_app in *; simpl in *; repeat split; intros; lia.
  - inversion H; subst; simpl. rewrite length_app; simpl.
    repeat split; try lia.
    intros line Hg Hl. rewrite E in Hg. inversion Hg; subst. congruence.
Qed.

Lemma hoist_loop_length n i st st' :
  for_range (hoist_line rnd) n i st = Return st' ->
  List.length (input_lines st') = List.length (input_lines st)
  /\ (List.length (output_lines st) + n <= List.length (output_lines st'))%nat.
Proof.
  revert i st; induction n as [|n IH]; simpl; intros i st H.
  - inversion H; subst; split; lia.
  - bind_inv H. apply hoist_line_length in E. apply IH in H.
    destruct E as [E1 [E2 _]], H; split; lia.
Qed.

(** While no line carries a marker the loop copies the lines and leaves
    [input_lines] alone. *)
Lemma hoist_loop_plain tl : forall pre out k,
  forallb (fun l => negb (has_map_function l)) tl = true ->
  for_range (hoist_line rnd) (List.length tl) (Z.of_nat (List.length pre))
    {| input_lines := (pre ++ tl)%list; output_lines := out; calls := k |}
  = Return {| input_lines := (pre ++ tl)%list;
              output_lines := (out ++ tl)%list; calls := k |}.
Proof.
  induction tl as [|l tl IH]; intros pre out k H; simpl.
  - now rewrite !app_nil_r.
  - simpl in H. apply andb_true_iff in H. destruct H as [Hl Htl].
    unfold hoist_line at 1; simpl.
    rewrite get_nat, nth_error_app2, Nat.sub_diag by lia. simpl.
    apply negb_true_iff in Hl; rewrite Hl. simpl.
    specialize (IH (pre ++ [l])%list (out ++ [l])%list k Htl).
    rewrite length_app in IH; simpl in IH.
    rewrite <- !app_assoc in IH; simpl in IH.
    replace (Z.of_nat (List.length pre) + 1)
      with (Z.of_nat (List.length pre + 1)) by lia.
    exact IH.
Qed.

(** From the first line that carries a marker on, the loop adds at least
    four entries more than it has rounds. *)
Lemma hoist_loop_grows tl : forall pre out k st',
  existsb has_map_function tl = true ->
  for_range (hoist_line rnd) (List.length tl) (Z.of_nat (List.length pre))
    {| input_lines := (pre ++ tl)%list; output_lines := out; calls := k |}
  = Return st' ->
  (List.length out + List.length tl + 4
   <= List.length (output_lines st'))%nat.
Proof.
  induction tl as [|l tl IH]; intros pre out k st' H R; simpl in *.
  - discriminate.
  - bind_inv R.
    destruct (has_map_function l) eqn:Hl.
    + apply hoist_line_length in E. simpl in E.
      destruct E as [_ [_ E]]. specialize (E l).
      rewrite get_nat, nth_error_app2, Nat.sub_diag in E by lia.
      specialize (E eq_refl Hl).
      apply hoist_loop_length in R. destruct R. lia.
    + simpl in H. unfold hoist_line in E; simpl in E.
      rewrite get_nat, nth_error_app2, Nat.sub_diag in E by lia.
      simpl in E. rewrite Hl in E. inversion E; subst a; clear E.
      specialize (IH (pre ++ [l])%list (out ++ [l])%list k st' H).
      rewrite length_app in IH; simpl in IH.
      rewrite <- !app_assoc in IH; simpl in IH.
      replace (Z.of_nat (List.length pre) + 1)
        with (Z.of_nat (List.length pre + 1)) in R by lia.
      apply IH in R. rewrite length_app in R. simpl in R. lia.
Qed.

End Hoister.

Lemma no_marker_forallb lines :
  existsb has_map_function lines = false ->
  forallb (fun l => negb (has_map_function l)) lines = true.
Proof.
  induction lines as [|l lines IH]; simpl; [reflexivity|].
  intros H. apply orb_false_iff in H. destruct H as [H1 H2].
  rewrite H1; simpl; auto.
Qed.

Example hoist_three_lines :
  check_map_functions abc three_line_call
  = Return (three_line_hoisted,
            ["var y = x.map(function(f) {" ++ newline; ""; ""]).
Proof. vm_compute. reflexivity. Qed.

(** C1, as stated, fails: hoisting the one-line callback returns five
    entries for one input line (the definition, the call and the blanked
    remainder are all added to the returned list). *)
Lemma check_map_functions_length_counterexample :
  check_map_functions abc one_line_call
  = Return ([newline;
             "function func_abc(f) { return f.val(); })";
             ".map(function(f) { return f.val(); }";
             ".map(func_abc)";
             ""],
            [""])
  /\ List.length one_line_call = 1%nat
  /\ ~ (forall rnd lines out inp,
          check_map_functions rnd lines = Return (out, inp) ->
          List.length out = List.length lines).
Proof.
  assert (E : check_map_functions abc one_line_call
              = Return ([newline;
                         "function func_abc(f) { return f.val(); })";
                         ".map(function(f) { return f.val(); }";
                         ".map(func_abc)";
                         ""],
                        [""])) by (vm_compute; reflexivity).
  split; [exact E|]. split; [reflexivity|].
  intros H. apply H in E. discriminate E.
Qed.

(** C1, amended: whenever [check_map_functions] returns, the list it was
    given has kept its length (entries are blanked in place, none is removed
    or added), the returned list has at least as many entries as the input,
    it has exactly as many if and only if no input line carries a callback
    marker, and it has at least four more when some line does. *)
Theorem check_map_functions_length rnd lines out inp :
  check_map_functions rnd lines = Return (out, inp) ->
  List.length inp = List.length lines
  /\ (List.length lines <= List.length out)%nat
  /\ (List.length out = List.length lines
      <-> existsb has_map_function lines = false)
  /\ (existsb has_map_function lines = true ->
      (List.length lines + 4 <= List.length out)%nat).
Proof.
  unfold check_map_functions; intros H. bind_inv H.
  inversion H; subst out inp; clear H.
  pose proof (hoist_loop_length rnd _ _ _ _ E) as [L1 L2]. simpl in L1, L2.
  assert (G : existsb has_map_function lines = true ->
              (List.length lines + 4 <= List.length (output_lines a))%nat).
  { intros Hex. exact (hoist_loop_grows rnd lines [] [] O a Hex E). }
  split; [exact L1|]. split; [exact L2|].
  split; [split|exact G].
  - intros Heq. destruct (existsb has_map_function lines); [|reflexivity].
    specialize (G eq_refl). lia.
  - intros Hno. apply no_marker_forallb in Hno.
    pose proof (hoist_loop_plain rnd lines [] [] O Hno) as P.
    simpl in P. rewrite P in E. inversion E; subst a. reflexivity.
Qed.

Lemma check_map_functions_length_witness :
  check_map_functions abc three_line_call
  = Return (three_line_hoisted,
            ["var y = x.map(function(f) {" ++ newline; ""; ""])
  /\ List.length ["var y = x.map(function(f) {" ++ newline; ""; ""]
     = List.length three_line_call
  /\ (List.length three_line_call <= List.length three_line_hoisted)%nat
  /\ (List.length three_line_hoisted = List.length three_line_call
      <-> existsb has_map_function three_line_call = false)
  /\ (existsb has_map_function three_line_call = true ->
      (List.length three_line_call + 4
       <= List.length three_line_hoisted)%nat).
Proof.
  split; [exact hoist_three_lines|].
  exact (check_map_functions_length abc three_line_call three_line_hoisted
           _ hoist_three_lines).
Defined.

(** On a list in which no line carries a callback marker ([.map(function]
    or [.map (function]) [check_map_functions] returns the list unchanged
    and leaves its argument as it was. *)
Lemma check_map_functions_plain rnd lines :
  existsb has_map_function lines = false ->
  check_map_functions rnd lines = Return (lines, lines).
Proof.
  intros Hno. apply no_marker_forallb in Hno.
  unfold check_map_functions.
  pose proof (hoist_loop_plain rnd lines [] [] O Hno) as P.
  simpl in P. rewrite P. reflexivity.
Qed.

(** C3: the claim asks that a second run of the hoister on the list returned
    for the one-line call [.map(function(f) { return f.val(); })] changes
    nothing.  The code does not do that: when the callback closes on the
    line it opens on, the footer of the hoisted function is that whole line
    up to its closing brace, inline literal included, so the list returned
    still holds a callback marker; a second run hoists that entry again and
    returns nine entries for the five it was given.  The callback that
    closes on a later line is hoisted as the claim says: its footer is the
    closing brace alone, the list returned holds no marker, and a second
    run returns it unchanged. *)
Theorem check_map_functions_one_line_twice :
  check_map_functions abc one_line_call = Return (one_line_hoisted, [""])
  /\ existsb has_map_function one_line_hoisted = true
  /\ nth_error one_line_hoisted 2
     = Some ".map(function(f) { return f.val(); }"
  /\ check_map_functions xyz one_line_hoisted
     = Return (one_line_hoisted_twice,
               [newline; "function func_abc(f) { return f.val(); })"; "";
                ".map(func_abc)"; ""])
  /\ one_line_hoisted_twice <> one_line_hoisted
  /\ List.length one_line_hoisted = 5%nat
  /\ List.length one_line_hoisted_twice = 9%nat
  /\ check_map_functions abc three_line_call
     = Return (three_line_hoisted,
               ["var y = x.map(function(f) {" ++ newline; ""; ""])
  /\ nth_error three_line_hoisted 3 = Some "}"
  /\ existsb has_map_function three_line_hoisted = false
  /\ check_map_functions xyz three_line_hoisted
     = Return (three_line_hoisted, three_line_hoisted).
Proof.
  split; [vm_compute; reflexivity|].
  split; [vm_compute; reflexivity|].
  split; [reflexivity|].
  split; [vm_compute; reflexivity|].
  split.
  { intros H. apply (f_equal (@List.length string)) in H. discriminate H. }
  split; [reflexivity|]. split; [reflexivity|].
  split; [exact hoist_three_lines|].
  split; [reflexivity|]. split; [reflexivity|].
  apply (check_map_functions_plain xyz three_line_hoisted). reflexivity.
Qed.

(** ** convert_for_loop *)

(** C4, as stated, fails: the parentheses of the header are dropped, and
    the colon is put before the text that followed the closing parenthesis;
    removing the brace as the caller does leaves [for f in list: ], not
    [for (f in list):]. *)
Lemma convert_for_loop_membership_counterexample :
  convert_for_loop "for (var f in list) {" = Return "for f in list: {"
  /\ Str.replace "for f in list: {" "{" "" = "for f in list: "
  /\ Str.replace "for f in list: {" "{" "" <> "for (f in list):"
  /\ Str.rstrip (Str.replace "for f in list: {" "{" "") <> "for (f in list):".
Proof.
  split; [vm_compute; reflexivity|].
  split; [vm_compute; reflexivity|].
  split; vm_compute; discriminate.
Qed.

(** C4, amended: on [for (var f in list) {] the result is
    [for f in list: {]: the declaration keyword and the two parentheses are
    removed, the text between the parentheses is kept as it is and followed
    by a colon, and the text after the closing parenthesis is kept; once the
    caller has removed the braces and the trailing blanks, the line of the
    output is [for f in list:]. *)
Theorem convert_for_loop_membership :
  convert_for_loop "for (var f in list) {"
  = Return ("for " ++ ("f in list" ++ ":") ++ " {")
  /\ Str.rstrip (Str.replace "for f in list: {" "{" "") = "for f in list:"
  /\ js_to_python abc ["for (var f in list) {" ++ newline; "}" ++ newline]
       "in.js" false None
     = Return ("import ee " ++ newline ++ newline
               ++ "for f in list:" ++ newline ++ newline).
Proof.
  repeat split; vm_compute; reflexivity.
Qed.

(** C5: on [for (var i = 0; i < 10; i++) {] the result is the text before
    the opening parenthesis ([for ]), the header [i in range(0, 10, 1):],
    and the text after the closing parenthesis ([ {]). *)
Theorem convert_for_loop_counting :
  convert_for_loop "for (var i = 0; i < 10; i++) {"
  = Return ("for " ++ "i in range(0, 10, 1):" ++ " {").
Proof. vm_compute. reflexivity. Qed.

(** ** js_to_python on a file that is already a Python script *)

Lemma is_python_intro lines line :
  In line lines -> Str.strip line = "import ee" -> is_python lines = true.
Proof.
  intros Hin Hs. unfold is_python. apply existsb_exists.
  exists line. split; [assumption|]. rewrite Hs. reflexivity.
Qed.

(** C7: when some line of the file is [import ee] once stripped, the
    result is the content of the file (its lines, concatenated), preceded by
    the GitHub URL comment when a repository is given and by nothing
    otherwise; the callbacks are not hoisted, no line is rewritten and no
    import line is added. *)
Theorem js_to_python_python_file rnd lines in_file use_qgis github_repo line :
  In line lines ->
  Str.strip line = "import ee" ->
  js_to_python rnd lines in_file use_qgis github_repo
  = Return (match github_repo with
            | Some repo =>
                "# GitHub URL: " ++ repo ++ in_file ++ newline ++ newline
            | None => ""
            end ++ Str.cat lines).
Proof.
  intros Hin Hs. unfold js_to_python.
  rewrite (is_python_intro lines line Hin Hs). reflexivity.
Qed.

Lemma js_to_python_python_file_witness :
  In ("import ee " ++ newline) python_file
  /\ Str.strip ("import ee " ++ newline) = "import ee"
  /\ js_to_python abc python_file "in.js" true (Some "https://github.com/x/")
     = Return ("# GitHub URL: https://github.com/x/in.js" ++ newline ++ newline
               ++ "import ee " ++ newline
               ++ "var image = ee.Image(null);" ++ newline
               ++ "print(true)" ++ newline).
Proof.
  split; [left; reflexivity|]. split; [reflexivity|].
  apply (js_to_python_python_file abc python_file "in.js" true
           (Some "https://github.com/x/") ("import ee " ++ newline)).
  - left; reflexivity.
  - reflexivity.
Defined.

(** ** The literals true, false and null *)

Lemma startswith_split s : forall p,
  Str.startswith s p = true -> exists r, s = p ++ r.
Proof.
  induction s as [|b s IH]; intros [|a p]; simpl; intros H;
    try discriminate.
  - exists ""; reflexivity.
  - exists (String b s); reflexivity.
  - apply andb_true_iff in H. destruct H as [Hab Hp].
    apply Ascii.eqb_eq in Hab; subst b.
    destruct (IH p Hp) as [r Hr]. exists r. now rewrite Hr at 1.
Qed.

Lemma startswith_cons b s a p :
  Str.startswith (String b s) (String a p)
  = Ascii.eqb a b && Str.startswith s p.
Proof. reflexivity. Qed.

(** A replacement does not change whether the text starts with [p], as long
    as no character of [p] is the first character of [old] or of [new]. *)
Lemma startswith_replace o old' n new' p : forall x,
  Str.occ o p = O -> Str.occ n p = O ->
  Str.startswith (Str.replace x (String o old') (String n new')) p
  = Str.startswith x p.
Proof.
  unfold Str.replace.
  induction p as [|a p IH]; intros x Ho Hn; [destruct x; reflexivity|].
  simpl in Ho, Hn.
  destruct (Ascii.eqb a o) eqn:Eo; [discriminate|].
  destruct (Ascii.eqb a n) eqn:En; [discriminate|].
  simpl in Ho, Hn.
  destruct x as [|b x]; [reflexivity|].
  cbn [Str.replace_go Str.spent Str.is_empty].
  destruct (Str.startswith (String b x) (String o old')) eqn:Hs.
  - simpl in Hs. apply andb_true_iff in Hs. destruct Hs as [Hob _].
    apply Ascii.eqb_eq in Hob; subst b.
    simpl. rewrite Eo, En. reflexivity.
  - simpl. rewrite (IH x Ho Hn). reflexivity.
Qed.

(** The three replacements, one after the other, do what the single pass
    does. *)
Lemma replace_literals_pass n : forall s,
  (String.length s <= n)%nat ->
  replace_literals s = substitute_literals s.
Proof.
  induction n as [|n IH]; intros s Hlen.
  - destruct s; [reflexivity | simpl in Hlen; lia].
  - destruct s as [|c s]; [reflexivity|].
    unfold substitute_literals. cbn [substitute_go].
    destruct (Str.startswith (String c s) "true") eqn:Ht.
    { apply startswith_split in Ht. destruct Ht as [r Hr].
      inversion Hr; subst c s; clear Hr. simpl in Hlen.
      cbn [substitute_go append].
      change (substitute_go 0 r) with (substitute_literals r).
      rewrite <- (IH r) by lia. reflexivity. }
    destruct (Str.startswith (String c s) "false") eqn:Hf.
    { apply startswith_split in Hf. destruct Hf as [r Hr].
      inversion Hr; subst c s; clear Hr. simpl in Hlen.
      cbn [substitute_go append].
      change (substitute_go 0 r) with (substitute_literals r).
      rewrite <- (IH r) by lia. reflexivity. }
    destruct (Str.startswith (String c s) "null") eqn:Hn.
    { apply startswith_split in Hn. destruct Hn as [r Hr].
      inversion Hr; subst c s; clear Hr. simpl in Hlen.
      cbn [substitute_go append].
      change (substitute_go 0 r) with (substitute_literals r).
      rewrite <- (IH r) by lia. reflexivity. }
    simpl in Hlen.
    change (substitute_go 0 s) with (substitute_literals s).
    rewrite <- (IH s) by lia.
    unfold replace_literals, Str.replace at 3.
    cbn [Str.replace_go Str.spent]. rewrite Ht.
    fold (Str.replace s "true" "True").
    unfold Str.replace at 2.
    cbn [Str.replace_go Str.spent].
    assert (Hf' : Str.startswith (String c (Str.replace s "true" "True"))
                    "false" = false).
    { change "false" with (String "f" "alse") in Hf |- *.
      rewrite startswith_cons in Hf |- *.
      rewrite (startswith_replace "t" "rue" "T" "rue" "alse" s) by reflexivity.
      exact Hf. }
    rewrite Hf'.
    fold (Str.replace (Str.replace s "true" "True") "false" "False").
    unfold Str.replace at 1.
    cbn [Str.replace_go Str.spent].
    assert (Hn' : Str.startswith
                    (String c (Str.replace (Str.replace s "true" "True")
                                 "false" "False")) "null" = false).
    { change "null" with (String "n" "ull") in Hn |- *.
      rewrite startswith_cons in Hn |- *.
      rewrite (startswith_replace "f" "alse" "F" "alse" "ull") by reflexivity.
      rewrite (startswith_replace "t" "rue" "T" "rue" "ull" s) by reflexivity.
      exact Hn. }
    rewrite Hn'. reflexivity.
Qed.

(** C9, as stated, fails: the replacements act on character sequences, not
    on tokens, so the tokens [nullable] and [untrue], neither of which is
    one of the three literals, are altered. *)
Lemma replace_literals_counterexample :
  words "var nullable = untrue;" = ["var"; "nullable"; "untrue"]
  /\ replace_literals "var nullable = untrue;" = "var {}able = unTrue;"
  /\ js_to_python abc ["var nullable = untrue;"] "in.js" false None
     = Return ("import ee " ++ newline ++ newline
               ++ "{}able = unTrue" ++ newline)
  /\ ~ (forall line,
          (forall w, In w (words line) ->
                     w <> "true" /\ w <> "false" /\ w <> "null") ->
          replace_literals line = line).
Proof.
  split; [vm_compute; reflexivity|].
  split; [vm_compute; reflexivity|].
  split; [vm_compute; reflexivity|].
  intros H. specialize (H "nullable").
  assert (E : replace_literals "nullable" = "{}able")
    by (vm_compute; reflexivity).
  rewrite H in E; [discriminate E|].
  intros w Hw. vm_compute in Hw. destruct Hw as [Hw|[]]. subst w.
  repeat split; discriminate.
Qed.

(** C9, amended: on every line the three replacements together act as one
    pass from the left that replaces every occurrence of the character
    sequences [true], [false] and [null], whether it stands alone or inside
    a longer token, by [True], [False] and [{}], and copies every other
    character unchanged. *)
Theorem replace_literals_substitutes line :
  replace_literals line = substitute_literals line.
Proof.
  apply (replace_literals_pass (String.length line)). lia.
Qed.

(** ** find_matching_bracket: positions, spans and balanced text *)

(** *** Facts about strings *)

Lemma append_nil_r (s : string) : s ++ "" = s.
Proof. induction s; simpl; congruence. Qed.

Lemma append_assoc (a b d : string) : (a ++ b) ++ d = a ++ (b ++ d).
Proof. induction a; simpl; congruence. Qed.

Lemma occ_cons ch a (s : string) :
  Str.occ ch (String a s)
  = ((if Ascii.eqb a ch then 1 else 0) + Str.occ ch s)%nat.
Proof. reflexivity. Qed.

Lemma occ_append ch (a b : string) :
  Str.occ ch (a ++ b) = (Str.occ ch a + Str.occ ch b)%nat.
Proof. induction a; simpl; [reflexivity | rewrite IHa; lia]. Qed.

Lemma cat_app (a b : list string) :
  Str.cat (a ++ b)%list = Str.cat a ++ Str.cat b.
Proof.
  induction a as [|x a IH]; simpl; [reflexivity|].
  now rewrite IH, append_assoc.
Qed.

Lemma take_drop n : forall s, Str.take n s ++ Str.drop n s = s.
Proof.
  induction n as [|n IH]; intros [|a s]; simpl; try reflexivity.
  now rewrite IH.
Qed.

Lemma take_all n : forall s, (String.length s <= n)%nat -> Str.take n s = s.
Proof.
  induction n as [|n IH]; intros [|a s]; simpl; intros H;
    try reflexivity; try lia.
  rewrite IH by lia. reflexivity.
Qed.

Lemma take_append (a b : string) : Str.take (String.length a) (a ++ b) = a.
Proof. induction a; simpl; [destruct b; reflexivity | congruence]. Qed.

Lemma take_take_append n : forall a b,
  (n <= String.length a)%nat -> Str.take n (a ++ b) = Str.take n a.
Proof.
  induction n as [|n IH]; intros [|x a] b H; simpl in *;
    try reflexivity; try lia.
  rewrite IH by lia. reflexivity.
Qed.

Lemma length_drop n : forall s,
  String.length (Str.drop n s) = (String.length s - n)%nat.
Proof.
  induction n as [|n IH]; intros [|a s]; simpl; try reflexivity.
  apply IH.
Qed.

Lemma length_append (a b : string) :
  String.length (a ++ b) = (String.length a + String.length b)%nat.
Proof. induction a; simpl; congruence. Qed.

Lemma get_lt j : forall s ch,
  String.get j s = Some ch -> (j < String.length s)%nat.
Proof.
  induction j as [|j IH]; intros [|a s] ch; simpl; intros H;
    try discriminate; try lia.
  apply IH in H. lia.
Qed.

Lemma drop_get j : forall s ch,
  String.get j s = Some ch -> Str.drop j s = String ch (Str.drop (S j) s).
Proof.
  induction j as [|j IH]; intros [|a s] ch; simpl; intros H;
    try discriminate.
  - inversion H; subst. destruct s; reflexivity.
  - apply IH in H. exact H.
Qed.

Lemma get_drop n : forall s j,
  String.get j (Str.drop n s) = String.get (n + j) s.
Proof.
  induction n as [|n IH]; intros [|a s] j; simpl; try reflexivity.
  apply IH.
Qed.

Lemma eqb_single (a b : ascii) :
  String.eqb (String a "") (String b "") = Ascii.eqb a b.
Proof. simpl. destruct (Ascii.eqb a b); reflexivity. Qed.

(** *** The scan of one line and of the lines after it *)

Section Scan.

Variables o c : ascii.
Hypothesis o_neq_c : o <> c.

Let opening : string := String o "".
Let closing : string := String c "".

Lemma line_outcome_cons d d' i0 a tl r :
  (List.length d' + (if Ascii.eqb a c then 1 else 0)
   = List.length d + (if Ascii.eqb a o then 1 else 0))%nat ->
  line_outcome o c d' (i0 + 1) tl r ->
  line_outcome o c d i0 (String a tl) r.
Proof.
  intros Hd [j Hg Hc | d'' Hne Hc].
  - replace (i0 + 1 + Z.of_nat j) with (i0 + Z.of_nat (S j)) by lia.
    apply line_match; [exact Hg|].
    change (Str.take (S (S j)) (String a tl))
      with (String a (Str.take (S j) tl)).
    rewrite !occ_cons.
    destruct (Ascii.eqb a c), (Ascii.eqb a o); lia.
  - apply line_pass; [exact Hne|]. rewrite !occ_cons.
    destruct (Ascii.eqb a c), (Ascii.eqb a o); lia.
Qed.

(** The scan of a line, from a non-empty deque or from an opening bracket,
    does not raise. *)
Lemma scan_line_spec line : forall d i0,
  d <> [] \/ (exists tl, line = String o tl) ->
  line_outcome o c d i0 line (scan_line opening closing d i0 line).
Proof.
  induction line as [|a tl IH]; intros d i0 Hpre.
  - simpl. apply line_pass; [|reflexivity].
    destruct Hpre as [H|[tl H]]; [exact H | discriminate H].
  - simpl. unfold scan_item, opening, closing. rewrite !eqb_single.
    destruct (Ascii.eqb a c) eqn:Eac.
    + apply Ascii.eqb_eq in Eac. subst a.
      assert (Eco : Ascii.eqb c o = false)
        by (apply Ascii.eqb_neq; congruence).
      destruct d as [|x d1].
      { destruct Hpre as [H|[tl' H]]; [congruence|].
        inversion H; congruence. }
      simpl. destruct d1 as [|y d2].
      * replace i0 with (i0 + Z.of_nat 0) at 2 by lia.
        apply line_match; [reflexivity|].
        simpl. rewrite Eco, Ascii.eqb_refl. destruct tl; reflexivity.
      * apply line_outcome_cons with (d' := y :: d2).
        { rewrite Eco, Ascii.eqb_refl. simpl. lia. }
        apply IH. left; discriminate.
    + destruct (Ascii.eqb a o) eqn:Eao.
      * simpl. destruct (d ++ [String o ""])%list as [|y d2] eqn:Ed.
        { destruct d; discriminate Ed. }
        apply line_outcome_cons with (d' := y :: d2).
        { rewrite Eac, Eao, <- Ed, length_app. simpl. lia. }
        apply IH. left; discriminate.
      * simpl. destruct d as [|x d1].
        { destruct Hpre as [H|[tl' H]]; [congruence|].
          inversion H; subst a. rewrite Ascii.eqb_refl in Eao.
          discriminate. }
        apply line_outcome_cons with (d' := x :: d1).
        { rewrite Eac, Eao. lia. }
        apply IH. left; discriminate.
Qed.

Lemma scan_rest_spec rest : forall d li,
  d <> [] ->
  rest_outcome o c d li rest (scan_rest opening closing li d rest).
Proof.
  induction rest as [|line rest IH]; intros d li Hd.
  - simpl. apply rest_none with (d' := d); [exact Hd | reflexivity].
  - simpl.
    destruct (scan_line_spec line d 0 (or_introl Hd))
      as [j Hg Hc | d' Hne Hc]; simpl.
    + replace (li, Z.of_nat j) with (li + Z.of_nat 0, Z.of_nat j)
        by (f_equal; lia).
      apply (rest_match o c d li (line :: rest) 0%nat j line);
        [reflexivity | exact Hg | exact Hc].
    + destruct (IH d' (li + 1) Hne) as [k j line' Hn Hg Hc' | d'' Hne' Hc'].
      * replace (li + 1 + Z.of_nat k, Z.of_nat j)
          with (li + Z.of_nat (S k), Z.of_nat j) by (f_equal; lia).
        apply (rest_match o c d li (line :: rest) (S k) j line');
          [exact Hn | exact Hg |].
        simpl firstn. simpl Str.cat.
        rewrite append_assoc, !occ_append in *. lia.
      * apply rest_none with (d' := d''); [exact Hne'|].
        simpl Str.cat. rewrite !occ_append. lia.
Qed.

End Scan.

(** *** Indices and the lines visited *)

Lemma get_Str j s ch :
  String.get j s = Some ch -> Str.get s (Z.of_nat j) = Return ch.
Proof.
  intros H. pose proof (get_lt _ _ _ H) as Hlt.
  unfold Str.get, Str.len.
  destruct (Z.ltb_spec (Z.of_nat j) 0); [lia|].
  destruct (Z.leb_spec 0 (Z.of_nat j)); [|lia].
  destruct (Z.ltb_spec (Z.of_nat j) (Z.of_nat (String.length s))); [|lia].
  simpl. rewrite Nat2Z.id, H. reflexivity.
Qed.

Lemma nth_error_pieces {A : Type} (l : list A) : forall k x,
  nth_error l k = Some x -> l = (firstn k l ++ x :: skipn (S k) l)%list.
Proof.
  induction l as [|a l IH]; intros [|k] x H; simpl in *; try discriminate.
  - inversion H; reflexivity.
  - f_equal. apply IH. exact H.
Qed.

Lemma matching_chars_cases o c :
  matching_chars (String o "") = Some (String c "") ->
  (o = "{" /\ c = "}")%char \/ (o = "(" /\ c = ")")%char
  \/ (o = "[" /\ c = "]")%char.
Proof.
  unfold matching_chars.
  change "{" with (String "{" ""). change "(" with (String "(" "").
  change "[" with (String "[" ""). rewrite !eqb_single.
  destruct (Ascii.eqb_spec o "{"); [intros E; inversion E; auto|].
  destruct (Ascii.eqb_spec o "("); [intros E; inversion E; auto|].
  destruct (Ascii.eqb_spec o "["); [intros E; inversion E; auto|].
  discriminate.
Qed.

Lemma matching_chars_neq o c :
  matching_chars (String o "") = Some (String c "") -> o <> c.
Proof.
  intros H. destruct (matching_chars_cases o c H) as [[-> ->]|[[-> ->]|[-> ->]]];
    discriminate.
Qed.

(** A list index that can be read denotes the position [norm] gives, and
    conversely. *)
Lemma get_norm {A : Type} (l : list A) (i : Z) (x : A) :
  Lst.get l i = Return x ->
  nth_error l (norm (List.length l) i) = Some x
  /\ - Lst.len l <= i < Lst.len l.
Proof.
  unfold Lst.get, Lst.pos, norm, Lst.len.
  set (j := if i <? 0 then i + Z.of_nat (List.length l) else i).
  destruct (Z.leb_spec 0 j); [|discriminate].
  destruct (Z.ltb_spec j (Z.of_nat (List.length l))); [|discriminate].
  simpl. destruct (nth_error l (Z.to_nat j)) as [y|]; [|discriminate].
  intros E; inversion E; subst y. split; [reflexivity|].
  unfold j in *. destruct (Z.ltb_spec i 0); lia.
Qed.

Lemma norm_get {A : Type} (l : list A) (i : Z) (x : A) :
  - Lst.len l <= i < Lst.len l ->
  nth_error l (norm (List.length l) i) = Some x ->
  Lst.get l i = Return x.
Proof.
  unfold Lst.get, Lst.pos, norm, Lst.len.
  set (j := if i <? 0 then i + Z.of_nat (List.length l) else i).
  intros Hi Hn.
  assert (Hj : 0 <= j < Z.of_nat (List.length l)).
  { unfold j. destruct (Z.ltb_spec i 0); lia. }
  destruct (Z.leb_spec 0 j); [|lia].
  destruct (Z.ltb_spec j (Z.of_nat (List.length l))); [|lia].
  simpl. rewrite Hn. reflexivity.
Qed.

(** The same for the characters of a string; the slice from a readable
    index starts at the position it denotes. *)
Lemma Str_get_norm s i ch :
  Str.get s i = Return ch ->
  String.get (norm (String.length s) i) s = Some ch
  /\ Str.from s i = Str.drop (norm (String.length s) i) s
  /\ - Str.len s <= i < Str.len s.
Proof.
  unfold Str.get, Str.from, Str.slice, Str.bound, Str.clamp, Str.len, norm.
  set (j := if i <? 0 then i + Z.of_nat (String.length s) else i).
  destruct (Z.leb_spec 0 j); [|discriminate].
  destruct (Z.ltb_spec j (Z.of_nat (String.length s))); [|discriminate].
  simpl. destruct (String.get (Z.to_nat j) s) as [a|] eqn:Eg; [|discriminate].
  intros E; inversion E; subst a; clear E.
  split; [reflexivity|]. split.
  - replace (Z.to_nat (Z.min (Z.max j 0) (Z.of_nat (String.length s))))
      with (Z.to_nat j) by lia.
    apply take_all. rewrite length_drop. lia.
  - unfold j in *. destruct (Z.ltb_spec i 0); lia.
Qed.

Lemma norm_Str_get s i ch :
  - Str.len s <= i < Str.len s ->
  String.get (norm (String.length s) i) s = Some ch ->
  Str.get s i = Return ch.
Proof.
  unfold Str.get, Str.len, norm.
  set (j := if i <? 0 then i + Z.of_nat (String.length s) else i).
  intros Hi Hg.
  assert (Hj : 0 <= j < Z.of_nat (String.length s)).
  { unfold j. destruct (Z.ltb_spec i 0); lia. }
  destruct (Z.leb_spec 0 j); [|lia].
  destruct (Z.ltb_spec j (Z.of_nat (String.length s))); [|lia].
  simpl. rewrite Hg. reflexivity.
Qed.

Lemma nth_error_nth_skipn {A : Type} (l : list A) (a k : nat) (dflt : A) :
  (a + k < List.length l)%nat ->
  nth_error l (a + k) = Some (nth k (skipn a l) dflt).
Proof.
  intros H. rewrite <- nth_error_skipn.
  apply nth_error_nth'. rewrite length_skipn. lia.
Qed.

(** [visited] lists the lines of the rounds that follow the first, in
    order. *)
Lemma visited_length lines sl line :
  Lst.get lines sl = Return line ->
  List.length (visited lines sl)
  = (Z.to_nat (Lst.len lines - sl) - 1)%nat.
Proof.
  intros H. apply get_norm in H. destruct H as [_ Hr].
  unfold visited, norm, Lst.len in *. rewrite length_app, length_skipn.
  destruct (Z.ltb_spec sl 0); simpl; lia.
Qed.

Lemma visited_get lines sl line k :
  Lst.get lines sl = Return line ->
  (k < List.length (visited lines sl))%nat ->
  Lst.get lines (sl + 1 + Z.of_nat k) = Return (nth k (visited lines sl) "").
Proof.
  intros H Hk. pose proof (visited_length lines sl line H) as Hlen.
  apply get_norm in H. destruct H as [_ Hr].
  unfold Lst.len in *.
  apply norm_get; [unfold Lst.len; lia|].
  unfold visited in *. unfold norm in *.
  set (n := List.length lines) in *.
  destruct (Z.ltb_spec sl 0) as [Hneg|Hpos].
  - set (a := Z.to_nat (sl + Z.of_nat n)) in *.
    destruct (Nat.lt_ge_cases k (n - S a)) as [Hin|Hout].
    + rewrite app_nth1 by (rewrite length_skipn; fold n; lia).
      destruct (Z.ltb_spec (sl + 1 + Z.of_nat k) 0); [|lia].
      replace (Z.to_nat (sl + 1 + Z.of_nat k + Z.of_nat n)) with (S a + k)%nat
        by lia.
      apply nth_error_nth_skipn. fold n. lia.
    + rewrite app_nth2 by (rewrite length_skipn; fold n; lia).
      rewrite length_skipn. fold n.
      destruct (Z.ltb_spec (sl + 1 + Z.of_nat k) 0); [lia|].
      replace (Z.to_nat (sl + 1 + Z.of_nat k)) with (k - (n - S a))%nat by lia.
      apply nth_error_nth'. fold n.
      rewrite length_app, length_skipn in Hk. fold n in Hk. lia.
  - rewrite app_nil_r in *.
    destruct (Z.ltb_spec (sl + 1 + Z.of_nat k) 0); [lia|].
    replace (Z.to_nat (sl + 1 + Z.of_nat k)) with (S (Z.to_nat sl) + k)%nat by lia.
    apply nth_error_nth_skipn. rewrite length_skipn in Hk. fold n in Hk |- *. lia.
Qed.

(** The rounds of [scan_lines] after the first are those of [scan_rest] on
    the lines they read. *)
Lemma scan_lines_visits o c lines sl sc V : forall li d,
  sl < li ->
  (forall k, (k < List.length V)%nat ->
             Lst.get lines (li + Z.of_nat k) = Return (nth k V "")) ->
  scan_lines lines sl sc (String o "") (String c "") (List.length V) li d
  = scan_rest (String o "") (String c "") li d V.
Proof.
  induction V as [|line V IH]; intros li d Hlt Hget; [reflexivity|].
  cbn [List.length scan_lines scan_rest].
  pose proof (Hget 0%nat) as H0. simpl in H0.
  rewrite Z.add_0_r in H0. rewrite H0 by lia. cbn [bind].
  destruct (Z.eqb_spec li sl) as [E|_]; [lia|]. cbn [bind].
  destruct (scan_line (String o "") (String c "") d 0 line)
    as [[d' [i|]]|e]; cbn [bind]; try reflexivity.
  apply IH; [lia|].
  intros k Hk. specialize (Hget (S k)). simpl in Hget.
  replace (li + 1 + Z.of_nat k) with (li + Z.pos (Pos.of_succ_nat k)) by lia.
  apply Hget. lia.
Qed.

(** The call as a scan of the start line followed by a scan of the lines
    visited after it. *)
Lemma find_matching_bracket_scan lines sl sc o c line :
  matching_chars (String o "") = Some (String c "") ->
  Lst.get lines sl = Return line ->
  find_matching_bracket lines sl sc (String o "")
  = (r <- scan_line (String o "") (String c "") [] 0 (Str.from line sc) ;;
     match r with
     | (_, Some index) => Return (sl, sc + index)
     | (d', None) =>
         scan_rest (String o "") (String c "") (sl + 1) d' (visited lines sl)
     end).
Proof.
  intros Hm Hl. unfold find_matching_bracket. rewrite Hm.
  pose proof (visited_length lines sl line Hl) as Hlen.
  pose proof (get_norm _ _ _ Hl) as [_ Hr].
  destruct (Z.to_nat (Lst.len lines - sl)) as [|n] eqn:En; [lia|].
  cbn [scan_lines]. rewrite Hl. cbn [bind]. rewrite Z.eqb_refl. cbn [bind].
  destruct (scan_line (String o "") (String c "") [] 0 (Str.from line sc))
    as [[d' [i|]]|e]; cbn [bind]; try reflexivity.
  replace n with (List.length (visited lines sl)) by lia.
  apply scan_lines_visits; [lia|].
  intros k Hk. rewrite <- Z.add_assoc, Z.add_assoc.
  apply (visited_get lines sl line k Hl Hk).
Qed.

Lemma norm_nat n (k : nat) : norm n (Z.of_nat k) = k.
Proof. unfold norm. destruct (Z.ltb_spec (Z.of_nat k) 0); lia. Qed.

(** An index moved forward within the sequence denotes the position moved
    forward. *)
Lemma norm_shift n i (k : nat) :
  - Z.of_nat n <= i < Z.of_nat n ->
  (norm n i + k < n)%nat ->
  norm n (i + Z.of_nat k) = (norm n i + k)%nat
  /\ - Z.of_nat n <= i + Z.of_nat k < Z.of_nat n.
Proof.
  unfold norm. intros Hi Hk.
  destruct (Z.ltb_spec i 0); destruct (Z.ltb_spec (i + Z.of_nat k) 0); lia.
Qed.

(** A match found in a list of lines is found in any longer list. *)
Lemma scan_rest_app o c V2 : forall V1 li d ml mc,
  scan_rest (String o "") (String c "") li d V1 = Return (ml, mc) ->
  0 <= mc ->
  scan_rest (String o "") (String c "") li d (V1 ++ V2)%list = Return (ml, mc).
Proof.
  induction V1 as [|line V1 IH]; intros li d ml mc H Hmc.
  - simpl in H. inversion H. lia.
  - simpl in *.
    destruct (scan_line (String o "") (String c "") d 0 line)
      as [[d' [i|]]|e]; cbn [bind] in *; try assumption.
    apply IH; assumption.
Qed.

Lemma char_at_inv lines sl sc ch :
  char_at lines sl sc = Return ch ->
  exists line,
    Lst.get lines sl = Return line /\ Str.get line sc = Return ch.
Proof.
  unfold char_at. intros H. bind_inv H. exists a. split; assumption.
Qed.

(** *** Balanced text *)

Lemma closer_of_cases o c :
  closer_of o = Some c ->
  (o = "{" /\ c = "}")%char \/ (o = "(" /\ c = ")")%char
  \/ (o = "[" /\ c = "]")%char.
Proof.
  unfold closer_of.
  destruct (Ascii.eqb_spec o "{"); [intros E; inversion E; auto|].
  destruct (Ascii.eqb_spec o "("); [intros E; inversion E; auto|].
  destruct (Ascii.eqb_spec o "["); [intros E; inversion E; auto|].
  discriminate.
Qed.

Lemma is_closer_cases ch :
  is_closer ch = true -> (ch = "}" \/ ch = ")" \/ ch = "]")%char.
Proof.
  unfold is_closer. intros H.
  apply orb_true_iff in H. destruct H as [H|H].
  - apply orb_true_iff in H. destruct H as [H|H];
      apply Ascii.eqb_eq in H; auto.
  - apply Ascii.eqb_eq in H; auto.
Qed.

Lemma closer_of_matching o c :
  matching_chars (String o "") = Some (String c "") -> closer_of o = Some c.
Proof.
  intros H.
  destruct (matching_chars_cases o c H) as [[-> ->]|[[-> ->]|[-> ->]]];
    reflexivity.
Qed.

Lemma opener_facts o c ch k :
  closer_of o = Some c -> closer_of ch = Some k ->
  Ascii.eqb ch c = false /\ Ascii.eqb ch o = Ascii.eqb k c.
Proof.
  intros Ho Hch.
  destruct (closer_of_cases o c Ho) as [[-> ->]|[[-> ->]|[-> ->]]];
    destruct (closer_of_cases ch k Hch) as [[-> ->]|[[-> ->]|[-> ->]]];
    split; reflexivity.
Qed.

Lemma closer_facts o c ch :
  closer_of o = Some c -> is_closer ch = true -> Ascii.eqb ch o = false.
Proof.
  intros Ho Hch.
  destruct (closer_of_cases o c Ho) as [[-> ->]|[[-> ->]|[-> ->]]];
    destruct (is_closer_cases ch Hch) as [-> | [-> | ->]]; reflexivity.
Qed.

Lemma other_facts o c ch :
  closer_of o = Some c -> closer_of ch = None -> is_closer ch = false ->
  Ascii.eqb ch o = false /\ Ascii.eqb ch c = false.
Proof.
  intros Ho Hn Hc. split.
  - destruct (Ascii.eqb_spec ch o) as [-> | ?]; [congruence | reflexivity].
  - destruct (Ascii.eqb_spec ch c) as [-> | ?]; [|reflexivity].
    destruct (closer_of_cases o c Ho) as [[_ ->]|[[_ ->]|[_ ->]]];
      discriminate Hc.
Qed.

(** In text that passes the check from the stack [stack], the closing
    brackets [c] are as many as the opening brackets [o] and the ones
    awaited. *)
Lemma balanced_counts o c :
  closer_of o = Some c ->
  forall s stack,
    balanced_go stack s = true ->
    (Str.occ o s + waits c stack = Str.occ c s)%nat.
Proof.
  intros Ho. induction s as [|ch s IH]; intros stack H.
  - destruct stack; [reflexivity | discriminate H].
  - rewrite !occ_cons. simpl in H.
    destruct (closer_of ch) as [k|] eqn:Ek.
    + destruct (opener_facts o c ch k Ho Ek) as [F1 F2].
      apply IH in H. simpl in H. rewrite F1, F2.
      destruct (Ascii.eqb k c); lia.
    + destruct (is_closer ch) eqn:Ec.
      * destruct stack as [|k stack]; [discriminate H|].
        apply andb_true_iff in H. destruct H as [Hk H].
        apply Ascii.eqb_eq in Hk. subst k.
        apply IH in H. simpl.
        rewrite (closer_facts o c ch Ho Ec).
        destruct (Ascii.eqb ch c); lia.
      * destruct (other_facts o c ch Ho Ek Ec) as [F1 F2].
        apply IH in H. rewrite F1, F2. lia.
Qed.

Lemma balanced_suffix a : forall stack b,
  balanced_go stack (a ++ b) = true ->
  exists stack', balanced_go stack' b = true.
Proof.
  induction a as [|ch a IH]; intros stack b H.
  - exists stack. exact H.
  - simpl in H. destruct (closer_of ch).
    + apply IH in H. exact H.
    + destruct (is_closer ch).
      * destruct stack as [|k stack]; [discriminate H|].
        apply andb_true_iff in H. destruct H as [_ H].
        apply IH in H. exact H.
      * apply IH in H. exact H.
Qed.

(** In balanced text, what follows any position has at least as many
    closing as opening brackets of each kind. *)
Lemma balanced_scanned o c pre line rest b :
  closer_of o = Some c ->
  balanced (pre ++ line :: rest)%list = true ->
  (Str.occ o (Str.drop b line ++ Str.cat rest)
   <= Str.occ c (Str.drop b line ++ Str.cat rest))%nat.
Proof.
  intros Ho H. unfold balanced in H.
  rewrite cat_app in H. simpl Str.cat in H.
  rewrite <- (take_drop b line) in H at 1.
  rewrite append_assoc, <- append_assoc in H.
  apply balanced_suffix in H. destruct H as [stack H].
  apply (balanced_counts o c Ho) in H. lia.
Qed.

(** *** The claims about find_matching_bracket *)

(** From an opening bracket the scan never pops an empty deque. *)
Lemma find_matching_bracket_safe lines sl sc o c :
  matching_chars (String o "") = Some (String c "") ->
  char_at lines sl sc = Return o ->
  returns (find_matching_bracket lines sl sc (String o "")).
Proof.
  intros Hm Hat. pose proof (matching_chars_neq o c Hm) as Hoc.
  destruct (char_at_inv _ _ _ _ Hat) as [line [Hl Hs]].
  pose proof (Str_get_norm _ _ _ Hs) as [Hg [Hfrom _]].
  rewrite (find_matching_bracket_scan lines sl sc o c line Hm Hl).
  pose proof (drop_get _ _ _ Hg) as Hfl. rewrite <- Hfrom in Hfl.
  destruct (scan_line_spec o c Hoc (Str.from line sc) [] 0)
    as [j Hj Hc | d' Hne Hc]; cbn [bind].
  - right. eexists. exact Hfl.
  - eexists. reflexivity.
  - destruct (scan_rest_spec o c Hoc (visited lines sl) d' (sl + 1) Hne);
      eexists; reflexivity.
Qed.

(** C2: in well-balanced bracket text, from a position that holds an
    opening bracket, [find_matching_bracket] returns a position that holds
    the closing bracket of the same kind, and the text from the start
    position through that position has as many opening as closing brackets
    of that kind. *)
Theorem find_matching_bracket_balanced lines sl sc o c :
  matching_chars (String o "") = Some (String c "") ->
  balanced lines = true ->
  char_at lines sl sc = Return o ->
  exists ml mc,
    find_matching_bracket lines sl sc (String o "") = Return (ml, mc)
    /\ char_at lines ml mc = Return c
    /\ Str.occ o (span lines sl sc ml mc) = Str.occ c (span lines sl sc ml mc).
Proof.
  intros Hm Hbal Hat. pose proof (matching_chars_neq o c Hm) as Hoc.
  destruct (char_at_inv _ _ _ _ Hat) as [line [Hl Hs]].
  pose proof (get_norm _ _ _ Hl) as [Hn Hsl].
  pose proof (Str_get_norm _ _ _ Hs) as [Hg [Hfrom Hsc]].
  set (a := norm (List.length lines) sl) in *.
  set (p := norm (String.length line) sc) in *.
  pose proof (nth_error_nth _ _ "" Hn) as Hnth.
  destruct (nth_error_split _ _ Hn) as [pre [rest [Hlines Hpre]]].
  assert (Hrest : skipn (S a) lines = rest).
  { rewrite Hlines, <- Hpre.
    change (pre ++ line :: rest)%list with (pre ++ [line] ++ rest)%list.
    rewrite app_assoc.
    replace (S (List.length pre)) with (List.length (pre ++ [line])%list)
      by (rewrite length_app; simpl; lia).
    rewrite skipn_app, Nat.sub_diag, skipn_all. reflexivity. }
  assert (Hlen : List.length lines = (a + 1 + List.length rest)%nat).
  { rewrite Hlines, length_app. simpl. lia. }
  rewrite (find_matching_bracket_scan lines sl sc o c line Hm Hl).
  pose proof (drop_get _ _ _ Hg) as Hfl. rewrite <- Hfrom in Hfl.
  destruct (scan_line_spec o c Hoc (Str.from line sc) [] 0)
    as [j Hj Hc | d' Hne Hc]; cbn [bind].
  { right. eexists. exact Hfl. }
  - (* the match is on the start line *)
    pose proof (get_lt _ _ _ Hj) as Hlt.
    rewrite Hfrom, length_drop in Hlt. rewrite Hfrom, get_drop in Hj.
    destruct (norm_shift (String.length line) sc j) as [Hq Hrange];
      [exact Hsc | fold p; lia |]. fold p in Hq.
    exists sl, (sc + (0 + Z.of_nat j)). rewrite Z.add_0_l.
    split; [reflexivity|]. split.
    + unfold char_at. rewrite Hl. cbn [bind].
      apply norm_Str_get; [exact Hrange|]. rewrite Hq. exact Hj.
    + unfold span. fold a. rewrite Nat.eqb_refl, Hnth. rewrite Hq. fold p.
      replace (S (p + j) - p)%nat with (S j) by lia.
      rewrite <- Hfrom. cbn [List.length Nat.add] in Hc. exact Hc.
  - (* the match is on a later line *)
    pose proof (scan_rest_spec o c Hoc rest d' (sl + 1) Hne) as Hrest_spec.
    inversion Hrest_spec as [k j line' Hk Hj Hc' Heq | d'' Hne' Hc' Heq].
    + assert (Hklt : (k < List.length rest)%nat)
        by (apply nth_error_Some; congruence).
      destruct (norm_shift (List.length lines) sl (S k)) as [Hb Hrange];
        [exact Hsl | fold a; lia |]. fold a in Hb.
      replace (sl + Z.of_nat (S k)) with (sl + 1 + Z.of_nat k) in Hb, Hrange
        by lia.
      assert (Hline' : nth_error lines (a + S k) = Some line').
      { rewrite Hlines, <- Hpre, nth_error_app2 by lia.
        replace (List.length pre + S k - List.length pre)%nat with (S k) by lia.
        exact Hk. }
      exists (sl + 1 + Z.of_nat k), (Z.of_nat j).
      split; [|split].
      * unfold visited. fold a. rewrite Hrest.
        apply scan_rest_app; [|lia]. symmetry. exact Heq.
      * unfold char_at. rewrite (norm_get lines _ line' Hrange)
          by (rewrite Hb; exact Hline').
        cbn [bind]. apply get_Str. exact Hj.
      * unfold span. fold a. rewrite Hb.
        destruct (Nat.eqb_spec (a + S k) a) as [E|_]; [lia|].
        rewrite Hnth, Hrest, (nth_error_nth _ _ "" Hline'), norm_nat.
        fold p. rewrite <- Hfrom.
        replace (a + S k - S a)%nat with k by lia.
        rewrite !occ_append in *. cbn [List.length Nat.add] in Hc. lia.
    + exfalso.
      pose proof (balanced_scanned o c pre line rest p
                    (closer_of_matching o c Hm)) as Hle.
      rewrite <- Hlines in Hle. specialize (Hle Hbal).
      rewrite <- Hfrom, !occ_append in Hle.
      cbn [List.length Nat.add] in Hc.
      destruct d''; [congruence|]. simpl in Hc'. lia.
Qed.

Lemma find_matching_bracket_balanced_witness :
  matching_chars "(" = Some ")"
  /\ balanced nested_call = true
  /\ char_at nested_call 0 12 = Return "("%char
  /\ exists ml mc,
       find_matching_bracket nested_call 0 12 (String "(" "") = Return (ml, mc)
       /\ char_at nested_call ml mc = Return ")"%char
       /\ Str.occ "(" (span nested_call 0 12 ml mc)
          = Str.occ ")" (span nested_call 0 12 ml mc).
Proof.
  split; [reflexivity|]. split; [reflexivity|]. split; [reflexivity|].
  apply (find_matching_bracket_balanced nested_call 0 12 "(" ")");
    try reflexivity; lia.
Defined.

Example find_matching_bracket_nested_call :
  find_matching_bracket nested_call 0 12 "(" = Return (3, 1)
  /\ span nested_call 0 12 3 1
     = "(image, {" ++ "  bands: [1, 2]," ++ "  max: f(3)" ++ "})".
Proof. split; vm_compute; reflexivity. Qed.

(** C6: when, from a position that holds an opening bracket, every
    non-empty prefix of the scanned text has more opening than closing
    brackets of that kind (the deque never empties), [find_matching_bracket]
    returns the sentinel [(-1, -1)]; it does not raise. *)
Theorem find_matching_bracket_unclosed lines sl sc o c :
  matching_chars (String o "") = Some (String c "") ->
  char_at lines sl sc = Return o ->
  (forall m, (0 < m <= String.length (scanned lines sl sc))%nat ->
             (Str.occ c (Str.take m (scanned lines sl sc))
              < Str.occ o (Str.take m (scanned lines sl sc)))%nat) ->
  find_matching_bracket lines sl sc (String o "") = Return (-1, -1).
Proof.
  intros Hm Hat Hopen. pose proof (matching_chars_neq o c Hm) as Hoc.
  destruct (char_at_inv _ _ _ _ Hat) as [line [Hl Hs]].
  pose proof (get_norm _ _ _ Hl) as [Hn _].
  pose proof (Str_get_norm _ _ _ Hs) as [Hg [Hfrom _]].
  assert (Hscanned : scanned lines sl sc
                     = Str.from line sc ++ Str.cat (visited lines sl)).
  { unfold scanned. now rewrite (nth_error_nth _ _ _ Hn). }
  rewrite Hscanned in Hopen. clear Hscanned.
  rewrite (find_matching_bracket_scan lines sl sc o c line Hm Hl).
  pose proof (drop_get _ _ _ Hg) as Hfl. rewrite <- Hfrom in Hfl.
  set (fl := Str.from line sc) in *.
  set (V := visited lines sl) in *.
  destruct (scan_line_spec o c Hoc fl [] 0) as [j Hj Hc | d' Hne Hc].
  { right. eexists. exact Hfl. }
  - exfalso. pose proof (get_lt _ _ _ Hj) as Hlt.
    specialize (Hopen (S j)).
    rewrite take_take_append, length_append in Hopen by lia.
    cbn [List.length Nat.add] in Hc. lia.
  - cbn [bind].
    destruct (scan_rest_spec o c Hoc V d' (sl + 1) Hne)
      as [k j line' Hk Hj Hc' | d'' Hne' Hc']; [|reflexivity].
    exfalso.
    specialize (Hopen (String.length
                         (fl ++ Str.cat (firstn k V) ++ Str.take (S j) line'))).
    assert (Hsplit : fl ++ Str.cat V
                     = (fl ++ Str.cat (firstn k V) ++ Str.take (S j) line')
                       ++ (Str.drop (S j) line' ++ Str.cat (skipn (S k) V))).
    { rewrite (nth_error_pieces V k line' Hk) at 1.
      rewrite cat_app. simpl Str.cat.
      rewrite <- (take_drop (S j) line') at 1.
      rewrite !append_assoc. reflexivity. }
    rewrite Hsplit, take_append, !length_append in Hopen.
    rewrite !occ_append in *. cbn [List.length Nat.add] in Hc.
    assert (0 < String.length fl)%nat by (rewrite Hfl; simpl; lia).
    lia.
Qed.

Lemma find_matching_bracket_unclosed_witness :
  matching_chars "{" = Some "}"
  /\ char_at unclosed_call 0 6 = Return "{"%char
  /\ scanned unclosed_call 0 6 = "{a: {}"
  /\ find_matching_bracket unclosed_call 0 6 (String "{" "") = Return (-1, -1).
Proof.
  split; [reflexivity|]. split; [reflexivity|]. split; [reflexivity|].
  apply (find_matching_bracket_unclosed unclosed_call 0 6 "{" "}");
    try reflexivity; try lia.
  intros m Hm. change (scanned unclosed_call 0 6) with "{a: {}" in *.
  simpl in Hm.
  destruct m as [|[|[|[|[|[|[|m]]]]]]]; simpl; lia.
Defined.

(** With a negative [start_line_index] the loop goes on from the first
    line once the last is done, which is why [visited] then holds every
    line once more: the bracket on the last line finds its counterpart on
    the first. *)
Example find_matching_bracket_wraps :
  find_matching_bracket ["}"; "{"] (-1) 0 "{" = Return (0, 0)
  /\ scanned ["}"; "{"] (-1) 0 = "{" ++ "}" ++ "{".
Proof. split; vm_compute; reflexivity. Qed.

(** Indices counted from the end give a position counted from the end. *)
Example find_matching_bracket_from_the_end :
  find_matching_bracket nested_call (-3) (-7) "[" = Return (-3, -2)
  /\ char_at nested_call (-3) (-2) = Return "]"%char
  /\ span nested_call (-3) (-7) (-3) (-2) = "[1, 2]".
Proof. repeat split; vm_compute; reflexivity. Qed.

(** C10: [find_matching_bracket] is partial.  On the one line [}] scanned
    from its first character for [{], a character that is not the opening
    bracket, the closing bracket is met with an empty deque and the call
    raises [IndexError] instead of returning the sentinel.  When the
    character at the start position is the opening bracket (of one of the
    three kinds) the call returns. *)
Theorem find_matching_bracket_partial :
  find_matching_bracket ["}"] 0 0 "{" = Raise IndexError
  /\ char_at ["}"] 0 0 = Return "}"%char
  /\ (forall lines sl sc o c,
        matching_chars (String o "") = Some (String c "") ->
        char_at lines sl sc = Return o ->
        returns (find_matching_bracket lines sl sc (String o ""))).
Proof.
  split; [reflexivity|]. split; [reflexivity|].
  exact find_matching_bracket_safe.
Qed.

Lemma find_matching_bracket_partial_witness :
  matching_chars "[" = Some "]"
  /\ char_at nested_call (-3) (-7) = Return "["%char
  /\ returns (find_matching_bracket nested_call (-3) (-7) (String "[" "")).
Proof.
  split; [reflexivity|]. split; [reflexivity|].
  apply (proj2 (proj2 find_matching_bracket_partial) nested_call (-3) (-7)
           "["%char "]"%char); reflexivity.
Defined.

(** ** format_params *)

Lemma lstrip_spaces n s : Str.lstrip (Str.times " " n ++ s) = Str.lstrip s.
Proof. induction n as [|n IH]; simpl; [reflexivity | exact IH]. Qed.

Lemma length_times ch n : String.length (Str.times ch n) = n.
Proof. induction n as [|n IH]; simpl; congruence. Qed.

Lemma find_all_go_spaces n : forall pos s,
  find_all_go ":" 0 pos (Str.times " " n ++ s)
  = find_all_go ":" 0 (pos + Z.of_nat n) s.
Proof.
  induction n as [|n IH]; intros pos s.
  - simpl. now rewrite Z.add_0_r.
  - change (find_all_go ":" 0 pos (Str.times " " (S n) ++ s))
      with (find_all_go ":" 0 (pos + 1) (Str.times " " n ++ s)).
    rewrite IH. f_equal. lia.
Qed.

Lemma contains_spaces ch n s :
  Ascii.eqb ch " " = false ->
  Str.contains (String ch "") (Str.times " " n ++ s)
  = Str.contains (String ch "") s.
Proof.
  intros Hch. unfold Str.contains.
  induction n as [|n IH]; [reflexivity|].
  simpl Str.times. simpl append. cbn [Str.find_nat].
  rewrite startswith_cons, Hch. simpl.
  destruct (Str.find_nat (Str.times " " n ++ s) (String ch ""));
    destruct (Str.find_nat s (String ch "")); simpl in *; congruence.
Qed.

Lemma split_spaces ch n p ps s :
  Ascii.eqb ch " " = false ->
  Str.split s (String ch "") = p :: ps ->
  Str.split (Str.times " " n ++ s) (String ch "")
  = (Str.times " " n ++ p) :: ps.
Proof.
  intros Hch Hs. unfold Str.split in *.
  induction n as [|n IH]; [exact Hs|].
  simpl Str.times. simpl append. cbn [Str.split_go].
  rewrite startswith_cons, Hch. simpl. rewrite IH. reflexivity.
Qed.

Lemma startswith_refl s : Str.startswith s s = true.
Proof.
  induction s as [|a s IH]; [reflexivity|].
  rewrite startswith_cons, Ascii.eqb_refl. exact IH.
Qed.

Lemma replace_go_skip_all old new k s :
  Str.is_empty old = false ->
  Str.replace_go old new k (String.length s) s = "".
Proof.
  intros Ho. induction s as [|a s IH]; simpl.
  - rewrite Ho, andb_false_r. reflexivity.
  - exact IH.
Qed.

(** Replacing a non-empty string within itself leaves the replacement. *)
Lemma replace_self s new :
  Str.is_empty s = false -> Str.replace s s new = new.
Proof.
  destruct s as [|a s]; [discriminate|]. intros _.
  unfold Str.replace. cbn [Str.replace_go Str.spent Str.is_empty].
  rewrite startswith_refl.
  replace (String.length (String a s) - 1)%nat with (String.length s)
    by (simpl; lia).
  rewrite replace_go_skip_all by reflexivity.
  apply append_nil_r.
Qed.

Lemma unquoted_spaces n s :
  unquoted (Str.times " " n ++ s) = unquoted s.
Proof.
  unfold unquoted.
  unfold dquote. change "'" with (String "'" "").
  now rewrite !contains_spaces by reflexivity.
Qed.

(** The round for the first item, a bare key after [n] blanks. *)
Lemma quote_multi_padded n key rest :
  Str.contains "," key = false ->
  unquoted key = true ->
  Str.strip key = key ->
  Str.lstrip key = key ->
  Str.is_empty key = false ->
  quote_multi ((Str.times " " n ++ key) :: rest) 0
  = Return ((Str.times " " n ++ "'" ++ key ++ "'") :: rest).
Proof.
  intros Hc Hu Hs Hl He. unfold quote_multi.
  change (Lst.get ((Str.times " " n ++ key) :: rest) 0)
    with (Return (A := string) (Str.times " " n ++ key)).
  cbn [bind].
  change "," with (String "," ""). rewrite contains_spaces by reflexivity.
  change (String "," "") with ",". rewrite Hc, unquoted_spaces, Hu.
  assert (Hstrip : Str.strip (Str.times " " n ++ key) = key).
  { unfold Str.strip. rewrite lstrip_spaces, Hl.
    unfold Str.strip in Hs. now rewrite Hl in Hs. }
  rewrite Hstrip.
  rewrite replace_self.
  2:{ destruct n; [exact He | reflexivity]. }
  unfold Str.len. rewrite length_append, length_times.
  replace (Z.to_nat (Z.of_nat (n + String.length key)
                     - Z.of_nat (String.length key))) with n by lia.
  reflexivity.
Qed.

Lemma quote_multi_second x :
  quote_multi [x; " 0, max"; " 10"] 1 = Return [x; " 0, 'max'"; " 10"].
Proof. reflexivity. Qed.

Lemma format_params_padded n :
  format_params (Str.times " " n ++ "min: 0, max: 10") ":"
  = Return (Str.times " " n ++ "'min': 0, 'max': 10").
Proof.
  unfold format_params.
  assert (Hstrip : Str.strip (Str.times " " n ++ "min: 0, max: 10")
                   = "min: 0, max: 10").
  { unfold Str.strip. rewrite lstrip_spaces. reflexivity. }
  rewrite Hstrip.
  change (Str.startswith "min: 0, max: 10" "for") with false. cbv iota.
  unfold find_all. rewrite find_all_go_spaces.
  change (Lst.len (find_all_go ":" 0 (0 + Z.of_nat n) "min: 0, max: 10"))
    with 2.
  change "{" with (String "{" "") at 1.
  rewrite contains_spaces by reflexivity.
  change (Str.contains (String "{" "") "min: 0, max: 10") with false.
  cbv iota. cbn [bind].
  change (0 <? 2) with true. change (2 =? 1) with false. cbv iota.
  change ":" with (String ":" "") at 1.
  rewrite (split_spaces ":" n "min" [" 0, max"; " 10"]) by reflexivity.
  change (Z.to_nat 2) with 2%nat. cbn [for_range].
  rewrite (quote_multi_padded n "min" [" 0, max"; " 10"]) by reflexivity.
  cbn [bind]. change (0 + 1) with 1.
  rewrite quote_multi_second. cbn [bind Str.join].
  simpl append. rewrite !append_assoc. reflexivity.
Qed.

(** C8: [format_params] turns [min: 0, max: 10] into
    ['min': 0, 'max': 10]: with two colons on the line, the first key and
    the key after the last comma before the second colon are quoted, and
    the blanks before the first key, however many, are kept. *)
Theorem format_params_min_max :
  format_params "min: 0, max: 10" ":" = Return "'min': 0, 'max': 10"
  /\ forall n,
       format_params (Str.times " " n ++ "min: 0, max: 10") ":"
       = Return (Str.times " " n ++ "'min': 0, 'max': 10").
Proof.
  split; [exact (format_params_padded 0) | exact format_params_padded].
Qed.

(** ** Single-character patterns *)

Lemma startswith_single a s ch :
  Str.startswith (String a s) (String ch "") = Ascii.eqb ch a.
Proof. rewrite startswith_cons. simpl. apply andb_true_r. Qed.

Lemma find_nat_occ ch s :
  Str.occ ch s = O -> Str.find_nat s (String ch "") = None.
Proof.
  induction s as [|a s IH]; intros H; [reflexivity|].
  rewrite occ_cons in H. cbn [Str.find_nat]. rewrite startswith_single.
  rewrite Ascii.eqb_sym.
  destruct (Ascii.eqb a ch); [simpl in H; lia|].
  rewrite IH by (simpl in H; lia). reflexivity.
Qed.

Lemma find_nat_first ch a b :
  Str.occ ch a = O ->
  Str.find_nat (a ++ String ch b) (String ch "") = Some (String.length a).
Proof.
  induction a as [|x a IH]; intros H.
  - simpl append. cbn [Str.find_nat]. rewrite startswith_single.
    now rewrite Ascii.eqb_refl.
  - rewrite occ_cons in H. simpl append. cbn [Str.find_nat].
    rewrite startswith_single, Ascii.eqb_sym.
    destruct (Ascii.eqb x ch); [simpl in H; lia|].
    rewrite IH by (simpl in H; lia). reflexivity.
Qed.

Lemma contains_occ ch s :
  Str.contains (String ch "") s = negb (Str.occ ch s =? 0)%nat.
Proof.
  unfold Str.contains. induction s as [|a s IH]; [reflexivity|].
  rewrite occ_cons. cbn [Str.find_nat]. rewrite startswith_single.
  rewrite Ascii.eqb_sym. destruct (Ascii.eqb a ch); [reflexivity|].
  simpl. destruct (Str.find_nat s (String ch "")); simpl in *; exact IH.
Qed.

Lemma find_all_go_count ch s : forall pos,
  List.length (find_all_go (String ch "") 0 pos s) = Str.occ ch s.
Proof.
  induction s as [|a s IH]; intros pos; [reflexivity|].
  rewrite occ_cons. cbn [find_all_go]. rewrite startswith_single.
  rewrite Ascii.eqb_sym. destruct (Ascii.eqb a ch); simpl; rewrite IH; lia.
Qed.

Lemma split_none ch s :
  Str.occ ch s = O -> Str.split s (String ch "") = [s].
Proof.
  unfold Str.split. induction s as [|a s IH]; intros H; [reflexivity|].
  rewrite occ_cons in H. cbn [Str.split_go]. rewrite startswith_single.
  rewrite Ascii.eqb_sym.
  destruct (Ascii.eqb a ch); [simpl in H; lia|].
  rewrite IH by (simpl in H; lia). reflexivity.
Qed.

Lemma split_first ch a b :
  Str.occ ch a = O ->
  Str.split (a ++ String ch b) (String ch "")
  = a :: Str.split b (String ch "").
Proof.
  unfold Str.split. induction a as [|x a IH]; intros H.
  - simpl append. cbn [Str.split_go]. rewrite startswith_single.
    now rewrite Ascii.eqb_refl.
  - rewrite occ_cons in H. simpl append. cbn [Str.split_go].
    rewrite startswith_single, Ascii.eqb_sym.
    destruct (Ascii.eqb x ch); [simpl in H; lia|].
    rewrite IH by (simpl in H; lia). reflexivity.
Qed.

(** ** format_params without a separator *)

Lemma find_all_go_none sub s : forall pos,
  Str.find_nat s sub = None -> find_all_go sub 0 pos s = [].
Proof.
  induction s as [|a s IH]; intros pos H; [reflexivity|].
  cbn [Str.find_nat] in H. cbn [find_all_go].
  destruct (Str.startswith (String a s) sub); [discriminate|].
  apply IH. destruct (Str.find_nat s sub); [discriminate | reflexivity].
Qed.

(** X5: a line that does not hold the separator is returned as it is,
    unless it holds an opening brace and does not start with [for] once
    stripped: the position of the first separator is then read from an
    empty list, and the call raises [IndexError]. *)
Theorem format_params_no_separator line sep :
  Str.contains sep line = false ->
  format_params line sep
  = if Str.startswith (Str.strip line) "for" then Return line
    else if Str.contains "{" line then Raise IndexError
    else Return line.
Proof.
  intros H. unfold format_params.
  destruct (Str.startswith (Str.strip line) "for"); [reflexivity|].
  unfold find_all. rewrite find_all_go_none.
  2:{ unfold Str.contains in H.
      destruct (Str.find_nat line sep); [discriminate | reflexivity]. }
  destruct (Str.contains "{" line) eqn:Hb.
  - unfold Str.contains in Hb. unfold Str.index.
    destruct (Str.find_nat line "{"); [reflexivity | discriminate].
  - reflexivity.
Qed.

Lemma format_params_no_separator_witness :
  format_params "print(x);" ":" = Return "print(x);"
  /\ format_params "if (x) {" ":" = Raise IndexError.
Proof.
  split.
  - exact (format_params_no_separator "print(x);" ":" eq_refl).
  - exact (format_params_no_separator "if (x) {" ":" eq_refl).
Defined.

(** ** format_params on one key and its value *)

Lemma rstrip_last s ch :
  Str.is_space ch = false ->
  Str.rstrip (s ++ String ch "") = s ++ String ch "".
Proof.
  intros Hc. induction s as [|a s IH]; simpl.
  - rewrite Hc. reflexivity.
  - simpl in IH. rewrite IH. destruct s; reflexivity.
Qed.

(** The line that is one key and its value: the key is put between quotes
    unless it is quoted already. *)
Lemma format_params_pair key value :
  single_pair key value ->
  format_params (key ++ ":" ++ value) ":"
  = Return ((if unquoted key then "'" ++ key ++ "'" else key)
            ++ ":" ++ value).
Proof.
  intros (Hfor & Hk & Hv & Hbk & Hbv & Hs & He).
  unfold format_params. rewrite Hfor.
  assert (Hcount : Lst.len (find_all (key ++ ":" ++ value) ":") = 1).
  { unfold Lst.len, find_all. change ":" with (String ":" "") at 2.
    rewrite find_all_go_count, !occ_append, Hk, Hv. reflexivity. }
  rewrite Hcount.
  assert (Hbrace : Str.contains "{" (key ++ ":" ++ value) = false).
  { change "{" with (String "{" "").
    rewrite contains_occ, !occ_append, Hbk, Hbv. reflexivity. }
  rewrite Hbrace. cbn [bind].
  change (0 <? 1) with true. change (1 =? 1) with true. cbv iota.
  change (Z.to_nat 1) with 1%nat. cbn [for_range].
  assert (Hsplit : Str.split (key ++ ":" ++ value) ":" = [key; value]).
  { change (key ++ ":" ++ value) with (key ++ String ":" value).
    change ":" with (String ":" "").
    rewrite split_first by exact Hk. now rewrite split_none by exact Hv. }
  rewrite Hsplit.
  unfold quote_single.
  change (Lst.get [key; value] 0) with (Return (A := string) key).
  cbn [bind]. rewrite Hs.
  destruct (unquoted key).
  - rewrite replace_self by exact He.
    change (Lst.set [key; value] 0 ("'" ++ key ++ "'"))
      with (Return (A := list string) ["'" ++ key ++ "'"; value]).
    cbn [bind Str.join]. reflexivity.
  - cbn [bind Str.join]. reflexivity.
Qed.

Lemma quoted_key_pair key value :
  single_pair key value ->
  single_pair ("'" ++ key ++ "'") value
  /\ unquoted ("'" ++ key ++ "'") = false.
Proof.
  intros (Hfor & Hk & Hv & Hbk & Hbv & Hs & He).
  split; [split; [|split; [|split; [|split; [|split; [|split]]]]]|].
  - unfold Str.strip. cbn [append Str.lstrip].
    change (Str.is_space "'") with false. cbv iota.
    cbn [Str.rstrip]. change (Str.is_space "'") with false.
    rewrite andb_false_r. reflexivity.
  - rewrite !occ_append, Hk. reflexivity.
  - exact Hv.
  - rewrite !occ_append, Hbk. reflexivity.
  - exact Hbv.
  - unfold Str.strip. cbn [append Str.lstrip].
    change (Str.is_space "'") with false. cbv iota.
    change (String "'" (key ++ "'")) with (String "'" key ++ String "'" "").
    apply rstrip_last. reflexivity.
  - reflexivity.
  - unfold unquoted. apply andb_false_iff. right. reflexivity.
Qed.

(** X6: on a line that is one key and its value, [format_params] puts the
    key between single quotes unless it is quoted already and leaves the
    rest of the line as it is; run on its own result, it changes nothing
    more. *)
Theorem format_params_single_pair key value :
  single_pair key value ->
  let r := (if unquoted key then "'" ++ key ++ "'" else key)
           ++ ":" ++ value in
  format_params (key ++ ":" ++ value) ":" = Return r
  /\ format_params r ":" = Return r.
Proof.
  intros H r. subst r. split; [exact (format_params_pair key value H)|].
  destruct (unquoted key) eqn:Hu.
  - destruct (quoted_key_pair key value H) as [H' Hq].
    rewrite (format_params_pair _ value H'), Hq. reflexivity.
  - rewrite (format_params_pair key value H), Hu. reflexivity.
Qed.

Lemma format_params_single_pair_witness :
  single_pair "min" " 0"
  /\ format_params "min: 0" ":" = Return "'min': 0"
  /\ format_params "'min': 0" ":" = Return "'min': 0".
Proof.
  assert (H : single_pair "min" " 0") by (repeat split).
  split; [exact H|]. exact (format_params_single_pair "min" " 0" H).
Defined.

(** ** Slices of a concatenation *)

Lemma clamp_nat len n : Str.clamp len (Z.of_nat n) = Nat.min n len.
Proof. unfold Str.clamp. destruct (Z.ltb_spec (Z.of_nat n) 0); lia. Qed.

Lemma drop_append a b : Str.drop (String.length a) (a ++ b) = b.
Proof. induction a; simpl; [reflexivity | assumption]. Qed.

Lemma slice_middle a m b :
  Str.slice (a ++ m ++ b) (Some (Z.of_nat (String.length a)))
    (Some (Z.of_nat (String.length a + String.length m)))
  = m.
Proof.
  unfold Str.slice, Str.bound. rewrite !clamp_nat, !length_append.
  rewrite !Nat.min_l by lia. rewrite drop_append.
  replace (String.length a + String.length m - String.length a)%nat
    with (String.length m) by lia.
  apply take_append.
Qed.

Lemma upto_append a b : Str.upto (a ++ b) (Z.of_nat (String.length a)) = a.
Proof.
  unfold Str.upto, Str.slice, Str.bound. rewrite clamp_nat, length_append.
  rewrite Nat.min_l by lia. rewrite Nat.sub_0_r. simpl Str.drop.
  apply take_append.
Qed.

Lemma from_append a b : Str.from (a ++ b) (Z.of_nat (String.length a)) = b.
Proof.
  unfold Str.from, Str.slice, Str.bound. rewrite clamp_nat, length_append.
  rewrite Nat.min_l by lia. rewrite drop_append.
  apply take_all. lia.
Qed.

Lemma count_occ ch s : Str.count s (String ch "") = Z.of_nat (Str.occ ch s).
Proof.
  unfold Str.count. induction s as [|a s IH]; [reflexivity|].
  rewrite occ_cons. cbn [Str.count_go]. rewrite startswith_single.
  rewrite Ascii.eqb_sym. cbn [String.length Nat.sub].
  destruct (Ascii.eqb a ch); rewrite IH; lia.
Qed.

Lemma index_first ch a b :
  Str.occ ch a = O ->
  Str.index (a ++ String ch b) (String ch "")
  = Return (Z.of_nat (String.length a)).
Proof. intros H. unfold Str.index. now rewrite find_nat_first. Qed.

Lemma index_none ch s :
  Str.occ ch s = O -> Str.index s (String ch "") = Raise ValueError.
Proof. intros H. unfold Str.index. now rewrite find_nat_occ. Qed.

(** ** convert_for_loop *)

Lemma loop_shape_parts line prefix params suffix :
  loop_shape line prefix params suffix ->
  let line' := without_var line in
  exists start_index end_index,
    Str.index line' "(" = Return start_index
    /\ Str.index line' ")" = Return end_index
    /\ Str.upto line' start_index = prefix
    /\ Str.from line' (end_index + 1) = suffix
    /\ Str.slice line' (Some (start_index + 1)) (Some end_index) = params.
Proof.
  intros (Hl & Ho & Hc & Hp) line'. unfold line'. rewrite Hl.
  exists (Z.of_nat (String.length prefix)),
         (Z.of_nat (String.length (prefix ++ "(" ++ params))).
  split; [|split; [|split; [|split]]].
  - change "(" with (String "(" "") at 2.
    apply (index_first "(" prefix (params ++ ")" ++ suffix) Ho).
  - replace (prefix ++ "(" ++ params ++ ")" ++ suffix)
      with ((prefix ++ "(" ++ params) ++ String ")" suffix)
      by (now rewrite !append_assoc).
    change ")" with (String ")" "").
    apply index_first. rewrite !occ_append, Hc, Hp. reflexivity.
  - apply upto_append.
  - replace (prefix ++ "(" ++ params ++ ")" ++ suffix)
      with ((prefix ++ "(" ++ params ++ ")") ++ suffix)
      by (now rewrite !append_assoc).
    replace (Z.of_nat (String.length (prefix ++ "(" ++ params)) + 1)
      with (Z.of_nat (String.length (prefix ++ "(" ++ params ++ ")")))
      by (rewrite !length_append; simpl; lia).
    apply from_append.
  - replace (prefix ++ "(" ++ params ++ ")" ++ suffix)
      with ((prefix ++ "(") ++ params ++ (")" ++ suffix))
      by (now rewrite !append_assoc).
    replace (Z.of_nat (String.length prefix) + 1)
      with (Z.of_nat (String.length (prefix ++ "(")))
      by (rewrite length_append; simpl; lia).
    replace (Z.of_nat (String.length (prefix ++ "(" ++ params)))
      with (Z.of_nat (String.length (prefix ++ "(") + String.length params))
      by (rewrite !length_append; simpl; lia).
    apply slice_middle.
Qed.

(** X7: a header whose parentheses hold an [in] clause and no semicolon
    loses its first pair of parentheses (and every [var ] of the line): the
    result is the text before the opening parenthesis, the clause followed
    by a colon, and the text after the closing parenthesis. *)
Theorem convert_for_loop_in line prefix params suffix :
  loop_shape line prefix params suffix ->
  Str.contains " in " params = true ->
  Str.occ ";" params = O ->
  convert_for_loop line = Return (prefix ++ (params ++ ":") ++ suffix).
Proof.
  intros Hshape Hin Hsemi.
  destruct (loop_shape_parts _ _ _ _ Hshape) as (s & e & Hs & He & Hp & Hx & Hm).
  unfold convert_for_loop. fold (without_var line).
  rewrite Hs, He. cbn [bind]. rewrite Hp, Hx, Hm, Hin.
  change ";" with (String ";" ""). rewrite count_occ, Hsemi. reflexivity.
Qed.

Lemma get_last {A : Type} (l : list A) :
  l <> [] -> exists x, Lst.get l (-1) = Return x.
Proof.
  intros Hl.
  assert (Hlen : (0 < List.length l)%nat)
    by (destruct l; simpl; [congruence | lia]).
  destruct (nth_error l (norm (List.length l) (-1))) as [x|] eqn:E.
  - exists x. apply norm_get; [unfold Lst.len; lia | exact E].
  - apply nth_error_None in E. unfold norm in E.
    change (-1 <? 0) with true in E. cbv iota in E. lia.
Qed.

Lemma split_go_nonempty sep s : forall skip, Str.split_go sep skip s <> [].
Proof.
  induction s as [|a s IH]; intros skip; [discriminate|].
  cbn [Str.split_go]. destruct skip as [|k]; [|apply IH].
  destruct (Str.startswith (String a s) sep); [discriminate|].
  destruct (Str.split_go sep 0 s); discriminate.
Qed.

Lemma split_count ch s :
  List.length (Str.split s (String ch "")) = S (Str.occ ch s).
Proof.
  unfold Str.split. induction s as [|a s IH]; [reflexivity|].
  rewrite occ_cons. cbn [Str.split_go]. rewrite startswith_single.
  rewrite Ascii.eqb_sym. cbn [String.length Nat.sub].
  destruct (Ascii.eqb a ch).
  - simpl. rewrite IH. reflexivity.
  - pose proof (split_go_nonempty (String ch "") s 0%nat) as Hne.
    destruct (Str.split_go (String ch "") 0 s); [congruence|].
    simpl in *. exact IH.
Qed.

Lemma last_words_length items :
  exists ws, last_words items = Return ws /\ List.length ws = List.length items.
Proof.
  induction items as [|item items [ws [Hw Hl]]]; [exists []; split; reflexivity|].
  cbn [last_words].
  destruct (get_last (Str.split item " ") (split_go_nonempty " " item 0%nat))
    as [w Hw'].
  rewrite Hw', Hw. cbn [bind].
  exists (w :: ws). split; [reflexivity | simpl; lia].
Qed.

Lemma convert_for_loop_in_witness :
  convert_for_loop "for (var f in list) {" = Return "for f in list: {".
Proof.
  apply (convert_for_loop_in "for (var f in list) {" "for " "f in list" " {");
    repeat split.
Defined.

(** X9: a header that is not of the [in] kind and has fewer than three
    clauses between its parentheses (fewer than two semicolons) makes
    [convert_for_loop] raise [IndexError]. *)
Theorem convert_for_loop_short line prefix params suffix :
  loop_shape line prefix params suffix ->
  Str.contains " in " params && (Str.count params ";" =? 0) = false ->
  (Str.occ ";" params < 2)%nat ->
  convert_for_loop line = Raise IndexError.
Proof.
  intros Hshape Hin Hsemi.
  destruct (loop_shape_parts _ _ _ _ Hshape) as (s & e & Hs & He & Hp & Hx & Hm).
  unfold convert_for_loop. fold (without_var line).
  rewrite Hs, He. cbn [bind]. rewrite Hp, Hx, Hm, Hin.
  destruct (get_last (Str.split params "=") (split_go_nonempty "=" params 0%nat))
    as [w _].
  assert (Hfirst : exists f, Lst.get (Str.split params "=") 0 = Return f).
  { pose proof (split_go_nonempty "=" params 0%nat) as Hne.
    unfold Str.split. destruct (Str.split_go "=" 0 params) as [|f r];
      [congruence|]. exists f. reflexivity. }
  destruct Hfirst as [f Hf]. rewrite Hf. cbn [bind].
  destruct (last_words_length (Str.split params ";")) as [ws [Hws Hlen]].
  rewrite Hws. cbn [bind].
  change ";" with (String ";" "") in Hlen. rewrite split_count in Hlen.
  destruct ws as [|w0 [|w1 [|w2 ws]]]; simpl in Hlen; try lia; reflexivity.
Qed.

Lemma convert_for_loop_short_witness :
  convert_for_loop "for (i = 0; i < 3) {" = Raise IndexError.
Proof.
  apply (convert_for_loop_short "for (i = 0; i < 3) {" "for " "i = 0; i < 3"
           " {");
    [repeat split | reflexivity | simpl; lia].
Defined.

(** X10: a line that, once [var ] is removed, has no opening or no closing
    parenthesis makes [convert_for_loop] raise [ValueError]. *)
Theorem convert_for_loop_no_parenthesis line :
  Str.occ "(" (without_var line) = O \/ Str.occ ")" (without_var line) = O ->
  convert_for_loop line = Raise ValueError.
Proof.
  intros H. unfold convert_for_loop. fold (without_var line).
  change "(" with (String "(" "") at 1. change ")" with (String ")" "") at 1.
  destruct H as [H|H].
  - rewrite (index_none _ _ H). reflexivity.
  - rewrite (index_none _ _ H). unfold Str.index.
    destruct (Str.find_nat (without_var line) (String "(" "")); reflexivity.
Qed.

Lemma convert_for_loop_no_parenthesis_witness :
  convert_for_loop "for each x" = Raise ValueError.
Proof.
  apply (convert_for_loop_no_parenthesis "for each x"). left. reflexivity.
Defined.

Lemma split_app ch x y :
  Str.split (x ++ String ch y) (String ch "")
  = (Str.split x (String ch "") ++ Str.split y (String ch ""))%list.
Proof.
  unfold Str.split. induction x as [|a x IH].
  - simpl append. cbn [Str.split_go]. rewrite startswith_single.
    now rewrite Ascii.eqb_refl.
  - simpl append. cbn [Str.split_go]. rewrite !startswith_single.
    cbn [String.length Nat.sub].
    destruct (Ascii.eqb ch a).
    + rewrite IH. reflexivity.
    + rewrite IH.
      pose proof (split_go_nonempty (String ch "") x 0%nat) as Hne.
      destruct (Str.split_go (String ch "") 0 x); [congruence | reflexivity].
Qed.

Lemma get_last_app {A : Type} (l : list A) (x : A) :
  Lst.get (l ++ [x])%list (-1) = Return x.
Proof.
  apply norm_get.
  - unfold Lst.len. rewrite length_app. simpl. lia.
  - unfold norm. change (-1 <? 0) with true. cbv iota.
    rewrite length_app. cbn [List.length].
    replace (Z.to_nat (-1 + Z.of_nat (List.length l + 1))) with (List.length l)
      by lia.
    now rewrite nth_error_app2, Nat.sub_diag by lia.
Qed.

(** The last word of a text that ends with a blank and a word. *)
Lemma last_word x w :
  Str.occ " " w = O ->
  Lst.get (Str.split (x ++ " " ++ w) " ") (-1) = Return w.
Proof.
  intros Hw. change (x ++ " " ++ w) with (x ++ String " " w).
  change " " with (String " " "").
  rewrite split_app, (split_none " " w Hw). apply get_last_app.
Qed.

(** X8: a counting header [name = ... a; ... b; ... w], where [a], [b] and
    [w] are the last words of its three clauses, becomes
    [name in range(a, b, step):], the step being [1] when [w] holds [++],
    [-1] when it holds [--] and [w] itself otherwise; the text before the
    opening parenthesis and after the closing one is kept. *)
Theorem convert_for_loop_range line prefix suffix name init a cond b incr w :
  let clause0 := name ++ "=" ++ init ++ " " ++ a in
  let clause1 := cond ++ " " ++ b in
  let clause2 := incr ++ " " ++ w in
  loop_shape line prefix (clause0 ++ ";" ++ clause1 ++ ";" ++ clause2) suffix ->
  Str.occ "=" name = O ->
  Str.occ ";" clause0 = O -> Str.occ ";" clause1 = O ->
  Str.occ ";" clause2 = O ->
  Str.occ " " a = O -> Str.occ " " b = O -> Str.occ " " w = O ->
  convert_for_loop line
  = Return (prefix
            ++ (Str.strip name ++ " in range(" ++ a ++ ", " ++ b ++ ", "
                ++ step_of w ++ "):")
            ++ suffix).
Proof.
  intros clause0 clause1 clause2 Hshape Hn H0 H1 H2 Ha Hb Hw.
  destruct (loop_shape_parts _ _ _ _ Hshape) as (s & e & Hs & He & Hp & Hx & Hm).
  unfold convert_for_loop. fold (without_var line).
  rewrite Hs, He. cbn [bind]. rewrite Hp, Hx, Hm.
  set (params := clause0 ++ ";" ++ clause1 ++ ";" ++ clause2).
  assert (Hcount : (Str.count params ";" =? 0) = false).
  { change ";" with (String ";" ""). rewrite count_occ. unfold params.
    rewrite !occ_append, H0, H1, H2. reflexivity. }
  rewrite Hcount, andb_false_r.
  assert (Heq : Str.split params "="
                = name :: Str.split (init ++ " " ++ a ++ ";" ++ clause1
                                     ++ ";" ++ clause2) "=").
  { unfold params, clause0. rewrite !append_assoc.
    exact (split_first "=" name _ Hn). }
  rewrite Heq.
  change (Lst.get (name :: _) 0) with (Return (A := string) name).
  cbn [bind].
  assert (Hsemi : Str.split params ";" = [clause0; clause1; clause2]).
  { unfold params.
    transitivity (clause0 :: Str.split (clause1 ++ ";" ++ clause2) ";");
      [exact (split_first ";" clause0 _ H0)|]. f_equal.
    transitivity (clause1 :: Str.split clause2 ";");
      [exact (split_first ";" clause1 _ H1)|]. f_equal.
    exact (split_none ";" clause2 H2). }
  rewrite Hsemi. cbn [last_words].
  assert (L0 : Lst.get (Str.split clause0 " ") (-1) = Return a).
  { unfold clause0. rewrite <- !append_assoc.
    rewrite append_assoc. apply (last_word _ a Ha). }
  assert (L1 : Lst.get (Str.split clause1 " ") (-1) = Return b)
    by (apply (last_word cond b Hb)).
  assert (L2 : Lst.get (Str.split clause2 " ") (-1) = Return w)
    by (apply (last_word incr w Hw)).
  rewrite L0, L1, L2. cbn [bind].
  change (Lst.get [a; b; w] 0) with (Return (A := string) a).
  change (Lst.get [a; b; w] 1) with (Return (A := string) b).
  change (Lst.get [a; b; w] 2) with (Return (A := string) w).
  cbn [bind]. reflexivity.
Qed.

Lemma convert_for_loop_range_witness :
  convert_for_loop "for (var i = 0; i < 10; i++) {"
  = Return ("for "
            ++ (Str.strip "i " ++ " in range(" ++ "0" ++ ", " ++ "10" ++ ", "
                ++ step_of "i++" ++ "):")
            ++ " {").
Proof.
  apply (convert_for_loop_range "for (var i = 0; i < 10; i++) {"
           "for " " {" "i " "" "0" " i <" "10" "" "i++");
    repeat split.
Defined.

(** ** find_matching_bracket: what the start position decides *)

Lemma char_at_from lines sl sc ch :
  char_at lines sl sc = Return ch ->
  exists line tl,
    Lst.get lines sl = Return line /\ Str.from line sc = String ch tl.
Proof.
  intros H. destruct (char_at_inv _ _ _ _ H) as [line [Hl Hs]].
  destruct (Str_get_norm _ _ _ Hs) as [Hg [Hfrom _]].
  exists line, (Str.drop (S (norm (String.length line) sc)) line).
  split; [exact Hl|]. rewrite Hfrom. apply drop_get. exact Hg.
Qed.

(** X2: when the start position holds a character that is neither the
    opening bracket nor its closing bracket, the deque is empty after the
    first character and the start position itself is returned. *)
Theorem find_matching_bracket_other_start lines sl sc o c ch :
  matching_chars (String o "") = Some (String c "") ->
  char_at lines sl sc = Return ch ->
  ch <> o -> ch <> c ->
  find_matching_bracket lines sl sc (String o "") = Return (sl, sc).
Proof.
  intros Hm Hat Ho Hc.
  destruct (char_at_from _ _ _ _ Hat) as [line [tl [Hl Hfrom]]].
  rewrite (find_matching_bracket_scan lines sl sc o c line Hm Hl), Hfrom.
  cbn [scan_line]. unfold scan_item. rewrite !eqb_single.
  apply Ascii.eqb_neq in Ho, Hc. rewrite Ho, Hc. cbn [bind].
  now rewrite Z.add_0_r.
Qed.

Lemma find_matching_bracket_other_start_witness :
  find_matching_bracket ["f(x)"] 0 0 "(" = Return (0, 0).
Proof.
  apply (find_matching_bracket_other_start ["f(x)"] 0 0 "(" ")" "f");
    [reflexivity | reflexivity | discriminate | discriminate].
Defined.

(** X3: when the start position holds the closing bracket, the empty deque
    is popped and the call raises [IndexError]. *)
Theorem find_matching_bracket_closing_start lines sl sc o c :
  matching_chars (String o "") = Some (String c "") ->
  char_at lines sl sc = Return c ->
  find_matching_bracket lines sl sc (String o "") = Raise IndexError.
Proof.
  intros Hm Hat.
  destruct (char_at_from _ _ _ _ Hat) as [line [tl [Hl Hfrom]]].
  rewrite (find_matching_bracket_scan lines sl sc o c line Hm Hl), Hfrom.
  cbn [scan_line]. unfold scan_item. rewrite !eqb_single.
  rewrite Ascii.eqb_refl. reflexivity.
Qed.

Lemma find_matching_bracket_closing_start_witness :
  find_matching_bracket ["f(x)"] 0 3 "(" = Raise IndexError.
Proof.
  apply (find_matching_bracket_closing_start ["f(x)"] 0 3 "(" ")");
    reflexivity.
Defined.

Lemma get_raises {A : Type} (l : list A) (i : Z) :
  i < - Lst.len l \/ Lst.len l <= i -> Lst.get l i = Raise IndexError.
Proof.
  intros Hi. unfold Lst.get, Lst.pos.
  set (j := if i <? 0 then i + Lst.len l else i).
  assert (Hj : j < 0 \/ Lst.len l <= j).
  { unfold j, Lst.len in *. destruct (Z.ltb_spec i 0); lia. }
  destruct (Z.leb_spec 0 j); destruct (Z.ltb_spec j (Lst.len l));
    simpl; try reflexivity; lia.
Qed.

(** X4: a start line at or after the end of the list gives [(-1, -1)],
    no line being read; a start line before [-len(lines)] makes the first
    read raise [IndexError]. *)
Theorem find_matching_bracket_start_line_bounds lines sl sc o c :
  matching_chars (String o "") = Some (String c "") ->
  (Lst.len lines <= sl ->
   find_matching_bracket lines sl sc (String o "") = Return (-1, -1))
  /\ (sl < - Lst.len lines ->
      find_matching_bracket lines sl sc (String o "") = Raise IndexError).
Proof.
  intros Hm. unfold find_matching_bracket. rewrite Hm. split; intros H.
  - replace (Z.to_nat (Lst.len lines - sl)) with O by lia. reflexivity.
  - destruct (Z.to_nat (Lst.len lines - sl)) as [|n] eqn:En.
    + unfold Lst.len in *. lia.
    + cbn [scan_lines]. rewrite get_raises by lia. reflexivity.
Qed.

Lemma find_matching_bracket_start_line_bounds_witness :
  find_matching_bracket ["f(x)"] 1 0 "(" = Return (-1, -1)
  /\ find_matching_bracket ["f(x)"] (-2) 0 "(" = Raise IndexError.
Proof.
  split.
  - apply (find_matching_bracket_start_line_bounds ["f(x)"] 1 0 "(" ")");
      [reflexivity | unfold Lst.len; simpl; lia].
  - apply (find_matching_bracket_start_line_bounds ["f(x)"] (-2) 0 "(" ")");
      [reflexivity | unfold Lst.len; simpl; lia].
Defined.

(** ** find_matching_bracket: the match is the nearest one *)

(** From [k] brackets open, every non-empty prefix of [s] leaves a bracket
    open. *)
Lemma take_take m : forall n s,
  (m <= n)%nat -> Str.take m (Str.take n s) = Str.take m s.
Proof.
  induction m as [|m IH]; intros [|n] [|a s] H; simpl; try reflexivity; try lia.
  rewrite IH by lia. reflexivity.
Qed.

Lemma take_append_more a : forall m b,
  (String.length a <= m)%nat ->
  Str.take m (a ++ b) = a ++ Str.take (m - String.length a) b.
Proof.
  induction a as [|x a IH]; intros m b H.
  - simpl. now rewrite Nat.sub_0_r.
  - destruct m as [|m]; [simpl in H; lia|]. simpl.
    rewrite IH by (simpl in H; lia). reflexivity.
Qed.

Lemma take_S_get j : forall s ch,
  String.get j s = Some ch -> Str.take (S j) s = Str.take j s ++ String ch "".
Proof.
  induction j as [|j IH]; intros [|a s] ch H; simpl in H; try discriminate.
  - inversion H; subst. destruct s; reflexivity.
  - change (Str.take (S (S j)) (String a s)) with (String a (Str.take (S j) s)).
    rewrite (IH s ch H). reflexivity.
Qed.

Lemma open_prefixes_cons o c k a s :
  ((if Ascii.eqb a c then 1 else 0) < k + (if Ascii.eqb a o then 1 else 0))%nat ->
  open_prefixes o c
    (k + (if Ascii.eqb a o then 1 else 0) - (if Ascii.eqb a c then 1 else 0)) s ->
  open_prefixes o c k (String a s).
Proof.
  intros Ha Hs m Hm. destruct m as [|m]; [lia|].
  change (Str.take (S m) (String a s)) with (String a (Str.take m s)).
  rewrite !occ_cons. destruct m as [|m].
  - destruct s; simpl; destruct (Ascii.eqb a c), (Ascii.eqb a o); simpl in *; lia.
  - specialize (Hs (S m)). simpl in Hm.
    destruct (Ascii.eqb a c), (Ascii.eqb a o); simpl in *; lia.
Qed.

Lemma open_prefixes_app o c k a b :
  open_prefixes o c k a ->
  (Str.occ c a <= k + Str.occ o a)%nat ->
  open_prefixes o c (k + Str.occ o a - Str.occ c a) b ->
  open_prefixes o c k (a ++ b).
Proof.
  intros Ha Hle Hb m Hm. rewrite length_append in Hm.
  destruct (Nat.le_gt_cases m (String.length a)) as [Hin|Hout].
  - rewrite take_take_append by exact Hin. apply Ha. lia.
  - rewrite take_append_more by lia. rewrite !occ_append.
    specialize (Hb (m - String.length a)%nat). lia.
Qed.

Section Nearest.

Variables o c : ascii.
Hypothesis o_neq_c : o <> c.

(** Until the scan of a line stops, a bracket stays open. *)
Lemma scan_line_open line : forall d i0,
  d <> [] \/ (exists tl, line = String o tl) ->
  match scan_line (String o "") (String c "") d i0 line with
  | Return (_, Some i) =>
      exists j, i = i0 + Z.of_nat j
                /\ open_prefixes o c (List.length d) (Str.take j line)
  | Return (_, None) => open_prefixes o c (List.length d) line
  | Raise _ => True
  end.
Proof.
  induction line as [|a tl IH]; intros d i0 Hpre.
  - simpl. intros m Hm. simpl in Hm. lia.
  - cbn [scan_line]. unfold scan_item. rewrite !eqb_single.
    assert (Hstep : forall d',
      d' <> [] ->
      (List.length d' + (if Ascii.eqb a c then 1 else 0)
       = List.length d + (if Ascii.eqb a o then 1 else 0))%nat ->
      match scan_line (String o "") (String c "") d' (i0 + 1) tl with
      | Return (_, Some i) =>
          exists j, i = i0 + Z.of_nat j
                    /\ open_prefixes o c (List.length d)
                         (Str.take j (String a tl))
      | Return (_, None) => open_prefixes o c (List.length d) (String a tl)
      | Raise _ => True
      end).
    { intros d' Hne Hlen. specialize (IH d' (i0 + 1) (or_introl Hne)).
      assert (Hpos : (0 < List.length d')%nat)
        by (destruct d'; simpl; [congruence | lia]).
      destruct (scan_line (String o "") (String c "") d' (i0 + 1) tl)
        as [[d'' [i|]]|e]; [| |exact I].
      - destruct IH as [j [Hi Hop]]. exists (S j). split; [lia|].
        change (Str.take (S j) (String a tl)) with (String a (Str.take j tl)).
        apply open_prefixes_cons.
        + destruct (Ascii.eqb a c), (Ascii.eqb a o); lia.
        + replace (List.length d + (if Ascii.eqb a o then 1 else 0)
                   - (if Ascii.eqb a c then 1 else 0))%nat
            with (List.length d') by lia.
          exact Hop.
      - apply open_prefixes_cons.
        + destruct (Ascii.eqb a c), (Ascii.eqb a o); lia.
        + replace (List.length d + (if Ascii.eqb a o then 1 else 0)
                   - (if Ascii.eqb a c then 1 else 0))%nat
            with (List.length d') by lia.
          exact IH. }
    destruct (Ascii.eqb a c) eqn:Eac.
    + apply Ascii.eqb_eq in Eac. subst a.
      assert (Eco : Ascii.eqb c o = false)
        by (apply Ascii.eqb_neq; congruence).
      rewrite Eco in Hstep.
      destruct d as [|x d1].
      { destruct Hpre as [H|[tl' H]]; [congruence|].
        inversion H; congruence. }
      cbn [popleft bind]. destruct d1 as [|y d2].
      * exists O. split; [lia|]. intros m Hm. simpl in Hm. lia.
      * apply (Hstep (y :: d2)); [discriminate | simpl; lia].
    + destruct (Ascii.eqb a o) eqn:Eao.
      * cbn [bind]. destruct (d ++ [String o ""])%list as [|y d2] eqn:Ed.
        { destruct d; discriminate Ed. }
        apply (Hstep (y :: d2)); [discriminate|].
        rewrite <- Ed, length_app. simpl. lia.
      * cbn [bind]. destruct d as [|x d1].
        { destruct Hpre as [H|[tl' H]]; [congruence|].
          inversion H; subst a. rewrite Ascii.eqb_refl in Eao.
          discriminate. }
        apply (Hstep (x :: d1)); [discriminate | lia].
Qed.

(** The same for the lines after the start line. *)
Lemma scan_rest_open rest : forall d li k j,
  d <> [] ->
  scan_rest (String o "") (String c "") li d rest
  = Return (li + Z.of_nat k, Z.of_nat j) ->
  open_prefixes o c (List.length d)
    (Str.cat (firstn k rest) ++ Str.take j (nth k rest "")).
Proof.
  induction rest as [|line rest IH]; intros d li k j Hd H.
  - simpl in H. inversion H. lia.
  - cbn [scan_rest] in H.
    pose proof (scan_line_open line d 0 (or_introl Hd)) as Hopen.
    pose proof (scan_line_spec o c o_neq_c line d 0 (or_introl Hd)) as Hspec.
    destruct (scan_line (String o "") (String c "") d 0 line)
      as [[d' [i|]]|e]; cbn [bind] in H; [| |discriminate].
    + destruct Hopen as [j0 [Hi Hop]]. inversion H.
      assert (k = O) by lia. assert (j = j0) by lia. subst k j.
      cbn [firstn Str.cat nth]. exact Hop.
    + inversion Hspec as [j1 Hg1 Hc1 Heq1|d'' Hne Hc Heq]. subst d''.
      pose proof (scan_rest_spec o c o_neq_c rest d' (li + 1) Hne) as Hrest.
      rewrite H in Hrest.
      inversion Hrest as [k' j' line' Hk Hj Hc' Heq'|d3 Hne3 Hc3 Heq'];
        [|lia].
      assert (k = S k') by lia. subst k.
      replace (li + Z.of_nat (S k')) with (li + 1 + Z.of_nat k') in H by lia.
      apply IH in H; [|exact Hne].
      cbn [firstn Str.cat nth]. rewrite append_assoc.
      apply open_prefixes_app; [exact Hopen | lia|].
      replace (List.length d + Str.occ o line - Str.occ c line)%nat
        with (List.length d') by lia.
      exact H.
Qed.

End Nearest.

Lemma length_take n : forall s,
  (n <= String.length s)%nat -> String.length (Str.take n s) = n.
Proof.
  induction n as [|n IH]; intros [|a s]; simpl; intros H;
    try reflexivity; try lia.
  rewrite IH by lia. reflexivity.
Qed.

Lemma open_prefixes_span o c W span :
  span = W ++ String c "" ->
  open_prefixes o c 0 W ->
  forall m, (0 < m < String.length span)%nat ->
            (Str.occ c (Str.take m span) < Str.occ o (Str.take m span))%nat.
Proof.
  intros -> Hop m Hm. rewrite length_append in Hm. simpl in Hm.
  rewrite take_take_append by lia. apply (Hop m). lia.
Qed.

(** X1: in well-balanced bracket text, from a position that holds an
    opening bracket, the position returned is the nearest one that closes
    it: every text from the start position that stops before the returned
    position has more opening than closing brackets of that kind. *)
Theorem find_matching_bracket_nearest lines sl sc o c :
  matching_chars (String o "") = Some (String c "") ->
  balanced lines = true ->
  char_at lines sl sc = Return o ->
  exists ml mc,
    find_matching_bracket lines sl sc (String o "") = Return (ml, mc)
    /\ forall m, (0 < m < String.length (span lines sl sc ml mc))%nat ->
                 (Str.occ c (Str.take m (span lines sl sc ml mc))
                  < Str.occ o (Str.take m (span lines sl sc ml mc)))%nat.
Proof.
  intros Hm Hbal Hat. pose proof (matching_chars_neq o c Hm) as Hoc.
  destruct (char_at_inv _ _ _ _ Hat) as [line [Hl Hs]].
  pose proof (get_norm _ _ _ Hl) as [Hn Hsl].
  pose proof (Str_get_norm _ _ _ Hs) as [Hg [Hfrom Hsc]].
  set (a := norm (List.length lines) sl) in *.
  set (p := norm (String.length line) sc) in *.
  pose proof (nth_error_nth _ _ "" Hn) as Hnth.
  destruct (nth_error_split _ _ Hn) as [pre [rest [Hlines Hpre]]].
  assert (Hrest : skipn (S a) lines = rest).
  { rewrite Hlines, <- Hpre.
    change (pre ++ line :: rest)%list with (pre ++ [line] ++ rest)%list.
    rewrite app_assoc.
    replace (S (List.length pre)) with (List.length (pre ++ [line])%list)
      by (rewrite length_app; simpl; lia).
    rewrite skipn_app, Nat.sub_diag, skipn_all. reflexivity. }
  assert (Hlen : List.length lines = (a + 1 + List.length rest)%nat).
  { rewrite Hlines, length_app. simpl. lia. }
  rewrite (find_matching_bracket_scan lines sl sc o c line Hm Hl).
  pose proof (drop_get _ _ _ Hg) as Hfl. rewrite <- Hfrom in Hfl.
  assert (Hstart : @nil string <> [] \/ exists tl, Str.from line sc = String o tl)
    by (right; eexists; exact Hfl).
  pose proof (scan_line_open o c Hoc (Str.from line sc) [] 0 Hstart) as Hopen.
  pose proof (scan_line_spec o c Hoc (Str.from line sc) [] 0 Hstart) as Hspec.
  inversion Hspec as [j Hj Hc Heq | d' Hne Hc Heq];
    rewrite <- Heq in Hopen; cbn [bind].
  - (* the match is on the start line *)
    destruct Hopen as [j' [Hjj Hop]]. assert (j' = j) by lia. subst j'.
    pose proof (get_lt _ _ _ Hj) as Hlt.
    pose proof (take_S_get _ _ _ Hj) as Htake.
    rewrite Hfrom, length_drop in Hlt.
    destruct (norm_shift (String.length line) sc j) as [Hq Hrange];
      [exact Hsc | fold p; lia |]. fold p in Hq.
    exists sl, (sc + Z.of_nat j).
    split; [reflexivity|].
    apply (open_prefixes_span o c (Str.take j (Str.from line sc))); [|exact Hop].
    unfold span. fold a. rewrite Nat.eqb_refl, Hnth, Hq. fold p.
    replace (S (p + j) - p)%nat with (S j) by lia.
    rewrite <- Hfrom. exact Htake.
  - (* the match is on a later line *)
    pose proof (scan_rest_spec o c Hoc rest d' (sl + 1) Hne) as Hrest_spec.
    inversion Hrest_spec as [k j line' Hk Hj Hc' Heq' | d'' Hne' Hc' Heq'].
    + assert (Hklt : (k < List.length rest)%nat)
        by (apply nth_error_Some; congruence).
      destruct (norm_shift (List.length lines) sl (S k)) as [Hb Hrange];
        [exact Hsl | fold a; lia |]. fold a in Hb.
      replace (sl + Z.of_nat (S k)) with (sl + 1 + Z.of_nat k) in Hb, Hrange
        by lia.
      assert (Hline' : nth_error lines (a + S k) = Some line').
      { rewrite Hlines, <- Hpre, nth_error_app2 by lia.
        replace (List.length pre + S k - List.length pre)%nat with (S k) by lia.
        exact Hk. }
      symmetry in Heq'.
      pose proof (scan_rest_open o c Hoc rest d' (sl + 1) k j Hne Heq') as Hop.
      rewrite (nth_error_nth _ _ "" Hk) in Hop.
      exists (sl + 1 + Z.of_nat k), (Z.of_nat j).
      split.
      * unfold visited. fold a. rewrite Hrest.
        apply scan_rest_app; [exact Heq' | lia].
      * apply (open_prefixes_span o c
                 (Str.from line sc
                  ++ Str.cat (firstn k rest) ++ Str.take j line')).
        -- unfold span. fold a. rewrite Hb.
           destruct (Nat.eqb_spec (a + S k) a) as [E|_]; [lia|].
           rewrite Hnth, Hrest, (nth_error_nth _ _ "" Hline'), norm_nat.
           fold p. rewrite <- Hfrom.
           replace (a + S k - S a)%nat with k by lia.
           rewrite (take_S_get _ _ _ Hj), !append_assoc. reflexivity.
        -- cbn [List.length Nat.add] in Hc, Hopen.
           apply open_prefixes_app; [exact Hopen | lia|].
           replace (0 + Str.occ o (Str.from line sc)
                    - Str.occ c (Str.from line sc))%nat
             with (List.length d') by lia.
           exact Hop.
    + exfalso.
      pose proof (balanced_scanned o c pre line rest p
                    (closer_of_matching o c Hm)) as Hle.
      rewrite <- Hlines in Hle. specialize (Hle Hbal).
      rewrite <- Hfrom, !occ_append in Hle.
      cbn [List.length Nat.add] in Hc.
      destruct d''; [congruence|]. simpl in Hc'. lia.
Qed.

Lemma find_matching_bracket_nearest_witness :
  matching_chars "(" = Some ")"
  /\ balanced nested_call = true
  /\ char_at nested_call 0 12 = Return "("%char
  /\ exists ml mc,
    find_matching_bracket nested_call 0 12 (String "(" "") = Return (ml, mc)
    /\ forall m, (0 < m < String.length (span nested_call 0 12 ml mc))%nat ->
                 (Str.occ ")" (Str.take m (span nested_call 0 12 ml mc))
                  < Str.occ "(" (Str.take m (span nested_call 0 12 ml mc)))%nat.
Proof.
  repeat split.
  apply (find_matching_bracket_nearest nested_call 0 12 "(" ")");
    reflexivity.
Defined.

(** ** check_map_functions before and at the first callback *)

Lemma for_range_app {St : Type} (body : St -> Z -> result St) n m : forall i st,
  for_range body (n + m) i st
  = (st' <- for_range body n i st ;; for_range body m (i + Z.of_nat n) st').
Proof.
  induction n as [|n IH]; intros i st.
  - simpl. now rewrite Z.add_0_r.
  - cbn [Nat.add for_range]. destruct (body st i) as [st1|e]; [|reflexivity].
    cbn [bind]. rewrite IH.
    replace (i + Z.of_nat (S n)) with (i + 1 + Z.of_nat n) by lia.
    reflexivity.
Qed.

(** The rounds over lines without a marker copy them and leave
    [input_lines] alone, whatever follows them. *)
Lemma hoist_loop_copies rnd mid : forall pre post out k,
  forallb (fun l => negb (has_map_function l)) mid = true ->
  for_range (hoist_line rnd) (List.length mid) (Z.of_nat (List.length pre))
    {| input_lines := (pre ++ mid ++ post)%list; output_lines := out;
       calls := k |}
  = Return {| input_lines := (pre ++ mid ++ post)%list;
              output_lines := (out ++ mid)%list; calls := k |}.
Proof.
  induction mid as [|l mid IH]; intros pre post out k H.
  - simpl. now rewrite app_nil_r.
  - simpl in H. apply andb_true_iff in H. destruct H as [Hl Hmid].
    cbn [List.length for_range]. unfold hoist_line at 1. cbn [input_lines].
    rewrite get_nat, nth_error_app2, Nat.sub_diag by lia.
    cbn [app nth_error bind].
    apply negb_true_iff in Hl. rewrite Hl. cbn [bind output_lines calls].
    specialize (IH (pre ++ [l])%list post (out ++ [l])%list k Hmid).
    rewrite length_app in IH. cbn [List.length] in IH.
    rewrite <- !app_assoc in IH. cbn [app] in IH.
    replace (Z.of_nat (List.length pre) + 1)
      with (Z.of_nat (List.length pre + 1)) by lia.
    exact IH.
Qed.

Lemma move_body_appends body : forall index sub inp out inp' out',
  move_body body index sub inp out = Return (inp', out') ->
  out' = (out ++ body)%list.
Proof.
  induction body as [|b body IH]; intros index sub inp out inp' out' H;
    simpl in H.
  - inversion H; subst. now rewrite app_nil_r.
  - bind_inv H. apply IH in H. rewrite H, <- app_assoc. reflexivity.
Qed.

Lemma hoist_line_appends rnd st index st' :
  hoist_line rnd st index = Return st' ->
  exists added, output_lines st' = (output_lines st ++ added)%list.
Proof.
  unfold hoist_line; intros H.
  bind_inv H. destruct (has_map_function a).
  - bind_inv H. bind_inv H. destruct a1 as [ml mc].
    bind_inv H. bind_inv H. destruct a2 as [inp out].
    apply move_body_appends in E3. subst out.
    bind_inv H. bind_inv H.
    destruct (String.eqb _ ")" || String.eqb _ ");");
      bind_inv H; inversion H; subst; cbn [output_lines];
      rewrite <- !app_assoc; eexists; reflexivity.
  - inversion H; subst. cbn [output_lines]. eexists; reflexivity.
Qed.

Lemma hoist_loop_appends rnd n : forall i st st',
  for_range (hoist_line rnd) n i st = Return st' ->
  exists added, output_lines st' = (output_lines st ++ added)%list.
Proof.
  induction n as [|n IH]; intros i st st' H.
  - inversion H; subst. exists []. now rewrite app_nil_r.
  - cbn [for_range] in H. bind_inv H.
    apply hoist_line_appends in E. destruct E as [a1 E1].
    apply IH in H. destruct H as [a2 E2].
    exists (a1 ++ a2)%list. rewrite E2, E1, app_assoc. reflexivity.
Qed.

(** X11: the lines before the first callback are the first lines of the
    hoisted output, in the same order and unchanged. *)
Theorem check_map_functions_keeps_head rnd pre rest out inp :
  forallb (fun l => negb (has_map_function l)) pre = true ->
  check_map_functions rnd (pre ++ rest) = Return (out, inp) ->
  exists more, out = (pre ++ more)%list.
Proof.
  intros Hpre H. unfold check_map_functions in H.
  rewrite length_app, for_range_app in H.
  pose proof (hoist_loop_copies rnd pre [] rest [] O Hpre) as Hc.
  cbn [List.length app] in Hc. change (Z.of_nat 0) with 0 in Hc.
  rewrite Hc in H. cbn [bind] in H. bind_inv H.
  inversion H; subst out inp; clear H.
  apply hoist_loop_appends in E. cbn [output_lines] in E. exact E.
Qed.

Lemma check_map_functions_keeps_head_witness :
  exists out inp,
    check_map_functions abc (("var x = 1;" ++ newline) :: three_line_call)
    = Return (out, inp)
    /\ exists more, out = ("var x = 1;" ++ newline) :: more.
Proof.
  eexists. eexists. split; [vm_compute; reflexivity|].
  apply (check_map_functions_keeps_head abc ["var x = 1;" ++ newline]
           three_line_call _ ["var x = 1;" ++ newline;
                              "var y = x.map(function(f) {" ++ newline;
                              ""; ""]);
    vm_compute; reflexivity.
Defined.

(** X12: when the first line that holds a callback marker has no opening
    brace, [check_map_functions] raises [ValueError], whatever follows. *)
Theorem check_map_functions_no_brace rnd pre line post :
  forallb (fun l => negb (has_map_function l)) pre = true ->
  has_map_function line = true ->
  Str.occ "{" line = O ->
  check_map_functions rnd (pre ++ line :: post) = Raise ValueError.
Proof.
  intros Hpre Hline Hbrace. unfold check_map_functions.
  rewrite length_app, for_range_app.
  pose proof (hoist_loop_copies rnd pre [] (line :: post) [] O Hpre) as Hc.
  cbn [List.length app] in Hc. change (Z.of_nat 0) with 0 in Hc.
  rewrite Hc. cbn [bind List.length for_range].
  unfold hoist_line at 1. cbn [input_lines].
  rewrite Z.add_0_l, get_nat, nth_error_app2, Nat.sub_diag by lia.
  cbn [nth_error bind]. rewrite Hline.
  change "{" with (String "{" ""). rewrite (index_none _ _ Hbrace).
  reflexivity.
Qed.

Lemma check_map_functions_no_brace_witness :
  check_map_functions abc
    ["var x = 1;"; "var y = x.map(function(f)"; "{ return f; });"]
  = Raise ValueError.
Proof.
  apply (check_map_functions_no_brace abc ["var x = 1;"]
           "var y = x.map(function(f)" ["{ return f; });"]);
    reflexivity.
Defined.

(** ** js_to_python: the import lines and the last character *)

Lemma rstrip_split a : exists w, a = Str.rstrip a ++ w.
Proof.
  induction a as [|c a [w IH]]; [exists ""; reflexivity|].
  cbn [Str.rstrip].
  destruct (Str.is_empty (Str.rstrip a) && Str.is_space c).
  - exists (String c a). reflexivity.
  - exists w. simpl. now rewrite <- IH.
Qed.

Lemma rstrip_idem a : Str.rstrip (Str.rstrip a) = Str.rstrip a.
Proof.
  induction a as [|c a IH]; [reflexivity|].
  cbn [Str.rstrip].
  destruct (Str.is_empty (Str.rstrip a) && Str.is_space c) eqn:E;
    [reflexivity|].
  cbn [Str.rstrip]. rewrite IH, E. reflexivity.
Qed.

Lemma rstrip_nonempty a c b :
  Str.is_space c = false -> Str.is_empty (Str.rstrip (a ++ String c b)) = false.
Proof.
  intros Hc. induction a as [|x a IH]; simpl.
  - rewrite Hc, andb_false_r. reflexivity.
  - simpl in IH. rewrite IH. reflexivity.
Qed.

(** Trailing blanks are stripped from the end only: a text that has none,
    followed by anything, keeps that text in front. *)
Lemma rstrip_prefix a :
  Str.is_empty a = false -> Str.rstrip a = a ->
  forall t, exists t', Str.rstrip (a ++ t) = a ++ t'.
Proof.
  induction a as [|c a IH]; intros He Hr t; [discriminate|].
  cbn [Str.rstrip] in Hr. simpl append. cbn [Str.rstrip].
  destruct (Str.is_empty (Str.rstrip a) && Str.is_space c) eqn:E;
    [discriminate|].
  inversion Hr as [Hr']. rewrite Hr'. rewrite Hr' in E.
  destruct a as [|c' a'].
  - simpl in E. simpl append. rewrite E, andb_false_r.
    exists (Str.rstrip t). reflexivity.
  - destruct (IH eq_refl Hr' t) as [t' Ht']. rewrite Ht'.
    simpl. exists t'. reflexivity.
Qed.

Lemma endswith_append a b : Str.endswith (a ++ b) b = true.
Proof.
  unfold Str.endswith. rewrite length_append.
  replace (String.length a + String.length b - String.length b)%nat
    with (String.length a) by lia.
  rewrite drop_append, String.eqb_refl.
  apply andb_true_iff. split; [apply Nat.leb_le; lia | reflexivity].
Qed.

(** A round adds one line, ended by a newline, to the output, after
    stripping the output when the line continues a chain. *)
Lemma transpile_line_output st index st' :
  transpile_line st index = Return st' ->
  exists line,
    output st' = output st ++ line ++ newline
    \/ output st' = Str.rstrip (output st) ++ " " ++ "\" ++ newline
                    ++ line ++ newline.
Proof.
  unfold transpile_line. intros H.
  bind_inv H. bind_inv H. bind_inv H. destruct a1 as [lines line].
  bind_inv H. bind_inv H.
  destruct (Str.startswith (Str.lstrip a2) ".").
  - bind_inv H. inversion H; subst. cbn [output].
    exists a3. right. reflexivity.
  - inversion H; subst. cbn [output]. exists a2. left. reflexivity.
Qed.

Lemma transpile_loop_output P n : forall i st st',
  Str.is_empty P = false -> Str.rstrip P = P ->
  (exists t, output st = P ++ t) ->
  Str.endswith (output st) newline = true ->
  for_range transpile_line n i st = Return st' ->
  (exists t, output st' = P ++ t)
  /\ Str.endswith (output st') newline = true.
Proof.
  induction n as [|n IH]; intros i st st' He Hr [t Ht] Hend H.
  - inversion H; subst. split; [exists t; exact Ht | exact Hend].
  - cbn [for_range] in H. bind_inv H.
    destruct (transpile_line_output _ _ _ E) as [line [Ho|Ho]].
    + apply (IH _ _ _ He Hr) in H; [exact H | |].
      * exists (t ++ line ++ newline). rewrite Ho, Ht, append_assoc.
        reflexivity.
      * rewrite Ho, <- append_assoc. apply endswith_append.
    + apply (IH _ _ _ He Hr) in H; [exact H | |].
      * rewrite Ht in Ho. destruct (rstrip_prefix P He Hr t) as [t' Ht'].
        rewrite Ht' in Ho. rewrite Ho, append_assoc. eexists. reflexivity.
      * rewrite Ho.
        replace (Str.rstrip (output st) ++ " " ++ "\" ++ newline ++ line
                 ++ newline)
          with ((Str.rstrip (output st) ++ " " ++ "\" ++ newline ++ line)
                ++ newline) by (now rewrite !append_assoc).
        apply endswith_append.
Qed.

(** X13: the text written for a file that is not a Python script starts
    with the import lines (the GitHub URL comment when a repository is
    given, [import ee], the plugin import when asked for and [import math]
    when a line uses [Math.]), up to their trailing blanks, and ends with a
    newline. *)
Theorem js_to_python_imports rnd lines in_file use_qgis github_repo out :
  is_python lines = false ->
  js_to_python rnd lines in_file use_qgis github_repo = Return out ->
  (exists rest,
      out = Str.rstrip (import_header lines in_file use_qgis github_repo)
            ++ rest)
  /\ Str.endswith out newline = true.
Proof.
  intros Hpy H. unfold js_to_python in H. rewrite Hpy in H.
  bind_inv H. destruct a as [hoisted inp]. bind_inv H.
  inversion H; subst out; clear H.
  set (header := import_header lines in_file use_qgis github_repo).
  assert (Hne : Str.is_empty (Str.rstrip header) = false).
  { unfold header, import_header.
    replace (match github_repo with
             | Some repo =>
                 "# GitHub URL: " ++ repo ++ in_file ++ newline ++ newline
             | None => ""
             end ++ "import ee " ++ newline
             ++ (if use_qgis then "from ee_plugin import Map " ++ newline
                 else "")
             ++ (if use_math lines then "import math" ++ newline else ""))
      with ((match github_repo with
             | Some repo =>
                 "# GitHub URL: " ++ repo ++ in_file ++ newline ++ newline
             | None => ""
             end ++ "import e")
            ++ String "e" (" " ++ newline
             ++ (if use_qgis then "from ee_plugin import Map " ++ newline
                 else "")
             ++ (if use_math lines then "import math" ++ newline else "")))
      by (now rewrite append_assoc).
    apply rstrip_nonempty. reflexivity. }
  destruct (rstrip_split header) as [w Hw].
  eapply (transpile_loop_output (Str.rstrip header)); [exact Hne | apply rstrip_idem | | | exact E0].
  - cbn [output]. exists (w ++ newline).
    transitivity (header ++ newline); [reflexivity|].
    rewrite Hw at 1. apply append_assoc.
  - cbn [output]. change (Str.endswith (header ++ newline) newline = true).
    apply endswith_append.
Qed.

Lemma js_to_python_imports_witness :
  exists out,
    js_to_python abc
      ["var x = Math.abs(y)" ++ newline; "    .add(1);" ++ newline]
      "in.js" true None
    = Return out
    /\ (exists rest,
          out = Str.rstrip
                  (import_header
                     ["var x = Math.abs(y)" ++ newline;
                      "    .add(1);" ++ newline]
                     "in.js" true None)
                ++ rest)
    /\ Str.endswith out newline = true.
Proof.
  eexists. split; [vm_compute; reflexivity|].
  apply (js_to_python_imports abc
           ["var x = Math.abs(y)" ++ newline; "    .add(1);" ++ newline]
           "in.js" true None);
    vm_compute; reflexivity.
Defined.

(** ** remove_qgis_import *)

Lemma slice_from_nat {A : Type} (l : list A) (n : nat) :
  Lst.slice l (Z.of_nat n) (Lst.len l) = skipn n l.
Proof.
  unfold Lst.slice, Lst.len. rewrite !clamp_nat, Nat.min_id.
  destruct (Nat.le_gt_cases n (List.length l)).
  - rewrite Nat.min_l by lia. apply firstn_all2. rewrite length_skipn. lia.
  - rewrite Nat.min_r by lia. rewrite Nat.sub_diag.
    rewrite !skipn_all2 by lia. reflexivity.
Qed.

(** Over blank lines the loop goes on; it stops at the first line that is
    not blank, or raises at the end of the list. *)
Lemma skip_blank_run blanks : forall pre post start fuel i,
  forallb is_blank blanks = true ->
  (List.length blanks < fuel)%nat ->
  start + i = Z.of_nat (List.length pre) ->
  skip_blank (pre ++ blanks ++ post) start fuel i
  = match post with
    | [] => Raise IndexError
    | line :: _ =>
        if is_blank line
        then skip_blank (pre ++ blanks ++ post) start
               (fuel - List.length blanks)
               (i + Z.of_nat (List.length blanks))
        else Return post
    end.
Proof.
  induction blanks as [|b blanks IH]; intros pre post start fuel i Hb Hf Hi.
  - cbn [app List.length]. rewrite Z.add_0_r, Nat.sub_0_r.
    destruct fuel as [|fuel]; [simpl in Hf; lia|].
    destruct post as [|line post].
    + cbn [skip_blank]. rewrite Hi, get_nat.
      rewrite app_nil_r, (proj2 (nth_error_None _ _)) by lia. reflexivity.
    + destruct (is_blank line) eqn:Hl; [reflexivity|].
      cbn [skip_blank]. rewrite Hi, get_nat.
      rewrite nth_error_app2, Nat.sub_diag by lia. cbn [nth_error bind].
      unfold is_blank in Hl. rewrite Hl. cbn [negb].
      rewrite slice_from_nat, skipn_app, Nat.sub_diag, skipn_all.
      reflexivity.
  - simpl in Hb. apply andb_true_iff in Hb. destruct Hb as [Hb Hbs].
    destruct fuel as [|fuel]; [simpl in Hf; lia|].
    cbn [skip_blank]. rewrite Hi, get_nat.
    rewrite nth_error_app2, Nat.sub_diag by lia. cbn [app nth_error bind].
    unfold is_blank in Hb. rewrite Hb. cbn [negb].
    specialize (IH (pre ++ [b])%list post start fuel (i + 1) Hbs).
    rewrite length_app in IH. cbn [List.length] in IH.
    rewrite <- !app_assoc in IH. cbn [app] in IH.
    rewrite IH by (simpl in Hf; lia).
    destruct post as [|line post]; [reflexivity|].
    destruct (is_blank line); [|reflexivity].
    cbn [List.length]. f_equal. lia.
Qed.

Lemma remove_qgis_loop_skip lines pre : forall index todo,
  forallb (fun l => negb (has_qgis_import l)) pre = true ->
  remove_qgis_loop lines (pre ++ todo) index
  = remove_qgis_loop lines todo (index + Z.of_nat (List.length pre)).
Proof.
  induction pre as [|l pre IH]; intros index todo H.
  - simpl. now rewrite Z.add_0_r.
  - simpl in H. apply andb_true_iff in H. destruct H as [Hl Hpre].
    cbn [app remove_qgis_loop]. apply negb_true_iff in Hl.
    unfold has_qgis_import in Hl. rewrite Hl.
    rewrite IH by exact Hpre. f_equal. cbn [List.length]. lia.
Qed.

(** X14: on a script without the plugin import, [remove_qgis_import]
    returns [None]. *)
Theorem remove_qgis_import_none lines :
  forallb (fun l => negb (has_qgis_import l)) lines = true ->
  remove_qgis_import lines = Return None.
Proof.
  intros H. unfold remove_qgis_import.
  rewrite <- (app_nil_r lines) at 2.
  rewrite remove_qgis_loop_skip by exact H. reflexivity.
Qed.

Lemma remove_qgis_import_none_witness :
  remove_qgis_import ["import ee" ++ newline; "x = 1" ++ newline]
  = Return None.
Proof.
  apply (remove_qgis_import_none
           ["import ee" ++ newline; "x = 1" ++ newline]).
  reflexivity.
Defined.

(** X15: the result is the script from the first line that is not blank
    after the first plugin import: the lines before the import, the import
    and the blank lines that follow it are removed, and the later lines are
    kept, later imports included. *)
Theorem remove_qgis_import_content pre import blanks line post :
  forallb (fun l => negb (has_qgis_import l)) pre = true ->
  has_qgis_import import = true ->
  forallb is_blank blanks = true ->
  is_blank line = false ->
  remove_qgis_import (pre ++ import :: blanks ++ line :: post)
  = Return (Some (line :: post)).
Proof.
  intros Hpre Himp Hbl Hline. unfold remove_qgis_import.
  rewrite remove_qgis_loop_skip by exact Hpre.
  cbn [remove_qgis_loop]. unfold has_qgis_import in Himp. rewrite Himp.
  pose proof (skip_blank_run blanks (pre ++ [import])%list (line :: post)
                (0 + Z.of_nat (List.length pre))
                (List.length (pre ++ import :: blanks ++ line :: post)) 1 Hbl)
    as Hrun.
  rewrite <- !app_assoc in Hrun. cbn [app] in Hrun.
  rewrite Hrun, Hline; [reflexivity | |].
  - rewrite !length_app. cbn [List.length]. rewrite length_app.
    cbn [List.length]. lia.
  - rewrite length_app. cbn [List.length]. lia.
Qed.

Lemma remove_qgis_import_content_witness :
  remove_qgis_import
    ["import ee" ++ newline;
     "from ee_plugin import Map" ++ newline;
     newline;
     "  " ++ newline;
     "x = 1" ++ newline;
     "from ee_plugin import Map" ++ newline]
  = Return (Some ["x = 1" ++ newline;
                  "from ee_plugin import Map" ++ newline]).
Proof.
  apply (remove_qgis_import_content
           ["import ee" ++ newline]
           ("from ee_plugin import Map" ++ newline)
           [newline; "  " ++ newline]
           ("x = 1" ++ newline)
           ["from ee_plugin import Map" ++ newline]);
    reflexivity.
Defined.

(** X16: when only blank lines, or none, follow the first plugin import,
    the search for the first line of content runs past the end of the list
    and [remove_qgis_import] raises [IndexError]. *)
Theorem remove_qgis_import_no_content pre import blanks :
  forallb (fun l => negb (has_qgis_import l)) pre = true ->
  has_qgis_import import = true ->
  forallb is_blank blanks = true ->
  remove_qgis_import (pre ++ import :: blanks) = Raise IndexError.
Proof.
  intros Hpre Himp Hbl. unfold remove_qgis_import.
  rewrite remove_qgis_loop_skip by exact Hpre.
  cbn [remove_qgis_loop]. unfold has_qgis_import in Himp. rewrite Himp.
  pose proof (skip_blank_run blanks (pre ++ [import])%list []
                (0 + Z.of_nat (List.length pre))
                (List.length (pre ++ import :: blanks)) 1 Hbl)
    as Hrun.
  rewrite <- !app_assoc in Hrun. cbn [app] in Hrun.
  rewrite app_nil_r in Hrun.
  rewrite Hrun; [reflexivity | |].
  - rewrite !length_app. cbn [List.length]. lia.
  - rewrite length_app. cbn [List.length]. lia.
Qed.

Lemma remove_qgis_import_no_content_witness :
  remove_qgis_import
    ["import ee" ++ newline; "from ee_plugin import Map" ++ newline; newline]
  = Raise IndexError.
Proof.
  apply (remove_qgis_import_no_content
           ["import ee" ++ newline]
           ("from ee_plugin import Map" ++ newline)
           [newline]);
    reflexivity.
Defined.

(** The fuel of [skip_blank] is not used up once it exceeds the number of
    lines left: any such fuel gives the same result, so that the
    [IndexError] of [skip_blank] is always the one of the list access. *)
Lemma skip_blank_fuel lines start : forall fuel fuel' i,
  0 <= start + i ->
  (Z.to_nat (Lst.len lines - (start + i)) < fuel)%nat ->
  (Z.to_nat (Lst.len lines - (start + i)) < fuel')%nat ->
  skip_blank lines start fuel i = skip_blank lines start fuel' i.
Proof.
  induction fuel as [|fuel IH]; intros fuel' i Hi Hf Hf'; [lia|].
  destruct fuel' as [|fuel']; [lia|].
  cbn [skip_blank].
  destruct (Z.ltb_spec (start + i) (Lst.len lines)) as [Hin|Hout].
  - destruct (Lst.get lines (start + i)); [|reflexivity].
    cbn [bind]. destruct (negb _); [reflexivity|].
    apply IH; lia.
  - rewrite get_raises by lia. reflexivity.
Qed.

(** ** template_header and template_footer *)

Lemma header_end_loop_none todo : forall index acc,
  forallb (fun l => negb (is_header_mark l)) todo = true ->
  header_end_loop todo index acc = acc.
Proof.
  induction todo as [|l todo IH]; intros index acc H; [reflexivity|].
  simpl in H. apply andb_true_iff in H. destruct H as [Hl H].
  cbn [header_end_loop]. apply negb_true_iff in Hl.
  unfold is_header_mark in Hl. rewrite Hl. now apply IH.
Qed.

Lemma header_end_loop_last pre : forall mark post index acc,
  is_header_mark mark = true ->
  forallb (fun l => negb (is_header_mark l)) post = true ->
  header_end_loop (pre ++ mark :: post) index acc
  = index + Z.of_nat (List.length pre) + 5.
Proof.
  induction pre as [|l pre IH]; intros mark post index acc Hm Hp.
  - cbn [app header_end_loop List.length]. unfold is_header_mark in Hm.
    rewrite Hm, header_end_loop_none by exact Hp. lia.
  - cbn [app header_end_loop]. rewrite (IH mark post) by assumption.
    cbn [List.length]. lia.
Qed.

Lemma footer_start_loop_none todo : forall index acc,
  forallb (fun l => negb (is_footer_mark l)) todo = true ->
  footer_start_loop todo index acc = acc.
Proof.
  induction todo as [|l todo IH]; intros index acc H; [reflexivity|].
  simpl in H. apply andb_true_iff in H. destruct H as [Hl H].
  cbn [footer_start_loop]. apply negb_true_iff in Hl.
  unfold is_footer_mark in Hl. rewrite Hl. now apply IH.
Qed.

Lemma footer_start_loop_last pre : forall mark post index acc,
  is_footer_mark mark = true ->
  forallb (fun l => negb (is_footer_mark l)) post = true ->
  footer_start_loop (pre ++ mark :: post) index acc
  = index + Z.of_nat (List.length pre) - 3.
Proof.
  induction pre as [|l pre IH]; intros mark post index acc Hm Hp.
  - cbn [app footer_start_loop List.length]. unfold is_footer_mark in Hm.
    rewrite Hm, footer_start_loop_none by exact Hp. lia.
  - cbn [app footer_start_loop]. rewrite (IH mark post) by assumption.
    cbn [List.length]. lia.
Qed.

Lemma slice_upto_nat {A : Type} (l : list A) (n : nat) :
  Lst.slice l 0 (Z.of_nat n) = firstn n l.
Proof.
  unfold Lst.slice. rewrite clamp_nat.
  replace (Str.clamp (List.length l) 0) with O 
    by (unfold Str.clamp; change (0 <? 0) with false; cbv iota; lia).
  cbn [skipn]. rewrite Nat.sub_0_r.
  destruct (Nat.le_gt_cases n (List.length l)).
  - now rewrite Nat.min_l by lia.
  - rewrite Nat.min_r by lia. now rewrite !firstn_all2 by lia.
Qed.

Lemma slice_from_neg {A : Type} (l : list A) (n : nat) :
  (0 < n)%nat ->
  Lst.slice l (- Z.of_nat n) (Lst.len l) = skipn (List.length l - n) l.
Proof.
  intros Hn. unfold Lst.slice, Lst.len. rewrite clamp_nat, Nat.min_id.
  unfold Str.clamp. destruct (Z.ltb_spec (- Z.of_nat n) 0); [|lia].
  replace (Z.to_nat (Z.min (Z.max (- Z.of_nat n + Z.of_nat (List.length l)) 0)
                       (Z.of_nat (List.length l))))
    with (List.length l - n)%nat by lia.
  apply firstn_all2. rewrite length_skipn. lia.
Qed.

(** X17: on a template without the two marker lines, the header is empty
    and the footer is the whole template after a newline. *)
Theorem template_without_marks template_lines :
  forallb (fun l => negb (is_header_mark l)) template_lines = true ->
  forallb (fun l => negb (is_footer_mark l)) template_lines = true ->
  template_header template_lines = []
  /\ template_footer template_lines = newline :: template_lines.
Proof.
  intros Hh Hf. unfold template_header, template_footer.
  rewrite header_end_loop_none, footer_start_loop_none by assumption.
  split.
  - apply (slice_upto_nat template_lines 0).
  - f_equal. apply (slice_from_nat template_lines 0).
Qed.

Lemma template_without_marks_witness :
  template_header ["# a" ++ newline; "# b" ++ newline] = []
  /\ template_footer ["# a" ++ newline; "# b" ++ newline]
     = [newline; "# a" ++ newline; "# b" ++ newline].
Proof.
  apply (template_without_marks ["# a" ++ newline; "# b" ++ newline]);
    reflexivity.
Defined.

(** X18: the header is the template up to the fourth line after the last
    header marker, that is its first [index + 5] lines, or the whole
    template when it is shorter. *)
Theorem template_header_last_mark pre mark post :
  is_header_mark mark = true ->
  forallb (fun l => negb (is_header_mark l)) post = true ->
  template_header (pre ++ mark :: post)
  = firstn (List.length pre + 5) (pre ++ mark :: post).
Proof.
  intros Hm Hp. unfold template_header.
  rewrite header_end_loop_last by assumption.
  replace (0 + Z.of_nat (List.length pre) + 5)
    with (Z.of_nat (List.length pre + 5)) by lia.
  apply slice_upto_nat.
Qed.

Lemma template_header_last_mark_witness :
  template_header
    ["a"; "## Add Earth Engine Python script"; "b"; "c"; "d"; "e"; "f"; "g"]
  = ["a"; "## Add Earth Engine Python script"; "b"; "c"; "d"; "e"].
Proof.
  apply (template_header_last_mark ["a"]
           "## Add Earth Engine Python script"
           ["b"; "c"; "d"; "e"; "f"; "g"]);
    reflexivity.
Defined.

(** X19: the footer is a newline followed by the template from the third
    line before the last footer marker; when fewer than three lines come
    before that marker, the negative index counts from the end of the
    template, and the footer starts that many lines before the end. *)
Theorem template_footer_last_mark pre mark post :
  is_footer_mark mark = true ->
  forallb (fun l => negb (is_footer_mark l)) post = true ->
  let template_lines := (pre ++ mark :: post)%list in
  template_footer template_lines
  = newline
    :: skipn (if (3 <=? List.length pre)%nat then List.length pre - 3
              else List.length template_lines - (3 - List.length pre))
         template_lines.
Proof.
  intros Hm Hp template_lines. subst template_lines.
  unfold template_footer. f_equal.
  rewrite footer_start_loop_last by assumption.
  destruct (Nat.leb_spec 3 (List.length pre)) as [Hge|Hlt].
  - replace (0 + Z.of_nat (List.length pre) - 3)
      with (Z.of_nat (List.length pre - 3)) by lia.
    apply slice_from_nat.
  - replace (0 + Z.of_nat (List.length pre) - 3)
      with (- Z.of_nat (3 - List.length pre)) by lia.
    apply slice_from_neg. lia.
Qed.

Lemma template_footer_last_mark_witness :
  template_footer ["## Display Earth Engine data layers"; "a"; "b"; "c"; "d"]
  = [newline; "b"; "c"; "d"].
Proof.
  apply (template_footer_last_mark []
           "## Display Earth Engine data layers" ["a"; "b"; "c"; "d"]);
    reflexivity.
Defined.

(** ** py_to_ipynb *)

Lemma join_cons sep x y r :
  Str.join sep (x :: y :: r) = x ++ sep ++ Str.join sep (y :: r).
Proof. reflexivity. Qed.

(** Joining the pieces of a split gives the text back. *)
Lemma join_split ch s :
  Str.join (String ch "") (Str.split s (String ch "")) = s.
Proof.
  unfold Str.split. induction s as [|a s IH]; [reflexivity|].
  cbn [Str.split_go]. rewrite startswith_single. cbn [String.length Nat.sub].
  pose proof (split_go_nonempty (String ch "") s 0%nat) as Hn.
  destruct (Str.split_go (String ch "") 0 s) as [|p ps]; [congruence|].
  destruct (Ascii.eqb_spec ch a) as [->|Hne].
  - rewrite join_cons, IH. reflexivity.
  - destruct ps as [|q ps].
    + cbn [Str.join] in *. now rewrite IH.
    + rewrite join_cons in *. rewrite <- IH. reflexivity.
Qed.

Lemma list_index_go_app l : forall x r i,
  forallb (fun y => negb (String.eqb y x)) l = true ->
  list_index_go (l ++ x :: r) x i = Return (i + Z.of_nat (List.length l)).
Proof.
  induction l as [|y l IH]; intros x r i H.
  - cbn [app list_index_go List.length]. rewrite String.eqb_refl.
    now rewrite Z.add_0_r.
  - simpl in H. apply andb_true_iff in H. destruct H as [Hy H].
    cbn [app list_index_go]. apply negb_true_iff in Hy. rewrite Hy.
    rewrite IH by exact H. cbn [List.length]. f_equal. lia.
Qed.

Lemma list_index_go_absent l : forall x i,
  forallb (fun y => negb (String.eqb y x)) l = true ->
  list_index_go l x i = Raise ValueError.
Proof.
  induction l as [|y l IH]; intros x i H; [reflexivity|].
  simpl in H. apply andb_true_iff in H. destruct H as [Hy H].
  cbn [list_index_go]. apply negb_true_iff in Hy. rewrite Hy. now apply IH.
Qed.

(** X22: the path put in the notebook URLs is what follows the first
    component of [out_file] equal to [github_repo], with every [.py] in it
    turned into [.ipynb]. *)
Theorem notebook_relative_path_below dir repo rel :
  Str.occ "/" repo = O ->
  forallb (fun y => negb (String.eqb y repo)) (Str.split dir "/") = true ->
  notebook_relative_path (dir ++ "/" ++ repo ++ "/" ++ rel) repo
  = Return (Str.replace rel ".py" ".ipynb").
Proof.
  intros Hrepo Hdir. unfold notebook_relative_path.
  assert (Hsplit : Str.split (dir ++ "/" ++ repo ++ "/" ++ rel) "/"
                   = (Str.split dir "/" ++ repo :: Str.split rel "/")%list).
  { transitivity (Str.split dir "/" ++ Str.split (repo ++ "/" ++ rel) "/")%list;
      [exact (split_app "/" dir (repo ++ "/" ++ rel))|].
    f_equal. exact (split_first "/" repo rel Hrepo). }
  rewrite Hsplit. unfold list_index.
  rewrite list_index_go_app by exact Hdir. cbn [bind].
  replace (0 + Z.of_nat (List.length (Str.split dir "/")) + 1)
    with (Z.of_nat (List.length (Str.split dir "/") + 1)) by lia.
  rewrite slice_from_nat.
  replace (Str.split dir "/" ++ repo :: Str.split rel "/")%list
    with ((Str.split dir "/" ++ [repo]) ++ Str.split rel "/")%list
    by (now rewrite <- app_assoc).
  replace (List.length (Str.split dir "/") + 1)%nat
    with (List.length (Str.split dir "/" ++ [repo])%list)
    by (rewrite length_app; reflexivity).
  rewrite skipn_app, Nat.sub_diag, skipn_all. cbn [app skipn].
  now rewrite (join_split "/" rel).
Qed.

Lemma notebook_relative_path_below_witness :
  notebook_relative_path "/home/user/myrepo/examples/a.py" "myrepo"
  = Return "examples/a.ipynb".
Proof.
  apply (notebook_relative_path_below "/home/user" "myrepo" "examples/a.py");
    reflexivity.
Defined.

(** X23: when no component of [out_file] is [github_repo] (a component
    that only contains it does not count), [py_to_ipynb] called with the
    two GitHub names raises [ValueError] once the script has been read. *)
Theorem py_to_ipynb_repo_absent in_lines template_lines out_file username repo
    content :
  remove_qgis_import in_lines = Return content ->
  forallb (fun y => negb (String.eqb y repo)) (Str.split out_file "/") = true ->
  py_to_ipynb in_lines template_lines out_file (Some username) (Some repo)
  = Raise ValueError.
Proof.
  intros Hc H. unfold py_to_ipynb. rewrite Hc. cbn [bind].
  unfold notebook_relative_path, list_index.
  now rewrite list_index_go_absent by exact H.
Qed.

Lemma py_to_ipynb_repo_absent_witness :
  py_to_ipynb ["x = 1" ++ newline] ["# a" ++ newline]
    "/home/user/myrepo-old/a.ipynb" (Some "user") (Some "myrepo")
  = Raise ValueError.
Proof.
  apply (py_to_ipynb_repo_absent ["x = 1" ++ newline] ["# a" ++ newline]
           "/home/user/myrepo-old/a.ipynb" "user" "myrepo" None);
    reflexivity.
Defined.

(** X20: without the GitHub names, a script without the plugin import
    leaves nothing in the notebook text but the header and the footer of
    the template: none of its lines is written. *)
Theorem py_to_ipynb_without_import in_lines template_lines out_file :
  forallb (fun l => negb (has_qgis_import l)) in_lines = true ->
  py_to_ipynb in_lines template_lines out_file None None
  = Return (template_header template_lines
            ++ template_footer template_lines)%list.
Proof.
  intros H. unfold py_to_ipynb, remove_qgis_import.
  rewrite <- (app_nil_r in_lines) at 2.
  rewrite remove_qgis_loop_skip by exact H. reflexivity.
Qed.

Lemma py_to_ipynb_without_import_witness :
  py_to_ipynb ["import ee" ++ newline; "x = 1" ++ newline]
    ["# a" ++ newline; "# b" ++ newline] "a.ipynb" None None
  = Return [newline; "# a" ++ newline; "# b" ++ newline].
Proof.
  apply (py_to_ipynb_without_import
           ["import ee" ++ newline; "x = 1" ++ newline]
           ["# a" ++ newline; "# b" ++ newline] "a.ipynb").
  reflexivity.
Defined.

Lemma rewrite_header_length header : forall index u r p,
  List.length (rewrite_header header index u r p) = List.length header.
Proof.
  induction header as [|l header IH]; intros; simpl; [reflexivity|].
  now rewrite IH.
Qed.

Lemma rewrite_header_late header : forall index u r p,
  9 <= index -> rewrite_header header index u r p = header.
Proof.
  induction header as [|l header IH]; intros index u r p H; [reflexivity|].
  cbn [rewrite_header]. destruct (Z.ltb_spec index 9); [lia|].
  rewrite IH by lia. reflexivity.
Qed.

Lemma rewrite_header_skipn n : forall header index u r p,
  9 <= index + Z.of_nat n ->
  skipn n (rewrite_header header index u r p) = skipn n header.
Proof.
  induction n as [|n IH]; intros header index u r p H.
  - cbn [skipn]. apply rewrite_header_late. lia.
  - destruct header as [|l header]; [reflexivity|].
    cbn [rewrite_header skipn]. apply IH. lia.
Qed.

(** X21: with the GitHub names given, the text is a header, the script
    from its first line of content on (nothing when it has no plugin
    import), and the footer of the template; the header has as many lines
    as the header of the template, and only its first nine lines can differ
    from them. *)
Theorem py_to_ipynb_header in_lines template_lines out_file username repo out :
  py_to_ipynb in_lines template_lines out_file (Some username) (Some repo)
  = Return out ->
  exists new_header content,
    remove_qgis_import in_lines = Return content
    /\ out = (new_header
              ++ match content with Some c => c | None => [] end
              ++ template_footer template_lines)%list
    /\ List.length new_header = List.length (template_header template_lines)
    /\ skipn 9 new_header = skipn 9 (template_header template_lines).
Proof.
  unfold py_to_ipynb. intros H. bind_inv H. bind_inv H. bind_inv E0.
  inversion E0; subst a0; clear E0.
  set (header := template_header template_lines) in *.
  exists (rewrite_header header 0 username repo a1), a.
  split; [exact E|]. split; [|split].
  - destruct a; inversion H; reflexivity.
  - apply rewrite_header_length.
  - apply rewrite_header_skipn. lia.
Qed.

Lemma py_to_ipynb_header_witness :
  exists out new_header content,
    py_to_ipynb
      ["from ee_plugin import Map" ++ newline; newline; "x = 1" ++ newline]
      ["giswqs/geemap"; "## Add Earth Engine Python script"]
      "/home/user/myrepo/a.py" (Some "user") (Some "myrepo")
    = Return out
    /\ remove_qgis_import
         ["from ee_plugin import Map" ++ newline; newline;
          "x = 1" ++ newline]
       = Return content
    /\ out = (new_header
              ++ match content with Some c => c | None => [] end
              ++ template_footer
                   ["giswqs/geemap"; "## Add Earth Engine Python script"])%list
    /\ List.length new_header
       = List.length
           (template_header
              ["giswqs/geemap"; "## Add Earth Engine Python script"])
    /\ skipn 9 new_header
       = skipn 9
           (template_header
              ["giswqs/geemap"; "## Add Earth Engine Python script"]).
Proof.
  eexists.
  assert (H : py_to_ipynb
                ["from ee_plugin import Map" ++ newline; newline;
                 "x = 1" ++ newline]
                ["giswqs/geemap"; "## Add Earth Engine Python script"]
                "/home/user/myrepo/a.py" (Some "user") (Some "myrepo")
              = Return ["user/myrepo"; "## Add Earth Engine Python script";
                        "x = 1" ++ newline; newline; "giswqs/geemap";
                        "## Add Earth Engine Python script"])
    by (vm_compute; reflexivity).
  destruct (py_to_ipynb_header _ _ _ _ _ _ H) as [new_header [content Hs]].
  exists new_header, content. split; [exact H | exact Hs].
Defined.

(** ** update_nb_header *)

Lemma update_header_length u r p header : forall new_header,
  update_header u r p header = Return new_header ->
  List.length new_header = List.length header.
Proof.
  induction header as [|l header IH]; intros new_header H; simpl in H.
  - inversion H. reflexivity.
  - bind_inv H. bind_inv H. inversion H; subst. simpl. f_equal. now apply IH.
Qed.

(** [l[:m] + l[m:]] is [l], and the first part has [clamp] entries. *)
Lemma slice_halves {A : Type} (l : list A) (m : Z) :
  Lst.slice l 0 m = firstn (Str.clamp (List.length l) m) l
  /\ Lst.slice l m (Lst.len l) = skipn (Str.clamp (List.length l) m) l.
Proof.
  unfold Lst.slice, Lst.len.
  replace (Str.clamp (List.length l) 0) with O
    by (unfold Str.clamp; change (0 <? 0) with false; cbv iota; lia).
  rewrite clamp_nat, Nat.min_id, Nat.sub_0_r. cbn [skipn].
  split; [reflexivity|].
  apply firstn_all2. rewrite length_skipn. lia.
Qed.

(** X24: the notebook keeps its number of lines, and its lines from the
    one returned by [find_matching_bracket] for the first brace of the
    third line are written back as they are. *)
Theorem update_nb_header_lines in_file username repo lines out :
  update_nb_header in_file username repo lines = Return out ->
  List.length out = List.length lines
  /\ exists line start_char_index m mc,
       Lst.get lines 2 = Return line
       /\ Str.index line "{" = Return start_char_index
       /\ find_matching_bracket lines 2 start_char_index "{" = Return (m, mc)
       /\ Lst.slice out m (Lst.len out) = Lst.slice lines m (Lst.len lines).
Proof.
  unfold update_nb_header. intros H.
  apply bind_Return in H. destruct H as [index [Hindex H]].
  apply bind_Return in H. destruct H as [line [Hline H]].
  apply bind_Return in H. destruct H as [start_char_index [Hstart H]].
  apply bind_Return in H. destruct H as [[m mc] [Hmatch H]].
  apply bind_Return in H. destruct H as [new_header [Hnew H]].
  inversion H; subst out; clear H.
  apply update_header_length in Hnew.
  destruct (slice_halves lines m) as [Hh Hc]. rewrite Hh in Hnew. rewrite Hc.
  set (k := Str.clamp (List.length lines) m) in *.
  assert (Hk : (k <= List.length lines)%nat) by (unfold k, Str.clamp; lia).
  rewrite length_firstn, Nat.min_l in Hnew by exact Hk.
  assert (Hlen : List.length (new_header ++ skipn k lines)%list
                 = List.length lines).
  { rewrite length_app, length_skipn. lia. }
  split; [exact Hlen|].
  exists line, start_char_index, m, mc. repeat split; try assumption.
  destruct (slice_halves (new_header ++ skipn k lines)%list m) as [_ Hc'].
  rewrite Hc', Hlen. fold k. rewrite skipn_app, Hnew, Nat.sub_diag.
  rewrite skipn_all2 by lia. rewrite Hc. reflexivity.
Qed.

Lemma update_nb_header_lines_witness :
  exists out,
    update_nb_header "/home/user/myrepo/examples/nb.ipynb"
      (Some "user") (Some "myrepo")
      ["{"; " cells: ["; "  {";
       "   giswqs/geemap/blob/master/examples/template/template.ipynb";
       "  },"; "  giswqs"]
    = Return out
    /\ out = ["{"; " cells: ["; "  {";
              "   user/myrepo/blob/master/examples/nb.ipynb";
              "  },"; "  giswqs"]
    /\ List.length out = 6%nat
    /\ Lst.slice out 4 (Lst.len out) = ["  },"; "  giswqs"].
Proof.
  eexists. split; [vm_compute; reflexivity|]. split; [reflexivity|].
  destruct (update_nb_header_lines "/home/user/myrepo/examples/nb.ipynb"
              (Some "user") (Some "myrepo")
              ["{"; " cells: ["; "  {";
               "   giswqs/geemap/blob/master/examples/template/template.ipynb";
               "  },"; "  giswqs"]
              ["{"; " cells: ["; "  {";
               "   user/myrepo/blob/master/examples/nb.ipynb";
               "  },"; "  giswqs"])
    as [Hlen [line [start_char_index [m [mc [Hl [Hs [Hm Ht]]]]]]]];
    [vm_compute; reflexivity|].
  split; [exact Hlen|].
  inversion Hl; subst line. inversion Hs; subst start_char_index.
  inversion Hm; subst m mc. exact Ht.
Defined.

(** X25: a notebook of fewer than three lines makes [update_nb_header]
    raise [IndexError], once the repository name has been found in the
    path of the file. *)
Theorem update_nb_header_short in_file username repo lines index :
  Str.index in_file (match repo with Some r => r | None => "geemap" end)
  = Return index ->
  (List.length lines < 3)%nat ->
  update_nb_header in_file username repo lines = Raise IndexError.
Proof.
  intros Hi Hl. unfold update_nb_header. rewrite Hi. cbn [bind].
  rewrite get_raises; [reflexivity|]. unfold Lst.len. lia.
Qed.

Lemma update_nb_header_short_witness :
  update_nb_header "/home/geemap/nb.ipynb" None None ["{"; "}"]
  = Raise IndexError.
Proof.
  apply (update_nb_header_short "/home/geemap/nb.ipynb" None None ["{"; "}"]
           6);
    [reflexivity | simpl; lia].
Defined.

(** ** download_gee_app and download_from_gdrive: the URL *)

(** The pieces of a path made of components without a slash are these
    components. *)
Lemma split_join items : forall item,
  forallb (fun c => (Str.occ "/" c =? 0)%nat) (item :: items) = true ->
  Str.split (Str.join "/" (item :: items)) "/" = item :: items.
Proof.
  induction items as [|next items IH]; intros item H.
  - simpl in H. rewrite andb_true_r in H. apply Nat.eqb_eq in H.
    exact (split_none "/" item H).
  - cbn [forallb] in H. apply andb_true_iff in H. destruct H as [Hi H].
    apply Nat.eqb_eq in Hi. rewrite join_cons.
    transitivity (item :: Str.split (Str.join "/" (next :: items)) "/");
      [exact (split_first "/" item _ Hi)|].
    f_equal. apply IH. exact H.
Qed.

(** X26: in a URL of at least five components, [download_gee_app] puts
    [javascript] in place of the fourth component and [-modules.json] after
    the fifth, and keeps every other component and every slash. *)
Theorem download_gee_app_json_url_parts c0 c1 c2 c3 c4 rest :
  forallb (fun c => (Str.occ "/" c =? 0)%nat)
    (c0 :: c1 :: c2 :: c3 :: c4 :: rest) = true ->
  download_gee_app_json_url (Str.join "/" (c0 :: c1 :: c2 :: c3 :: c4 :: rest))
  = Return (Str.join "/"
              (c0 :: c1 :: c2 :: "javascript" :: (c4 ++ "-modules.json")
               :: rest)).
Proof.
  intros H. unfold download_gee_app_json_url. rewrite (split_join _ _ H).
  unfold Lst.set. rewrite (pos_nat _ 3). cbn [List.length Nat.ltb Nat.leb].
  cbn [bind Lst.update]. rewrite (get_nat _ 4). cbn [nth_error bind].
  rewrite (pos_nat _ 4). reflexivity.
Qed.

(** X27: a URL with fewer than four slashes makes [download_gee_app] raise
    [IndexError] before anything is downloaded. *)
Theorem download_gee_app_json_url_short url :
  (Str.occ "/" url < 4)%nat ->
  download_gee_app_json_url url = Raise IndexError.
Proof.
  intros H. unfold download_gee_app_json_url.
  pose proof (split_count "/" url) as Hlen.
  destruct (Str.split url "/") as [|c0 [|c1 [|c2 [|c3 [|c4 r]]]]];
    simpl in Hlen; try lia; reflexivity.
Qed.

Lemma download_gee_app_json_url_short_witness :
  download_gee_app_json_url "https://user.users.earthengine.app/view"
  = Raise IndexError.
Proof.
  apply (download_gee_app_json_url_short
           "https://user.users.earthengine.app/view").
  vm_compute. lia.
Defined.

(** X28: the file id that [download_from_gdrive] downloads is the sixth
    component of the URL. *)
Theorem download_from_gdrive_file_id_parts c0 c1 c2 c3 c4 id rest :
  forallb (fun c => (Str.occ "/" c =? 0)%nat)
    (c0 :: c1 :: c2 :: c3 :: c4 :: id :: rest) = true ->
  download_from_gdrive_file_id (Str.join "/" (c0 :: c1 :: c2 :: c3 :: c4 :: id :: rest))
  = Return id.
Proof.
  intros H. unfold download_from_gdrive_file_id. rewrite (split_join _ _ H).
  rewrite (get_nat _ 5). reflexivity.
Qed.

Lemma download_from_gdrive_file_id_parts_witness :
  download_from_gdrive_file_id
    "https://drive.google.com/file/d/18SUo_HcDGltuWYZs1s7PpOmOq/view"
  = Return "18SUo_HcDGltuWYZs1s7PpOmOq".
Proof.
  apply (download_from_gdrive_file_id_parts "https:" "" "drive.google.com"
           "file" "d" "18SUo_HcDGltuWYZs1s7PpOmOq" ["view"]).
  reflexivity.
Defined.

Lemma download_gee_app_json_url_parts_witness :
  download_gee_app_json_url "https://user.users.earthengine.app/view/app"
  = Return "https://user.users.earthengine.app/javascript/app-modules.json".
Proof.
  apply (download_gee_app_json_url_parts "https:" "" "user.users.earthengine.app"
           "view" "app" []).
  reflexivity.
Defined.
